(** * SceneManager.cpp: tagged-resource registry and per-draw binding protocol

    A shallow embedding of [src/SceneManager.cpp].  The C++ object state
    (the members of [SceneManager]) and everything the member functions do to
    the outside world (shader uniforms, OpenGL calls, mesh requests, console
    output) are made explicit: a member function is a computation in a small
    state-and-fault monad over a [World], which pairs the object with the
    chronological trace of external calls.

    Floating-point values are never inspected by the code that is modelled
    here: they are written as literals, copied, and handed to GLM.  The type
    of floats and the type of 4x4 matrices are therefore parameters, and the
    GLM functions used by [SetTransformations] are parameters of that
    function. *)

From Stdlib Require Import ZArith QArith Reals String DecimalString Lia.
From stdpp Require Import base list strings.

Local Open Scope Z_scope.

(** ** Data *)

(** [glm::vec2], [glm::vec3], [glm::vec4]. *)
Record vec2 (float : Type) := Vec2 { v2_x : float; v2_y : float }.
Record vec3 (float : Type) := Vec3 { v3_x : float; v3_y : float; v3_z : float }.
Record vec4 (float : Type) :=
  Vec4 { v4_r : float; v4_g : float; v4_b : float; v4_a : float }.
Arguments Vec2 {float}.
Arguments Vec3 {float}.
Arguments Vec4 {float}.
Arguments v3_x {float}.
Arguments v3_y {float}.
Arguments v3_z {float}.

(** [TEXTURE_INFO]: the pair of a tag and an OpenGL texture name.  The struct
    is declared in SceneManager.h; its two members are the ones
    [CreateGLTexture] assigns. *)
Record TEXTURE_INFO := mkTEXTURE_INFO { ID : Z; tag : string }.

(** [OBJECT_MATERIAL]: the five material fields read and written by
    [FindMaterial], and the tag (projection [material_tag], since [tag] is
    taken by [TEXTURE_INFO]). *)
Record OBJECT_MATERIAL (float : Type) := mkOBJECT_MATERIAL {
  ambientColor : vec3 float;
  ambientStrength : float;
  diffuseColor : vec3 float;
  specularColor : vec3 float;
  shininess : float;
  material_tag : string
}.
Arguments mkOBJECT_MATERIAL {float}.
Arguments ambientColor {float}.
Arguments ambientStrength {float}.
Arguments diffuseColor {float}.
Arguments specularColor {float}.
Arguments shininess {float}.
Arguments material_tag {float}.

(** A C++ pointer to the one [ShaderManager] object of the program. *)
Inductive pointer := NULL | PTR.

(** The members of [SceneManager].  [m_textureIDs] is a C array, modelled as
    a list whose length is the array bound; [m_loadedTextures] is an [int].
    [m_basicMeshes] is set by the constructor to a fresh object and never
    null afterwards, so it carries no state here. *)
Record SceneManager (float : Type) := mkSceneManager {
  m_pShaderManager : pointer;
  m_textureIDs : list TEXTURE_INFO;
  m_loadedTextures : Z;
  m_objectMaterials : list (OBJECT_MATERIAL float)
}.
Arguments mkSceneManager {float}.
Arguments m_pShaderManager {float}.
Arguments m_textureIDs {float}.
Arguments m_loadedTextures {float}.
Arguments m_objectMaterials {float}.

(** Modelled from the spec: the bound of the array [m_textureIDs] is declared
    in SceneManager.h, which is not among the sources.  The spec gives the
    fixed capacity 16, and the comment of [BindGLTextures] says "There are up
    to 16 slots". *)
Definition TEXTURE_CAPACITY : nat := 16.

(** ** The outside world *)

(** Modelled from the spec: the shader-uniform interface ([ShaderManager],
    not among the sources) has named setters for boolean, integer, float,
    2/3/4-vector, 4x4-matrix and sampler-index values.  A call is recorded
    with the kind of the setter and the value passed. *)
Inductive uvalue (float mat4 : Type) :=
| UBool (b : bool)
| UInt (n : Z)
| UFloat (f : float)
| UVec2 (v : vec2 float)
| UVec3 (v : vec3 float)
| UVec4 (v : vec4 float)
| UMat4 (m : mat4)
| USampler2D (n : Z).
Arguments UBool {float mat4}.
Arguments UInt {float mat4}.
Arguments UFloat {float mat4}.
Arguments UVec2 {float mat4}.
Arguments UVec3 {float mat4}.
Arguments UVec4 {float mat4}.
Arguments UMat4 {float mat4}.
Arguments USampler2D {float mat4}.

(** The image decoder [stbi_load] yields the dimensions and the channel count
    of the decoded file (the pixel data is identified by the file name). *)
Record Image := mkImage { width : Z; height : Z; colorChannels : Z }.

Inductive gl_wrap_axis := GL_TEXTURE_WRAP_S | GL_TEXTURE_WRAP_T.
Inductive gl_filter := GL_TEXTURE_MIN_FILTER | GL_TEXTURE_MAG_FILTER.
Inductive gl_format := GL_RGB8 | GL_RGBA8.

(** The OpenGL calls made by the file, target [GL_TEXTURE_2D] throughout. *)
Inductive gl_call :=
| glGenTextures (name : Z)
| glBindTexture (name : Z)
| glTexParameteri_wrap (axis : gl_wrap_axis)
| glTexParameteri_filter (f : gl_filter)
| glTexImage2D (fmt : gl_format) (w h : Z) (pixels : string)
| glGenerateMipmap
| glActiveTexture (unit : Z)
| glDeleteTextures (name : Z).

(** The calls on [m_basicMeshes]. *)
Inductive mesh_kind := Plane | Box | Sphere | Cylinder | Cone.
Inductive mesh_call := LoadMesh (k : mesh_kind) | DrawMesh (k : mesh_kind).

(** The lines written to [std::cout]. *)
Inductive cout_line :=
| Successfully_loaded (filename : string) (w h channels : Z)
| Not_implemented_channels (channels : Z)
| Could_not_load (filename : string).

Inductive event (float mat4 : Type) :=
| EvUniform (name : string) (v : uvalue float mat4)
| EvGL (c : gl_call)
| EvMesh (c : mesh_call)
| EvFlipVertically (b : bool)
| EvImageFree (filename : string)
| EvCout (l : cout_line).
Arguments EvUniform {float mat4}.
Arguments EvGL {float mat4}.
Arguments EvMesh {float mat4}.
Arguments EvFlipVertically {float mat4}.
Arguments EvImageFree {float mat4}.
Arguments EvCout {float mat4}.

(** The object together with the trace of external calls, oldest first. *)
Record World (float mat4 : Type) := mkWorld {
  self : SceneManager float;
  trace : list (event float mat4)
}.
Arguments mkWorld {float mat4}.
Arguments self {float mat4}.
Arguments trace {float mat4}.

(** ** Faults and the monad *)

(** What C++ leaves undefined and the code can run into: calling a member
    through a null [m_pShaderManager], and indexing [m_textureIDs] outside
    its bound. *)
Inductive fault := NullDereference | OutOfBounds (index : Z).

Inductive result (A : Type) := Ok (a : A) | Fault (f : fault).
Arguments Ok {A}.
Arguments Fault {A}.

Definition M (float mat4 A : Type) : Type :=
  World float mat4 -> result (A * World float mat4).

Section Monad.
Context {float mat4 : Type}.

Definition ret {A} (a : A) : M float mat4 A := fun w => Ok (a, w).

Definition bind {A B} (c : M float mat4 A) (k : A -> M float mat4 B)
  : M float mat4 B :=
  fun w => match c w with
           | Ok (a, w') => k a w'
           | Fault f => Fault f
           end.

Definition raise {A} (f : fault) : M float mat4 A := fun _ => Fault f.

Definition get_self : M float mat4 (SceneManager float) :=
  fun w => Ok (self w, w).

Definition put_self (s : SceneManager float) : M float mat4 unit :=
  fun w => Ok (tt, mkWorld s (trace w)).

Definition get_trace : M float mat4 (list (event float mat4)) :=
  fun w => Ok (trace w, w).

Definition emit (e : event float mat4) : M float mat4 unit :=
  fun w => Ok (tt, mkWorld (self w) (trace w ++ [e])).
End Monad.

Declare Scope scene_scope.
Delimit Scope scene_scope with scene.
Notation "'let*' x ':=' c 'in' k" := (bind c (fun x => k))
  (at level 10, x name, c at level 100, k at level 200) : scene_scope.
Notation "c ';;;' k" := (bind c (fun _ => k))
  (at level 100, k at level 200, right associativity) : scene_scope.
Local Open Scope scene_scope.

(** ** Calls on the outside world *)

Section Primitives.
Context {float mat4 : Type}.
Local Abbreviation M' := (M float mat4).

Definition gl (c : gl_call) : M' unit := emit (EvGL c).
Definition cout (l : cout_line) : M' unit := emit (EvCout l).
Definition mesh (c : mesh_call) : M' unit := emit (EvMesh c).

(** [m_pShaderManager->set...Value(name, v)]: a member call through the
    pointer, undefined when the pointer is null. *)
Definition shader_set (name : string) (v : uvalue float mat4) : M' unit :=
  let* s := get_self in
  match m_pShaderManager s with
  | NULL => raise NullDereference
  | PTR => emit (EvUniform name v)
  end.

(** The name written by [glGenTextures(1, &textureID)].  OpenGL returns a
    name not in use; the model hands names out consecutively from 1. *)
Fixpoint generated_names (tr : list (event float mat4)) : Z :=
  match tr with
  | [] => 0
  | EvGL (glGenTextures _) :: tr' => 1 + generated_names tr'
  | _ :: tr' => generated_names tr'
  end.

Definition fresh_texture_name (tr : list (event float mat4)) : Z :=
  1 + generated_names tr.

(** [a[i]] for a C array [a]: defined inside the bound only. *)
Definition array_get (a : list TEXTURE_INFO) (i : Z) : result TEXTURE_INFO :=
  if 0 <=? i then
    match a !! Z.to_nat i with
    | Some e => Ok e
    | None => Fault (OutOfBounds i)
    end
  else Fault (OutOfBounds i).

(** [a[i] = f(a[i])], a write into the array at index [i]. *)
Definition array_update (a : list TEXTURE_INFO) (i : Z)
    (f : TEXTURE_INFO -> TEXTURE_INFO) : result (list TEXTURE_INFO) :=
  match array_get a i with
  | Ok e => Ok (<[Z.to_nat i := f e]> a)
  | Fault x => Fault x
  end.

Definition lift {A} (r : result A) : M' A :=
  fun w => match r with Ok a => Ok (a, w) | Fault f => Fault f end.

(** [for (int i = lo; i < hi; i++) body(i)], for a body that does not
    change [hi]: [n] is the number of iterations left. *)
Fixpoint for_count (n : nat) (i : Z) (body : Z -> M' unit) : M' unit :=
  match n with
  | O => ret tt
  | S n' => body i ;;; for_count n' (i + 1) body
  end.

Definition for_range (lo hi : Z) (body : Z -> M' unit) : M' unit :=
  for_count (Z.to_nat (hi - lo)) lo body.
End Primitives.

(** ** The texture registry *)

Section TextureRegistry.
Context {float mat4 : Type}.
Local Abbreviation M' := (M float mat4).

(** The image decoder: [stbi_load filename] is the decoded image, or
    [None] when the file cannot be read or parsed. *)
Variable stbi_load : string -> option Image.

Definition set_ID (v : Z) (e : TEXTURE_INFO) : TEXTURE_INFO :=
  mkTEXTURE_INFO v (tag e).
Definition set_tag (t : string) (e : TEXTURE_INFO) : TEXTURE_INFO :=
  mkTEXTURE_INFO (ID e) t.

(** The tail of [CreateGLTexture] after the pixel upload (lines 107-119):
    mipmaps, release of the image, unbind, then the two array writes at
    index [m_loadedTextures] and the increment. *)
Definition register_texture (filename : string) (textureID : Z)
    (tag0 : string) : M' bool :=
  gl glGenerateMipmap ;;;
  emit (EvImageFree filename) ;;;
  gl (glBindTexture 0) ;;;
  (let* s := get_self in
   let* a := lift (array_update (m_textureIDs s) (m_loadedTextures s)
                     (set_ID textureID)) in
   put_self (mkSceneManager (m_pShaderManager s) a (m_loadedTextures s)
               (m_objectMaterials s))) ;;;
  (let* s := get_self in
   let* a := lift (array_update (m_textureIDs s) (m_loadedTextures s)
                     (set_tag tag0)) in
   put_self (mkSceneManager (m_pShaderManager s) a (m_loadedTextures s)
               (m_objectMaterials s))) ;;;
  (let* s := get_self in
   put_self (mkSceneManager (m_pShaderManager s) (m_textureIDs s)
               (m_loadedTextures s + 1) (m_objectMaterials s))) ;;;
  ret true.

Definition CreateGLTexture (filename : string) (tag0 : string) : M' bool :=
  emit (EvFlipVertically true) ;;;
  match stbi_load filename with
  | Some image =>
      cout (Successfully_loaded filename (width image) (height image)
              (colorChannels image)) ;;;
      let* tr := get_trace in
      let textureID := fresh_texture_name tr in
      gl (glGenTextures textureID) ;;;
      gl (glBindTexture textureID) ;;;
      gl (glTexParameteri_wrap GL_TEXTURE_WRAP_S) ;;;
      gl (glTexParameteri_wrap GL_TEXTURE_WRAP_T) ;;;
      gl (glTexParameteri_filter GL_TEXTURE_MIN_FILTER) ;;;
      gl (glTexParameteri_filter GL_TEXTURE_MAG_FILTER) ;;;
      if colorChannels image =? 3 then
        gl (glTexImage2D GL_RGB8 (width image) (height image) filename) ;;;
        register_texture filename textureID tag0
      else if colorChannels image =? 4 then
        gl (glTexImage2D GL_RGBA8 (width image) (height image) filename) ;;;
        register_texture filename textureID tag0
      else
        cout (Not_implemented_channels (colorChannels image)) ;;;
        ret false
  | None =>
      cout (Could_not_load filename) ;;;
      ret false
  end.

Definition BindGLTextures : M' unit :=
  let* s := get_self in
  for_range 0 (m_loadedTextures s) (fun i =>
    gl (glActiveTexture i) ;;;
    let* e := lift (array_get (m_textureIDs s) i) in
    gl (glBindTexture (ID e))).

Definition DestroyGLTextures : M' unit :=
  let* s := get_self in
  for_range 0 (m_loadedTextures s) (fun i =>
    let* e := lift (array_get (m_textureIDs s) i) in
    gl (glDeleteTextures (ID e))).

(** The conversion of a [GLuint] to [int] in [textureID = ...ID]. *)
Definition int_of_GLuint (u : Z) : Z :=
  if u <? 2 ^ 31 then u else u - 2 ^ 32.

(** The loop of [FindTextureID] (lines 170-179).  [n] is the number of
    slots from [index] up to [m_loadedTextures] still to be examined: with
    none left the loop condition [index < m_loadedTextures] fails and the
    initial [textureID = -1] is returned; at a match [bFound] ends the
    loop with the ID of that slot. *)
Fixpoint FindTextureID_loop (a : list TEXTURE_INFO) (tag0 : string)
    (n : nat) (index : Z) : result Z :=
  match n with
  | O => Ok (-1)
  | S n' =>
      match array_get a index with
      | Ok e =>
          if String.eqb (tag e) tag0 then Ok (int_of_GLuint (ID e))
          else FindTextureID_loop a tag0 n' (index + 1)
      | Fault f => Fault f
      end
  end.

Definition FindTextureID (s : SceneManager float) (tag0 : string)
  : result Z :=
  FindTextureID_loop (m_textureIDs s) tag0 (Z.to_nat (m_loadedTextures s)) 0.

(** The loop of [FindTextureSlot] (lines 196-205), likewise; at a match
    the result is [index]. *)
Fixpoint FindTextureSlot_loop (a : list TEXTURE_INFO) (tag0 : string)
    (n : nat) (index : Z) : result Z :=
  match n with
  | O => Ok (-1)
  | S n' =>
      match array_get a index with
      | Ok e =>
          if String.eqb (tag e) tag0 then Ok index
          else FindTextureSlot_loop a tag0 n' (index + 1)
      | Fault f => Fault f
      end
  end.

Definition FindTextureSlot (s : SceneManager float) (tag0 : string)
  : result Z :=
  FindTextureSlot_loop (m_textureIDs s) tag0
    (Z.to_nat (m_loadedTextures s)) 0.
End TextureRegistry.

(** ** The material registry *)

Section MaterialRegistry.
Context {float mat4 : Type}.
Local Abbreviation M' := (M float mat4).

(** The decimal literals of the source ([0.3f], [16.0f], ...) denote floats
    through [flit]. *)
Variable flit : Q -> float.

(** The loop of [FindMaterial] (lines 225-240) over the vector
    [m_objectMaterials], from [index] on: at the first entry whose tag
    compares equal, five fields are assigned to [material] (its tag is not)
    and [bFound] ends the loop; past the last entry the loop ends with
    [material] as it was. *)
Fixpoint FindMaterial_loop (l : list (OBJECT_MATERIAL float))
    (tag0 : string) (material : OBJECT_MATERIAL float)
  : OBJECT_MATERIAL float :=
  match l with
  | [] => material
  | m :: rest =>
      if String.eqb (material_tag m) tag0 then
        mkOBJECT_MATERIAL (ambientColor m) (ambientStrength m)
          (diffuseColor m) (specularColor m) (shininess m)
          (material_tag material)
      else FindMaterial_loop rest tag0 material
  end.

(** [FindMaterial(tag, material)]: the result is the returned [bool] and the
    contents of the reference parameter [material] on return. *)
Definition FindMaterial (s : SceneManager float) (tag0 : string)
    (material : OBJECT_MATERIAL float) : bool * OBJECT_MATERIAL float :=
  if (length (m_objectMaterials s) =? 0)%nat then (false, material)
  else (true, FindMaterial_loop (m_objectMaterials s) tag0 material).

Definition push_back (m : OBJECT_MATERIAL float) : M' unit :=
  let* s := get_self in
  put_self (mkSceneManager (m_pShaderManager s) (m_textureIDs s)
              (m_loadedTextures s) (m_objectMaterials s ++ [m])).

Definition glm_vec3 (a b c : Q) : vec3 float :=
  Vec3 (flit a) (flit b) (flit c).

Definition planeMaterial : OBJECT_MATERIAL float :=
  mkOBJECT_MATERIAL (glm_vec3 0.3 0.3 0.25) (flit 0.3) (glm_vec3 0.8 0.8 0.8)
    (glm_vec3 0.2 0.2 0.2) (flit 16.0) "plane".
Definition cylinderMaterial : OBJECT_MATERIAL float :=
  mkOBJECT_MATERIAL (glm_vec3 0.25 0.25 0.25) (flit 0.25)
    (glm_vec3 0.7 0.7 0.7) (glm_vec3 0.3 0.3 0.3) (flit 32.0) "cylinder".
Definition boxMaterial : OBJECT_MATERIAL float :=
  mkOBJECT_MATERIAL (glm_vec3 0.2 0.15 0.1) (flit 0.4) (glm_vec3 0.6 0.4 0.2)
    (glm_vec3 0.4 0.4 0.4) (flit 64.0) "box".
Definition sphereMaterial : OBJECT_MATERIAL float :=
  mkOBJECT_MATERIAL (glm_vec3 0.3 0.25 0.1) (flit 0.2) (glm_vec3 0.8 0.7 0.3)
    (glm_vec3 0.9 0.9 0.7) (flit 128.0) "sphere".
Definition lampBaseMaterial : OBJECT_MATERIAL float :=
  mkOBJECT_MATERIAL (glm_vec3 0.1 0.1 0.1) (flit 0.3) (glm_vec3 0.3 0.3 0.3)
    (glm_vec3 0.5 0.5 0.5) (flit 64.0) "lampBase".
Definition lampShadeMaterial : OBJECT_MATERIAL float :=
  mkOBJECT_MATERIAL (glm_vec3 0.9 0.9 0.8) (flit 0.4)
    (glm_vec3 0.95 0.95 0.9) (glm_vec3 0.2 0.2 0.2) (flit 16.0) "lampShade".
Definition bedMaterial : OBJECT_MATERIAL float :=
  mkOBJECT_MATERIAL (glm_vec3 0.1 0.1 0.3) (flit 0.3) (glm_vec3 0.2 0.3 0.8)
    (glm_vec3 0.1 0.1 0.3) (flit 32.0) "bed".
Definition pillowMaterial : OBJECT_MATERIAL float :=
  mkOBJECT_MATERIAL (glm_vec3 0.9 0.9 0.9) (flit 0.4) (glm_vec3 1.0 1.0 1.0)
    (glm_vec3 0.3 0.3 0.3) (flit 16.0) "pillow".
Definition rugMaterial : OBJECT_MATERIAL float :=
  mkOBJECT_MATERIAL (glm_vec3 0.3 0.1 0.1) (flit 0.4) (glm_vec3 0.7 0.2 0.2)
    (glm_vec3 0.1 0.1 0.1) (flit 8.0) "rug".

Definition DefineObjectMaterials : M' unit :=
  push_back planeMaterial ;;;
  push_back cylinderMaterial ;;;
  push_back boxMaterial ;;;
  push_back sphereMaterial ;;;
  push_back lampBaseMaterial ;;;
  push_back lampShadeMaterial ;;;
  push_back bedMaterial ;;;
  push_back pillowMaterial ;;;
  push_back rugMaterial.
End MaterialRegistry.

(** ** The binding protocol *)

Definition g_ModelName : string := "model".
Definition g_ColorValueName : string := "objectColor".
Definition g_TextureValueName : string := "objectTexture".
Definition g_UseTextureName : string := "bUseTexture".
Definition g_UseLightingName : string := "bUseLighting".

(** [std::to_string(i)] for an [int]. *)
Definition to_string (i : Z) : string := NilZero.string_of_int (Z.to_int i).

Section Binding.
Context {float mat4 : Type}.
Local Abbreviation M' := (M float mat4).

Variable flit : Q -> float.

(** GLM is an external library: [glm::radians], [glm::scale],
    [glm::rotate (angle, axis)], [glm::translate] and the product of two
    [glm::mat4] are parameters. *)
Variable glm_radians : float -> float.
Variable glm_scale : vec3 float -> mat4.
Variable glm_rotate : float -> vec3 float -> mat4.
Variable glm_translate : vec3 float -> mat4.
Variable mat4_mul : mat4 -> mat4 -> mat4.

(** The contents of a local [OBJECT_MATERIAL material;] that has only been
    default-initialised: whatever the float members happen to hold. *)
Variable indeterminate : OBJECT_MATERIAL float.

Local Infix "*" := mat4_mul (at level 40, left associativity) : scene_scope.

(** The value of [modelView] computed on line 275; C++ parses the product
    from the left. *)
Definition modelView (scaleXYZ : vec3 float)
    (XrotationDegrees YrotationDegrees ZrotationDegrees : float)
    (positionXYZ : vec3 float) : mat4 :=
  let scale := glm_scale scaleXYZ in
  let rotationX :=
    glm_rotate (glm_radians XrotationDegrees)
      (Vec3 (flit 1.0) (flit 0.0) (flit 0.0)) in
  let rotationY :=
    glm_rotate (glm_radians YrotationDegrees)
      (Vec3 (flit 0.0) (flit 1.0) (flit 0.0)) in
  let rotationZ :=
    glm_rotate (glm_radians ZrotationDegrees)
      (Vec3 (flit 0.0) (flit 0.0) (flit 1.0)) in
  let translation := glm_translate positionXYZ in
  (translation * rotationZ * rotationY * rotationX * scale)%scene.

Definition SetTransformations (scaleXYZ : vec3 float)
    (XrotationDegrees YrotationDegrees ZrotationDegrees : float)
    (positionXYZ : vec3 float) : M' unit :=
  let m := modelView scaleXYZ XrotationDegrees YrotationDegrees
             ZrotationDegrees positionXYZ in
  let* s := get_self in
  match m_pShaderManager s with
  | NULL => ret tt
  | PTR => shader_set g_ModelName (UMat4 m)
  end.

Definition SetShaderColor
    (redColorValue greenColorValue blueColorValue alphaValue : float)
  : M' unit :=
  let currentColor :=
    Vec4 redColorValue greenColorValue blueColorValue alphaValue in
  let* s := get_self in
  match m_pShaderManager s with
  | NULL => ret tt
  | PTR =>
      shader_set g_UseTextureName (UInt 0) ;;;
      shader_set g_ColorValueName (UVec4 currentColor)
  end.

Definition SetShaderTexture (textureTag : string) : M' unit :=
  let* s := get_self in
  match m_pShaderManager s with
  | NULL => ret tt
  | PTR =>
      shader_set g_UseTextureName (UInt 1) ;;;
      let* s' := get_self in
      let* textureID := lift (FindTextureSlot s' textureTag) in
      shader_set g_TextureValueName (USampler2D textureID)
  end.

Definition SetTextureUVScale (u v : float) : M' unit :=
  let* s := get_self in
  match m_pShaderManager s with
  | NULL => ret tt
  | PTR => shader_set "UVscale" (UVec2 (Vec2 u v))
  end.

Definition SetShaderMaterial (materialTag : string) : M' unit :=
  let* s := get_self in
  if (0 <? length (m_objectMaterials s))%nat then
    let found := FindMaterial s materialTag indeterminate in
    let bReturn := fst found in
    let material := snd found in
    if bReturn then
      shader_set "material.ambientColor" (UVec3 (ambientColor material)) ;;;
      shader_set "material.ambientStrength"
        (UFloat (ambientStrength material)) ;;;
      shader_set "material.diffuseColor" (UVec3 (diffuseColor material)) ;;;
      shader_set "material.specularColor" (UVec3 (specularColor material)) ;;;
      shader_set "material.shininess" (UFloat (shininess material))
    else ret tt
  else ret tt.

Definition setVec3Value (name : string) (a b c : Q) : M' unit :=
  shader_set name (UVec3 (glm_vec3 flit a b c)).

Definition setBoolValue (name : string) (b : bool) : M' unit :=
  shader_set name (UBool b).

(** [SetupSceneLights] (lines 314-341), call by call.  The literal [0.3]
    on line 333 is a [double] converted to the [float] parameter. *)
Definition SetupSceneLights : M' unit :=
  setBoolValue g_UseLightingName true ;;;
  setVec3Value "viewPosition" 4.0 1.0 4.0 ;;;
  setVec3Value "pointLights[0].ambient" 0.1 0.1 0.3 ;;;
  setVec3Value "pointLights[0].diffuse" 0.2 0.2 0.8 ;;;
  setVec3Value "pointLights[0].specular" 0.3 0.3 1.0 ;;;
  setVec3Value "pointLights[0].specular" 0.3 0.3 0.3 ;;;
  setBoolValue "pointLights[0].bActive" true ;;;
  setVec3Value "pointLights[1].position" (-77.0) 10.0 (-27.0) ;;;
  setVec3Value "pointLights[1].ambient" 0.1 0.1 0.08 ;;;
  setVec3Value "pointLights[1].diffuse" 0.5 0.5 0.4 ;;;
  setVec3Value "pointLights[1].specular" 0.3 0.3 0.3 ;;;
  setBoolValue "pointLights[1].bActive" true ;;;
  for_range 2 5 (fun i =>
    setBoolValue
      (String.append "pointLights["
         (String.append (to_string i) "].bActive")) false) ;;;
  setBoolValue "spotLight.bActive" false.

(** ** Scene preparation *)

Variable stbi_load : string -> option Image.

Definition LoadSceneTextures : M' unit :=
  CreateGLTexture stbi_load "textures/oakd.jpg" "oakd" ;;;
  CreateGLTexture stbi_load "textures/oakl.jpg" "oakl" ;;;
  CreateGLTexture stbi_load "textures/brass.jpg" "brass" ;;;
  BindGLTextures.

Definition PrepareScene : M' unit :=
  SetupSceneLights ;;;
  DefineObjectMaterials flit ;;;
  mesh (LoadMesh Plane) ;;;
  mesh (LoadMesh Box) ;;;
  mesh (LoadMesh Sphere) ;;;
  mesh (LoadMesh Cylinder) ;;;
  mesh (LoadMesh Cone) ;;;
  CreateGLTexture stbi_load "textures/oakd.jpg" "oakd" ;;;
  CreateGLTexture stbi_load "textures/oakl.jpg" "oakl" ;;;
  CreateGLTexture stbi_load "textures/brass.jpg" "brass" ;;;
  CreateGLTexture stbi_load "textures/carpet.jpg" "carpet" ;;;
  CreateGLTexture stbi_load "textures/sheet.jpg" "sheet" ;;;
  ret tt.
End Binding.

(** [SceneManager::SceneManager(pShaderManager)]: the pointer is stored, the
    vector of materials is empty and [m_loadedTextures] is 0.  The array
    elements are default-initialised: the tag is the empty string, the ID is
    not initialised ([garbage]). *)
Definition SceneManager_new {float : Type} (pShaderManager : pointer)
    (garbage : Z) : SceneManager float :=
  mkSceneManager pShaderManager
    (replicate TEXTURE_CAPACITY (mkTEXTURE_INFO garbage ""))
    0 [].

(** ** Observations on a trace *)

Section Observations.
Context {float mat4 : Type}.

(** The value a uniform holds after the calls of the trace: the one of the
    last setter call on that name, if any. *)
Fixpoint uniform_value (name : string) (tr : list (event float mat4))
  : option (uvalue float mat4) :=
  match tr with
  | [] => None
  | e :: tr' =>
      match uniform_value name tr' with
      | Some v => Some v
      | None =>
          match e with
          | EvUniform n v => if String.eqb n name then Some v else None
          | _ => None
          end
      end
  end.

(** The names of the uniforms set by the trace, in order. *)
Fixpoint uploads (tr : list (event float mat4)) : list string :=
  match tr with
  | [] => []
  | EvUniform n _ :: tr' => n :: uploads tr'
  | _ :: tr' => uploads tr'
  end.

(** The OpenGL texture-unit state reached by the calls of the trace: the
    active unit, and the [GL_TEXTURE_2D] bindings made so far, newest first.
    Initially unit 0 is active and every unit is bound to texture 0. *)
Fixpoint gl_replay (tr : list (event float mat4)) (st : Z * list (Z * Z))
  : Z * list (Z * Z) :=
  match tr with
  | [] => st
  | EvGL (glActiveTexture u) :: tr' => gl_replay tr' (u, snd st)
  | EvGL (glBindTexture n) :: tr' =>
      gl_replay tr' (fst st, (fst st, n) :: snd st)
  | _ :: tr' => gl_replay tr' st
  end.

Fixpoint binding_of (u : Z) (bs : list (Z * Z)) : Z :=
  match bs with
  | [] => 0
  | (u', n) :: bs' => if u' =? u then n else binding_of u bs'
  end.

Definition texture_bound_to (tr : list (event float mat4)) (u : Z) : Z :=
  binding_of u (snd (gl_replay tr (0, []))).

(** The texture units selected by [glActiveTexture] in the trace. *)
Fixpoint activated_units (tr : list (event float mat4)) : list Z :=
  match tr with
  | [] => []
  | EvGL (glActiveTexture u) :: tr' => u :: activated_units tr'
  | _ :: tr' => activated_units tr'
  end.

(** A computation that, when it returns, has selected no texture unit. *)
Definition no_activation {A} (c : M float mat4 A) : Prop :=
  forall w a w', c w = Ok (a, w') ->
    activated_units (trace w') = activated_units (trace w).
End Observations.

(** The registered slots: the first [m_loadedTextures] elements of the
    array. *)
Definition slots {float : Type} (s : SceneManager float) : list TEXTURE_INFO :=
  take (Z.to_nat (m_loadedTextures s)) (m_textureIDs s).

(** The invariant of the array and its counter. *)
Definition slots_in_bounds {float : Type} (s : SceneManager float) : Prop :=
  0 <= m_loadedTextures s <= Z.of_nat (length (m_textureIDs s)).

(** [n] calls of [CreateGLTexture] in a row, on the same file. *)
Fixpoint register_times {float mat4 : Type}
    (stbi_load : string -> option Image) (n : nat) (filename tag0 : string)
  : M float mat4 unit :=
  match n with
  | O => ret tt
  | S n' =>
      CreateGLTexture stbi_load filename tag0 ;;;
      register_times stbi_load n' filename tag0
  end.

(** ** A sample environment *)

Module Sample.

(** Every file decodes to a 3-channel image, except a 1-channel one and a
    missing one. *)
Definition files (filename : string) : option Image :=
  if String.eqb filename "textures/gray.png" then Some (mkImage 8 8 1)
  else if String.eqb filename "textures/missing.jpg" then None
  else Some (mkImage 512 512 3).

Definition fresh : World Q unit :=
  mkWorld (SceneManager_new PTR 0) [].

Definition detached : World Q unit :=
  mkWorld (SceneManager_new NULL 0) [].

(** An object with three slots registered, two of them under one tag. *)
Definition duplicated : SceneManager Q :=
  mkSceneManager PTR
    (mkTEXTURE_INFO 1 "oakd" :: mkTEXTURE_INFO 2 "brass"
       :: mkTEXTURE_INFO 3 "oakd"
       :: replicate 13 (mkTEXTURE_INFO 0 ""))
    3 [].

Definition garbage_material : OBJECT_MATERIAL Q :=
  mkOBJECT_MATERIAL (Vec3 7%Q 7%Q 7%Q) 7%Q (Vec3 7%Q 7%Q 7%Q)
    (Vec3 7%Q 7%Q 7%Q) 7%Q "".

End Sample.

(** ** GLM in exact real arithmetic

    The transformations GLM computes in [float], here over the reals: the
    matrices are written row by row and act on column vectors. *)

Module GlmExact.
Local Open Scope R_scope.

Record rvec4 := RVec4 { c0 : R; c1 : R; c2 : R; c3 : R }.
Record rmat4 := RMat4 { row0 : rvec4; row1 : rvec4; row2 : rvec4; row3 : rvec4 }.

Definition dot (a b : rvec4) : R :=
  c0 a * c0 b + c1 a * c1 b + c2 a * c2 b + c3 a * c3 b.

Definition col (i : rvec4 -> R) (m : rmat4) : rvec4 :=
  RVec4 (i (row0 m)) (i (row1 m)) (i (row2 m)) (i (row3 m)).

(** The matrix applied to a column vector. *)
Definition apply (m : rmat4) (v : rvec4) : rvec4 :=
  RVec4 (dot (row0 m) v) (dot (row1 m) v) (dot (row2 m) v) (dot (row3 m) v).

Definition row_mul (r : rvec4) (m : rmat4) : rvec4 :=
  RVec4 (dot r (col c0 m)) (dot r (col c1 m)) (dot r (col c2 m))
    (dot r (col c3 m)).

Definition mul (a b : rmat4) : rmat4 :=
  RMat4 (row_mul (row0 a) b) (row_mul (row1 a) b) (row_mul (row2 a) b)
    (row_mul (row3 a) b).

Definition radians (degrees : R) : R := degrees * PI / 180.

Definition scale (v : vec3 R) : rmat4 :=
  RMat4 (RVec4 (v3_x v) 0 0 0) (RVec4 0 (v3_y v) 0 0) (RVec4 0 0 (v3_z v) 0)
    (RVec4 0 0 0 1).

Definition translate (v : vec3 R) : rmat4 :=
  RMat4 (RVec4 1 0 0 (v3_x v)) (RVec4 0 1 0 (v3_y v)) (RVec4 0 0 1 (v3_z v))
    (RVec4 0 0 0 1).

Definition normalize (v : vec3 R) : vec3 R :=
  let n := sqrt (v3_x v * v3_x v + v3_y v * v3_y v + v3_z v * v3_z v) in
  Vec3 (v3_x v / n) (v3_y v / n) (v3_z v / n).

(** The rotation by [angle] about [v], as [glm::rotate] builds it. *)
Definition rotate (angle : R) (v : vec3 R) : rmat4 :=
  let c := cos angle in
  let s := sin angle in
  let a := normalize v in
  let tx := (1 - c) * v3_x a in
  let ty := (1 - c) * v3_y a in
  let tz := (1 - c) * v3_z a in
  RMat4
    (RVec4 (c + tx * v3_x a) (ty * v3_x a - s * v3_z a)
       (tz * v3_x a + s * v3_y a) 0)
    (RVec4 (tx * v3_y a + s * v3_z a) (c + ty * v3_y a)
       (tz * v3_y a - s * v3_x a) 0)
    (RVec4 (tx * v3_z a - s * v3_y a) (ty * v3_z a + s * v3_x a)
       (c + tz * v3_z a) 0)
    (RVec4 0 0 0 1).

Definition world : World R rmat4 :=
  mkWorld (SceneManager_new PTR 0%Z) [].

End GlmExact.

(** ** The render pass *)

Section Render.
Context {float mat4 : Type}.
Local Abbreviation M' := (M float mat4).

Variable flit : Q -> float.
Variable glm_radians : float -> float.
Variable glm_scale : vec3 float -> mat4.
Variable glm_rotate : float -> vec3 float -> mat4.
Variable glm_translate : vec3 float -> mat4.
Variable mat4_mul : mat4 -> mat4 -> mat4.
Variable indeterminate : OBJECT_MATERIAL float.

(** The float arithmetic of the two loops of [RenderScene]: the sum and the
    product of two floats, and the conversion of an [int] operand. *)
Variable fadd : float -> float -> float.
Variable fmul : float -> float -> float.
Variable float_of_int : Z -> float.

Local Abbreviation transform :=
  (SetTransformations flit glm_radians glm_scale glm_rotate glm_translate
     mat4_mul).
Local Abbreviation material := (SetShaderMaterial indeterminate).
Local Abbreviation v3 := (glm_vec3 flit).

(** [m_basicMeshes->Draw...Mesh()]. *)
Definition draw (k : mesh_kind) : M' unit := mesh (DrawMesh k).

(** [RenderScene] (lines 553-710), statement by statement; the assignments
    to [scaleXYZ], [positionXYZ] and the rotation variables are their values
    at the calls. *)
Definition RenderScene : M' unit :=
  (* floor *)
  transform (v3 20.0 1.0 10.0) (flit 0.0) (flit 0.0) (flit 0.0)
    (v3 0.0 0.0 0.0) ;;;
  SetShaderColor (flit 0.90) (flit 0.85) (flit 0.75) (flit 1.0) ;;;
  material "plane" ;;;
  draw Plane ;;;
  (* dresser *)
  transform (v3 4.0 3.0 1.5) (flit 0.0) (flit 0.0) (flit 0.0)
    (v3 0.0 1.5 (-4.0)) ;;;
  SetShaderTexture "oakd" ;;;
  material "box" ;;;
  draw Box ;;;
  (* handles *)
  SetShaderTexture "brass" ;;;
  material "sphere" ;;;
  let numRows := 3 in
  let numCols := 2 in
  let startX := flit (-1.2) in
  let startY := flit 2.5 in
  let spacingX := flit 2.4 in
  let spacingY := flit (-1.0) in
  for_range 0 numRows (fun row =>
    for_range 0 numCols (fun col =>
      let x := fadd startX (fmul (float_of_int col) spacingX) in
      let y := fadd startY (fmul (float_of_int row) spacingY) in
      let z := flit (-3.2) in
      transform (v3 0.1 0.1 0.1) (flit 0.0) (flit 0.0) (flit 0.0)
        (Vec3 x y z) ;;;
      draw Sphere)) ;;;
  (* drawers *)
  SetShaderTexture "oakl" ;;;
  material "box" ;;;
  for_range 0 numRows (fun row =>
    for_range 0 numCols (fun col =>
      let x := fadd startX (fmul (float_of_int col) spacingX) in
      let y := fadd startY (fmul (float_of_int row) spacingY) in
      let z := flit (-3.25) in
      transform (v3 1.4 0.5 0.25) (flit 0.0) (flit 0.0) (flit 0.0)
        (Vec3 x y z) ;;;
      draw Box)) ;;;
  (* lamp base *)
  transform (v3 0.4 0.2 0.4) (flit 0.0) (flit 0.0) (flit 0.0)
    (v3 (-1.0) 3.1 (-4.0)) ;;;
  SetShaderColor (flit 0.2) (flit 0.2) (flit 0.2) (flit 1.0) ;;;
  material "lampBase" ;;;
  draw Box ;;;
  (* lamp stem *)
  transform (v3 0.05 1.0 0.05) (flit 0.0) (flit 0.0) (flit 0.0)
    (v3 (-1.0) 3.2 (-4.0)) ;;;
  SetShaderColor (flit 0.2) (flit 0.2) (flit 0.2) (flit 1.0) ;;;
  material "lampBase" ;;;
  draw Cylinder ;;;
  (* lamp shade *)
  transform (v3 0.6 0.5 0.6) (flit 0.0) (flit 0.0) (flit 0.0)
    (v3 (-1.0) 3.9 (-4.0)) ;;;
  SetShaderColor (flit 0.95) (flit 0.95) (flit 0.9) (flit 1.0) ;;;
  material "lampShade" ;;;
  draw Cone ;;;
  (* bed *)
  transform (v3 4.0 1.8 7.0) (flit 0.0) (flit 0.0) (flit 0.0)
    (v3 6.0 0.4 (-2.0)) ;;;
  SetShaderTexture "sheet" ;;;
  material "bed" ;;;
  draw Box ;;;
  (* pillows *)
  SetShaderColor (flit 1.0) (flit 1.0) (flit 1.0) (flit 1.0) ;;;
  material "pillow" ;;;
  transform (v3 1.3 0.2 0.8) (flit 0.0) (flit 0.0) (flit 0.0)
    (v3 5.2 1.3 (-4.5)) ;;;
  draw Box ;;;
  transform (v3 1.3 0.2 0.8) (flit 0.0) (flit 0.0) (flit 0.0)
    (v3 6.8 1.3 (-4.5)) ;;;
  draw Box ;;;
  (* rug *)
  transform (v3 6.0 0.05 6.0) (flit 0.0) (flit 0.0) (flit 0.0)
    (v3 2.0 0.025 (-1.0)) ;;;
  SetShaderTexture "carpet" ;;;
  material "rug" ;;;
  draw Cylinder.
End Render.

(** ** Further observations *)

Section MoreObservations.
Context {float mat4 : Type}.

(** The meshes drawn by the trace, in order. *)
Fixpoint draw_calls (tr : list (event float mat4)) : list mesh_kind :=
  match tr with
  | [] => []
  | EvMesh (DrawMesh k) :: tr' => k :: draw_calls tr'
  | _ :: tr' => draw_calls tr'
  end.

(** The texture names passed to [glDeleteTextures], in order. *)
Fixpoint deleted_textures (tr : list (event float mat4)) : list Z :=
  match tr with
  | [] => []
  | EvGL (glDeleteTextures n) :: tr' => n :: deleted_textures tr'
  | _ :: tr' => deleted_textures tr'
  end.

(** The images released by [stbi_image_free], in order. *)
Fixpoint freed_images (tr : list (event float mat4)) : list string :=
  match tr with
  | [] => []
  | EvImageFree f :: tr' => f :: freed_images tr'
  | _ :: tr' => freed_images tr'
  end.

(** The sampler indices uploaded by [setSampler2DValue], in order. *)
Fixpoint sampler_uploads (tr : list (event float mat4)) : list Z :=
  match tr with
  | [] => []
  | EvUniform _ (USampler2D n) :: tr' => n :: sampler_uploads tr'
  | _ :: tr' => sampler_uploads tr'
  end.

(** The texture unit that is active after the calls of the trace. *)
Definition active_unit (tr : list (event float mat4)) : Z :=
  fst (gl_replay tr (0, [])).

Definition is_uniform (e : event float mat4) : Prop :=
  match e with EvUniform _ _ => True | _ => False end.

Definition is_draw (e : event float mat4) : Prop :=
  match e with EvMesh (DrawMesh _) => True | _ => False end.

Definition is_uniform_or_draw (e : event float mat4) : Prop :=
  is_uniform e \/ is_draw e.

(** [c], run on the object [s] with any trace, returns, leaves the object
    as it is and appends events that all satisfy [P], with the draws
    [draws]. *)
Definition renders {A} (P : event float mat4 -> Prop) (s : SceneManager float)
    (c : M float mat4 A) (draws : list mesh_kind) : Prop :=
  forall tr, exists a tr',
    c (mkWorld s tr) = Ok (a, mkWorld s (tr ++ tr')) /\
    draw_calls tr' = draws /\
    Forall P tr'.
End MoreObservations.

(** The calls [BindGLTextures] makes for the slots [l], the first of them on
    unit [u]. *)
Fixpoint binding_calls {float mat4 : Type} (l : list TEXTURE_INFO) (u : Z)
  : list (event float mat4) :=
  match l with
  | [] => []
  | e :: l' =>
      EvGL (glActiveTexture u) :: EvGL (glBindTexture (ID e))
        :: binding_calls l' (u + 1)
  end.

(** The calls [DestroyGLTextures] makes for the slots [l]. *)
Definition deleting_calls {float mat4 : Type} (l : list TEXTURE_INFO)
  : list (event float mat4) :=
  map (fun e => EvGL (glDeleteTextures (ID e))) l.

(** Whether [CreateGLTexture] can register the file: it decodes, with 3 or 4
    channels. *)
Definition decodable (stbi_load : string -> option Image) (filename : string)
  : bool :=
  match stbi_load filename with
  | Some image => (colorChannels image =? 3) || (colorChannels image =? 4)
  | None => false
  end.

(** The tags of the slots [CreateGLTexture] adds for a list of
    (file, tag) requests: those of the files that can be registered. *)
Definition registered_tags (stbi_load : string -> option Image)
    (requests : list (string * string)) : list string :=
  map snd (List.filter (fun r => decodable stbi_load (fst r)) requests).

Module Sample2.

(** An object with three slots registered and the nine materials defined,
    attached to a shader manager. *)
Definition prepared : SceneManager Q :=
  mkSceneManager PTR
    (mkTEXTURE_INFO 1 "oakd" :: mkTEXTURE_INFO 2 "oakl"
       :: mkTEXTURE_INFO 3 "brass"
       :: replicate 13 (mkTEXTURE_INFO 0 ""))
    3
    [planeMaterial (fun q => q); cylinderMaterial (fun q => q);
     boxMaterial (fun q => q); sphereMaterial (fun q => q);
     lampBaseMaterial (fun q => q); lampShadeMaterial (fun q => q);
     bedMaterial (fun q => q); pillowMaterial (fun q => q);
     rugMaterial (fun q => q)].

(** The same object without a shader manager. *)
Definition unattached : SceneManager Q :=
  mkSceneManager NULL (m_textureIDs prepared) 3 (m_objectMaterials prepared).

(** An object without shader manager, textures and materials. *)
Definition bare : SceneManager Q := SceneManager_new NULL 0.

(** Stand-ins for the GLM functions and the float arithmetic where matrices
    do not matter. *)
Definition to_unit1 : vec3 Q -> unit := fun _ => tt.
Definition to_unit2 : Q -> vec3 Q -> unit := fun _ _ => tt.
Definition mul_unit : unit -> unit -> unit := fun _ _ => tt.
Definition Q_of_int (i : Z) : Q := inject_Z i.

Definition render : M Q unit unit :=
  RenderScene (fun q => q) (fun d => d) to_unit1 to_unit2 to_unit1 mul_unit
    Sample.garbage_material Qplus Qmult Q_of_int.

End Sample2.

(** ** Valid answers of the lookups *)



Module SampleHandles.


End SampleHandles.

(** * Properties *)

(** ** Reading the array *)

Lemma array_get_Some (a : list TEXTURE_INFO) (i : nat) (e : TEXTURE_INFO) :
  a !! i = Some e -> array_get a (Z.of_nat i) = Ok e.
Proof.
  intros H. unfold array_get.
  destruct (Z.leb_spec 0 (Z.of_nat i)) as [_|Hneg]; [|lia].
  now rewrite Nat2Z.id, H.
Qed.

Lemma array_get_Ok (a : list TEXTURE_INFO) (i : Z) (e : TEXTURE_INFO) :
  array_get a i = Ok e -> 0 <= i /\ a !! Z.to_nat i = Some e.
Proof.
  unfold array_get. destruct (Z.leb_spec 0 i) as [Hi|Hi]; [|discriminate].
  destruct (a !! Z.to_nat i) as [e'|] eqn:E; [|discriminate].
  intros [= ->]. split; [exact Hi | reflexivity].
Qed.

Lemma slots_lookup {float : Type} (s : SceneManager float) (i : nat)
    (e : TEXTURE_INFO) :
  slots s !! i = Some e ->
  m_textureIDs s !! i = Some e /\ (i < Z.to_nat (m_loadedTextures s))%nat.
Proof. unfold slots. apply lookup_take_Some. Qed.

(** ** The two lookups of the texture registry *)

Section Lookups.
Variable a : list TEXTURE_INFO.
Variable tag0 : string.

(** Scanning [n] slots from [index] on, none of which carries the tag, both
    loops end with the sentinel. *)
Lemma FindTextureSlot_loop_miss (n : nat) :
  forall index : nat,
    (index + n <= length a)%nat ->
    (forall k e, (index <= k < index + n)%nat -> a !! k = Some e ->
                 tag e <> tag0) ->
    FindTextureSlot_loop a tag0 n (Z.of_nat index) = Ok (-1).
Proof.
  induction n as [|n IH]; intros index Hlen Hmiss; [reflexivity|].
  cbn [FindTextureSlot_loop].
  destruct (lookup_lt_is_Some_2 a index) as [e He]; [lia|].
  rewrite (array_get_Some _ _ _ He).
  assert (tag e <> tag0) as Hne by (apply (Hmiss index); [lia | exact He]).
  apply String.eqb_neq in Hne. rewrite Hne.
  replace (Z.of_nat index + 1) with (Z.of_nat (S index)) by lia.
  apply IH; [lia|].
  intros k e' Hk. apply Hmiss. lia.
Qed.

Lemma FindTextureID_loop_miss (n : nat) :
  forall index : nat,
    (index + n <= length a)%nat ->
    (forall k e, (index <= k < index + n)%nat -> a !! k = Some e ->
                 tag e <> tag0) ->
    FindTextureID_loop a tag0 n (Z.of_nat index) = Ok (-1).
Proof.
  induction n as [|n IH]; intros index Hlen Hmiss; [reflexivity|].
  cbn [FindTextureID_loop].
  destruct (lookup_lt_is_Some_2 a index) as [e He]; [lia|].
  rewrite (array_get_Some _ _ _ He).
  assert (tag e <> tag0) as Hne by (apply (Hmiss index); [lia | exact He]).
  apply String.eqb_neq in Hne. rewrite Hne.
  replace (Z.of_nat index + 1) with (Z.of_nat (S index)) by lia.
  apply IH; [lia|].
  intros k e' Hk. apply Hmiss. lia.
Qed.

(** Scanning from [index], the slot loop stops at the first slot [i] that
    carries the tag. *)
Lemma FindTextureSlot_loop_first (i : nat) (ei : TEXTURE_INFO) :
  a !! i = Some ei -> tag ei = tag0 ->
  forall (n index : nat),
    (index <= i < index + n)%nat ->
    (forall k e, (index <= k < i)%nat -> a !! k = Some e -> tag e <> tag0) ->
    FindTextureSlot_loop a tag0 n (Z.of_nat index) = Ok (Z.of_nat i).
Proof.
  intros Hi Htag n.
  induction n as [|n IH]; intros index Hrange Hbefore; [lia|].
  cbn [FindTextureSlot_loop].
  destruct (decide (index = i)) as [->|Hneq].
  - rewrite (array_get_Some _ _ _ Hi), Htag, String.eqb_refl. reflexivity.
  - destruct (lookup_lt_is_Some_2 a index) as [e He].
    { apply lookup_lt_Some in Hi. lia. }
    rewrite (array_get_Some _ _ _ He).
    assert (tag e <> tag0) as Hne by (apply (Hbefore index); [lia | exact He]).
    apply String.eqb_neq in Hne. rewrite Hne.
    replace (Z.of_nat index + 1) with (Z.of_nat (S index)) by lia.
    apply IH; [lia|].
    intros k e' Hk. apply Hbefore. lia.
Qed.
End Lookups.

(** C9: when two registered slots [i < j] carry the same tag and [i] is the
    first slot that does, [FindTextureSlot] returns [i] and not [j]. *)
Theorem FindTextureSlot_first_match_wins {float : Type}
    (s : SceneManager float) (tag0 : string) (i j : nat)
    (ei ej : TEXTURE_INFO) :
  slots s !! i = Some ei -> tag ei = tag0 ->
  slots s !! j = Some ej -> tag ej = tag0 ->
  (i < j)%nat ->
  (forall k e, (k < i)%nat -> slots s !! k = Some e -> tag e <> tag0) ->
  FindTextureSlot s tag0 = Ok (Z.of_nat i) /\
  FindTextureSlot s tag0 <> Ok (Z.of_nat j).
Proof.
  intros Hi Hti Hj Htj Hij Hfirst.
  apply slots_lookup in Hi as [Hi Hin].
  assert (FindTextureSlot s tag0 = Ok (Z.of_nat i)) as Hres.
  { unfold FindTextureSlot. change 0 with (Z.of_nat 0).
    apply (FindTextureSlot_loop_first _ _ i ei Hi Hti); [lia|].
    intros k e Hk He. apply (Hfirst k); [lia|].
    unfold slots. apply lookup_take_Some. split; [exact He | lia]. }
  split; [exact Hres|].
  rewrite Hres. intros [= H]. lia.
Qed.

Lemma FindTextureSlot_first_match_wins_witness :
  FindTextureSlot Sample.duplicated "oakd" = Ok 0 /\
  FindTextureSlot Sample.duplicated "oakd" <> Ok 2.
Proof.
  apply (FindTextureSlot_first_match_wins Sample.duplicated "oakd" 0 2
           (mkTEXTURE_INFO 1 "oakd") (mkTEXTURE_INFO 3 "oakd"));
    try reflexivity; lia.
Defined.

(** Two registrations under one tag: the lookup finds the first. *)
Example FindTextureSlot_registered_twice :
  exists w : World Q unit,
    (CreateGLTexture Sample.files "textures/oakd.jpg" "oakd" ;;;
     CreateGLTexture Sample.files "textures/oakl.jpg" "oakd" ;;;
     ret tt) Sample.fresh = Ok (tt, w) /\
    slots (self w) = [mkTEXTURE_INFO 1 "oakd"; mkTEXTURE_INFO 2 "oakd"] /\
    FindTextureSlot (self w) "oakd" = Ok 0 /\
    FindTextureID (self w) "oakd" = Ok 1.
Proof.
  eexists. split; [vm_compute; reflexivity|].
  repeat split.
Qed.

(** ** Registration failures *)

(** The two failure paths of [CreateGLTexture] return [false] before the
    array is written: the object is as it was. *)
Lemma CreateGLTexture_fails {float mat4 : Type}
    (stbi_load : string -> option Image) (filename tag0 : string)
    (w : World float mat4) :
  match stbi_load filename with
  | None => True
  | Some image => colorChannels image <> 3 /\ colorChannels image <> 4
  end ->
  exists w',
    CreateGLTexture stbi_load filename tag0 w = Ok (false, w') /\
    self w' = self w.
Proof.
  intros Hcause. unfold CreateGLTexture.
  destruct (stbi_load filename) as [image|].
  - destruct Hcause as [H3 H4].
    apply Z.eqb_neq in H3. apply Z.eqb_neq in H4.
    unfold bind, emit, cout, gl, get_trace, ret. cbn.
    rewrite H3, H4. cbn.
    eexists. split; reflexivity.
  - unfold bind, emit, cout, ret. cbn.
    eexists. split; reflexivity.
Qed.

(** C7: when the image cannot be decoded, or decodes with a channel count
    other than 3 and 4, [CreateGLTexture] returns [false] and the object is
    as before: the same counter and the same array, hence the same slots. *)
Theorem CreateGLTexture_failure_keeps_slots {float mat4 : Type}
    (stbi_load : string -> option Image) (filename tag0 : string)
    (w : World float mat4) :
  match stbi_load filename with
  | None => True
  | Some image => colorChannels image <> 3 /\ colorChannels image <> 4
  end ->
  exists w',
    CreateGLTexture stbi_load filename tag0 w = Ok (false, w') /\
    self w' = self w /\
    slots (self w') = slots (self w) /\
    length (slots (self w')) = length (slots (self w)).
Proof.
  intros Hcause.
  destruct (CreateGLTexture_fails stbi_load filename tag0 w Hcause)
    as (w' & Hrun & Hself).
  exists w'. rewrite Hself. auto.
Qed.

Lemma CreateGLTexture_failure_keeps_slots_witness :
  exists w' : World Q unit,
    CreateGLTexture Sample.files "textures/gray.png" "gray"
      (mkWorld Sample.duplicated []) = Ok (false, w') /\
    self w' = Sample.duplicated /\
    slots (self w') = slots Sample.duplicated /\
    length (slots (self w')) = length (slots Sample.duplicated).
Proof.
  apply (CreateGLTexture_failure_keeps_slots (mat4 := unit) Sample.files
           "textures/gray.png" "gray" (mkWorld Sample.duplicated [])).
  vm_compute. split; discriminate.
Defined.

(** ** The guarded binding operations *)

(** C10: with a null [m_pShaderManager], [SetTransformations],
    [SetShaderColor], [SetShaderTexture] and [SetTextureUVScale] return
    normally and leave the world, the trace of uniform uploads included, as
    it was. *)
Theorem null_shader_manager_uploads_nothing {float mat4 : Type}
    (flit : Q -> float) (glm_radians : float -> float)
    (glm_scale : vec3 float -> mat4) (glm_rotate : float -> vec3 float -> mat4)
    (glm_translate : vec3 float -> mat4) (mat4_mul : mat4 -> mat4 -> mat4)
    (w : World float mat4) :
  m_pShaderManager (self w) = NULL ->
  (forall scaleXYZ xr yr zr positionXYZ,
     SetTransformations flit glm_radians glm_scale glm_rotate glm_translate
       mat4_mul scaleXYZ xr yr zr positionXYZ w = Ok (tt, w)) /\
  (forall r g b a, SetShaderColor r g b a w = Ok (tt, w)) /\
  (forall textureTag, SetShaderTexture textureTag w = Ok (tt, w)) /\
  (forall u v, SetTextureUVScale u v w = Ok (tt, w)).
Proof.
  intros Hnull.
  unfold SetTransformations, SetShaderColor, SetShaderTexture,
    SetTextureUVScale, bind, get_self.
  rewrite Hnull. repeat split.
Qed.

Lemma null_shader_manager_uploads_nothing_witness :
  (forall scaleXYZ xr yr zr positionXYZ,
     SetTransformations (fun q => q) (fun d => d) (fun _ => tt)
       (fun _ _ => tt) (fun _ => tt) (fun _ _ => tt)
       scaleXYZ xr yr zr positionXYZ Sample.detached
     = Ok (tt, Sample.detached)) /\
  (forall r g b a, SetShaderColor r g b a Sample.detached
                   = Ok (tt, Sample.detached)) /\
  (forall textureTag, SetShaderTexture textureTag Sample.detached
                      = Ok (tt, Sample.detached)) /\
  (forall u v, SetTextureUVScale u v Sample.detached
               = Ok (tt, Sample.detached)).
Proof.
  apply (null_shader_manager_uploads_nothing (fun q => q) (fun d => d)
           (fun _ => tt) (fun _ _ => tt) (fun _ => tt) (fun _ _ => tt)
           Sample.detached).
  reflexivity.
Defined.

(** ** The model matrix *)

(** Exact matrices act on vectors compatibly with their product. *)
Lemma GlmExact_apply_mul (a b : GlmExact.rmat4) (v : GlmExact.rvec4) :
  GlmExact.apply (GlmExact.mul a b) v = GlmExact.apply a (GlmExact.apply b v).
Proof.
  destruct a as [[? ? ? ?] [? ? ? ?] [? ? ? ?] [? ? ? ?]].
  destruct b as [[? ? ? ?] [? ? ? ?] [? ? ? ?] [? ? ? ?]].
  destruct v as [? ? ? ?].
  unfold GlmExact.apply, GlmExact.mul, GlmExact.row_mul, GlmExact.col,
    GlmExact.dot; cbn.
  f_equal; ring.
Qed.

(** C6: with a shader manager attached, [SetTransformations] uploads under
    "model" the product Translation * RotationZ * RotationY * RotationX *
    Scale, each rotation taken at the angle converted by [glm::radians]
    about its coordinate axis.  Whenever matrices act on points compatibly
    with the product, that matrix scales first, then rotates about X, about
    Y, about Z, and translates last. *)
Theorem SetTransformations_uploads_T_Rz_Ry_Rx_S {float mat4 : Type}
    (flit : Q -> float) (glm_radians : float -> float)
    (glm_scale : vec3 float -> mat4) (glm_rotate : float -> vec3 float -> mat4)
    (glm_translate : vec3 float -> mat4) (mat4_mul : mat4 -> mat4 -> mat4)
    (scaleXYZ : vec3 float) (xr yr zr : float) (positionXYZ : vec3 float)
    (w : World float mat4) :
  m_pShaderManager (self w) = PTR ->
  let S := glm_scale scaleXYZ in
  let axisX := Vec3 (flit 1.0%Q) (flit 0.0%Q) (flit 0.0%Q) in
  let axisY := Vec3 (flit 0.0%Q) (flit 1.0%Q) (flit 0.0%Q) in
  let axisZ := Vec3 (flit 0.0%Q) (flit 0.0%Q) (flit 1.0%Q) in
  let Rx := glm_rotate (glm_radians xr) axisX in
  let Ry := glm_rotate (glm_radians yr) axisY in
  let Rz := glm_rotate (glm_radians zr) axisZ in
  let T := glm_translate positionXYZ in
  let model := mat4_mul (mat4_mul (mat4_mul (mat4_mul T Rz) Ry) Rx) S in
  SetTransformations flit glm_radians glm_scale glm_rotate glm_translate
    mat4_mul scaleXYZ xr yr zr positionXYZ w
  = Ok (tt, mkWorld (self w)
              (trace w ++ [EvUniform "model" (UMat4 model)])) /\
  forall (point : Type) (act : mat4 -> point -> point),
    (forall a b p, act (mat4_mul a b) p = act a (act b p)) ->
    forall p, act model p = act T (act Rz (act Ry (act Rx (act S p)))).
Proof.
  intros Hptr S axisX axisY axisZ Rx Ry Rz T model. split.
  - destruct w as [[p a n ms] tr]. cbn in Hptr. subst p. reflexivity.
  - intros point act Hact p. unfold model. now rewrite !Hact.
Qed.

Lemma SetTransformations_uploads_T_Rz_Ry_Rx_S_witness :
  let S := GlmExact.scale (Vec3 2 3 4)%R in
  let Rx := GlmExact.rotate (GlmExact.radians 90)
              (Vec3 (Q2R 1.0) (Q2R 0.0) (Q2R 0.0)) in
  let Ry := GlmExact.rotate (GlmExact.radians 0)
              (Vec3 (Q2R 0.0) (Q2R 1.0) (Q2R 0.0)) in
  let Rz := GlmExact.rotate (GlmExact.radians 0)
              (Vec3 (Q2R 0.0) (Q2R 0.0) (Q2R 1.0)) in
  let T := GlmExact.translate (Vec3 10 20 30)%R in
  let model :=
    GlmExact.mul (GlmExact.mul (GlmExact.mul (GlmExact.mul T Rz) Ry) Rx) S in
  SetTransformations Q2R GlmExact.radians GlmExact.scale GlmExact.rotate
    GlmExact.translate GlmExact.mul (Vec3 2 3 4)%R 90%R 0%R 0%R
    (Vec3 10 20 30)%R GlmExact.world
  = Ok (tt, mkWorld (self GlmExact.world)
              (trace GlmExact.world ++ [EvUniform "model" (UMat4 model)])) /\
  forall p,
    GlmExact.apply model p =
    GlmExact.apply T
      (GlmExact.apply Rz
         (GlmExact.apply Ry (GlmExact.apply Rx (GlmExact.apply S p)))).
Proof.
  intros S Rx Ry Rz T model.
  destruct (SetTransformations_uploads_T_Rz_Ry_Rx_S Q2R GlmExact.radians
              GlmExact.scale GlmExact.rotate GlmExact.translate GlmExact.mul
              (Vec3 2 3 4)%R 90%R 0%R 0%R (Vec3 10 20 30)%R GlmExact.world
              eq_refl) as [Hupload Haction].
  split.
  - exact Hupload.
  - exact (Haction GlmExact.rvec4 GlmExact.apply GlmExact_apply_mul).
Defined.

Lemma Q2R_one : Q2R 1.0 = 1%R.
Proof. unfold Q2R; cbn [Qnum Qden]. field. Qed.

Lemma Q2R_zero : Q2R 0.0 = 0%R.
Proof. unfold Q2R; cbn [Qnum Qden]. field. Qed.

Lemma sqrt_unit_axis : sqrt (1 * 1 + 0 * 0 + 0 * 0) = 1%R
  /\ sqrt (0 * 0 + 1 * 1 + 0 * 0) = 1%R /\ sqrt (0 * 0 + 0 * 0 + 1 * 1) = 1%R.
Proof.
  replace (1 * 1 + 0 * 0 + 0 * 0)%R with 1%R by ring.
  replace (0 * 0 + 1 * 1 + 0 * 0)%R with 1%R by ring.
  replace (0 * 0 + 0 * 0 + 1 * 1)%R with 1%R by ring.
  now rewrite sqrt_1.
Qed.

(** A quarter turn about X sends (x, y, z) to (x, -z, y). *)
Lemma GlmExact_rotate_X_quarter :
  GlmExact.rotate (GlmExact.radians 90) (Vec3 (Q2R 1.0) (Q2R 0.0) (Q2R 0.0))
  = GlmExact.RMat4 (GlmExact.RVec4 1 0 0 0) (GlmExact.RVec4 0 0 (-1) 0)
      (GlmExact.RVec4 0 1 0 0) (GlmExact.RVec4 0 0 0 1).
Proof.
  assert (GlmExact.radians 90 = (PI / 2)%R) as ->
    by (unfold GlmExact.radians; field).
  unfold GlmExact.rotate, GlmExact.normalize. cbn [v3_x v3_y v3_z].
  rewrite Q2R_one, Q2R_zero, cos_PI2, sin_PI2.
  destruct sqrt_unit_axis as (-> & _ & _).
  f_equal; f_equal; field.
Qed.

(** No turn about Y or Z is the identity. *)
Lemma GlmExact_rotate_zero :
  let id := GlmExact.RMat4 (GlmExact.RVec4 1 0 0 0) (GlmExact.RVec4 0 1 0 0)
              (GlmExact.RVec4 0 0 1 0) (GlmExact.RVec4 0 0 0 1) in
  GlmExact.rotate (GlmExact.radians 0) (Vec3 (Q2R 0.0) (Q2R 1.0) (Q2R 0.0)) = id
  /\ GlmExact.rotate (GlmExact.radians 0)
       (Vec3 (Q2R 0.0) (Q2R 0.0) (Q2R 1.0)) = id.
Proof.
  assert (GlmExact.radians 0 = 0%R) as -> by (unfold GlmExact.radians; field).
  unfold GlmExact.rotate, GlmExact.normalize. cbn [v3_x v3_y v3_z].
  rewrite Q2R_one, Q2R_zero, cos_0, sin_0.
  destruct sqrt_unit_axis as (_ & -> & ->).
  split; f_equal; f_equal; field.
Qed.

(** The sample point of the composition order: scaled to (2, 3, 4), turned
    a quarter about X to (2, -4, 3), then moved by (10, 20, 30). *)
Example modelView_sample_point :
  GlmExact.apply
    (modelView Q2R GlmExact.radians GlmExact.scale GlmExact.rotate
       GlmExact.translate GlmExact.mul (Vec3 2 3 4)%R 90%R 0%R 0%R
       (Vec3 10 20 30)%R)
    (GlmExact.RVec4 1 1 1 1)
  = GlmExact.RVec4 12 16 33 1.
Proof.
  unfold modelView.
  rewrite GlmExact_rotate_X_quarter.
  destruct GlmExact_rotate_zero as [-> ->].
  rewrite !GlmExact_apply_mul.
  cbv [GlmExact.apply GlmExact.dot GlmExact.translate GlmExact.scale
       GlmExact.row0 GlmExact.row1 GlmExact.row2 GlmExact.row3
       GlmExact.c0 GlmExact.c1 GlmExact.c2 GlmExact.c3 v3_x v3_y v3_z].
  f_equal; ring.
Qed.

(** ** Material lookup *)

Section MaterialLookup.
Context {float : Type}.
Implicit Types (l : list (OBJECT_MATERIAL float)) (m : OBJECT_MATERIAL float).

Lemma FindMaterial_loop_miss l (tag0 : string) m :
  (forall e, e ∈ l -> material_tag e <> tag0) ->
  FindMaterial_loop l tag0 m = m.
Proof.
  induction l as [|e l IH]; intros Hmiss; [reflexivity|].
  cbn [FindMaterial_loop].
  assert (material_tag e <> tag0) as Hne by (apply Hmiss; left).
  apply String.eqb_neq in Hne. rewrite Hne.
  apply IH. intros e' He'. apply Hmiss. now right.
Qed.

(** At the first entry with the tag the five fields are copied; the tag of
    the output is not assigned. *)
Lemma FindMaterial_loop_found l1 l2 (e : OBJECT_MATERIAL float)
    (tag0 : string) m :
  (forall e', e' ∈ l1 -> material_tag e' <> tag0) ->
  material_tag e = tag0 ->
  FindMaterial_loop (l1 ++ e :: l2) tag0 m =
  mkOBJECT_MATERIAL (ambientColor e) (ambientStrength e) (diffuseColor e)
    (specularColor e) (shininess e) (material_tag m).
Proof.
  intros Hmiss Htag. induction l1 as [|e1 l1 IH]; cbn [app FindMaterial_loop].
  - now rewrite Htag, String.eqb_refl.
  - assert (material_tag e1 <> tag0) as Hne by (apply Hmiss; left).
    apply String.eqb_neq in Hne. rewrite Hne.
    apply IH. intros e' He'. apply Hmiss. now right.
Qed.

(** [false] is returned for the empty registry only. *)
Lemma FindMaterial_false_iff_empty (s : SceneManager float) (tag0 : string) m :
  fst (FindMaterial s tag0 m) = false <-> m_objectMaterials s = [].
Proof.
  unfold FindMaterial. destruct (m_objectMaterials s) as [|e l]; cbn.
  - tauto.
  - split; discriminate.
Qed.

(** On a miss in a registry that is not empty, [true] is returned and the
    output is as it was. *)
Lemma FindMaterial_miss_nonempty (s : SceneManager float) (tag0 : string) m :
  m_objectMaterials s <> [] ->
  (forall e, e ∈ m_objectMaterials s -> material_tag e <> tag0) ->
  FindMaterial s tag0 m = (true, m).
Proof.
  intros Hne Hmiss. unfold FindMaterial.
  destruct (m_objectMaterials s) as [|e l] eqn:E; [congruence|].
  cbn [length Nat.eqb]. rewrite <- E in *.
  now rewrite FindMaterial_loop_miss.
Qed.
End MaterialLookup.

(** On a miss in a registry that is not empty, [SetShaderMaterial] uploads
    the five material uniforms from its local, which nothing assigned. *)
Lemma SetShaderMaterial_miss_nonempty {float mat4 : Type}
    (indeterminate : OBJECT_MATERIAL float) (materialTag : string)
    (w : World float mat4) :
  m_pShaderManager (self w) = PTR ->
  m_objectMaterials (self w) <> [] ->
  (forall e, e ∈ m_objectMaterials (self w) -> material_tag e <> materialTag) ->
  SetShaderMaterial indeterminate materialTag w =
  Ok (tt, mkWorld (self w)
            (trace w ++
             [EvUniform "material.ambientColor"
                (UVec3 (ambientColor indeterminate));
              EvUniform "material.ambientStrength"
                (UFloat (ambientStrength indeterminate));
              EvUniform "material.diffuseColor"
                (UVec3 (diffuseColor indeterminate));
              EvUniform "material.specularColor"
                (UVec3 (specularColor indeterminate));
              EvUniform "material.shininess"
                (UFloat (shininess indeterminate))])).
Proof.
  intros Hptr Hne Hmiss.
  unfold SetShaderMaterial, bind, get_self.
  rewrite (FindMaterial_miss_nonempty _ _ _ Hne Hmiss).
  destruct w as [[p a n ms] tr]. cbn in *. subst p.
  destruct ms as [|e ms]; [congruence|].
  unfold shader_set, bind, get_self, emit. cbn.
  now rewrite <- !app_assoc.
Qed.

(** With an empty registry [SetShaderMaterial] does nothing at all. *)
Lemma SetShaderMaterial_empty_registry {float mat4 : Type}
    (indeterminate : OBJECT_MATERIAL float) (materialTag : string)
    (w : World float mat4) :
  m_objectMaterials (self w) = [] ->
  SetShaderMaterial indeterminate materialTag w = Ok (tt, w).
Proof.
  intros Hempty. unfold SetShaderMaterial, bind, get_self.
  now rewrite Hempty.
Qed.

(** C2: on the registry built by [DefineObjectMaterials], the lookup of a
    tag that no entry carries returns [true], with the output unmodified. *)
Theorem FindMaterial_miss_returns_true :
  exists w' : World Q unit,
    DefineObjectMaterials (fun q => q) Sample.fresh = Ok (tt, w') /\
    (forall e, e ∈ m_objectMaterials (self w') ->
               material_tag e <> "nonexistent") /\
    forall material,
      FindMaterial (self w') "nonexistent" material = (true, material).
Proof.
  eexists. split; [vm_compute; reflexivity|].
  match goal with |- ?P /\ _ => assert P as Hmiss end.
  { intros e He. cbn [self m_objectMaterials] in He.
    repeat (apply elem_of_cons in He as [->|He]; [discriminate|]).
    now apply elem_of_nil in He. }
  split; [exact Hmiss|].
  intros material.
  apply FindMaterial_miss_nonempty; [discriminate | exact Hmiss].
Qed.

(** C1: after [DefineObjectMaterials], [SetShaderMaterial("plane")] followed
    by [SetShaderMaterial("nonexistent")] uploads the five material uniforms
    a second time, from the unassigned local: the uniforms end up holding the
    values of that local, not those of "plane". *)
Theorem SetShaderMaterial_miss_uploads_indeterminate :
  forall indeterminate : OBJECT_MATERIAL Q,
  exists w1 w2 w3 : World Q unit,
    DefineObjectMaterials (fun q => q) Sample.fresh = Ok (tt, w1) /\
    SetShaderMaterial indeterminate "plane" w1 = Ok (tt, w2) /\
    SetShaderMaterial indeterminate "nonexistent" w2 = Ok (tt, w3) /\
    uploads (trace w3) =
      uploads (trace w2) ++
      ["material.ambientColor"; "material.ambientStrength";
       "material.diffuseColor"; "material.specularColor";
       "material.shininess"] /\
    uniform_value "material.ambientColor" (trace w2)
      = Some (UVec3 (Vec3 0.3 0.3 0.25)%Q) /\
    uniform_value "material.ambientStrength" (trace w2)
      = Some (UFloat 0.3%Q) /\
    uniform_value "material.diffuseColor" (trace w2)
      = Some (UVec3 (Vec3 0.8 0.8 0.8)%Q) /\
    uniform_value "material.specularColor" (trace w2)
      = Some (UVec3 (Vec3 0.2 0.2 0.2)%Q) /\
    uniform_value "material.shininess" (trace w2) = Some (UFloat 16.0%Q) /\
    uniform_value "material.ambientColor" (trace w3)
      = Some (UVec3 (ambientColor indeterminate)) /\
    uniform_value "material.ambientStrength" (trace w3)
      = Some (UFloat (ambientStrength indeterminate)) /\
    uniform_value "material.diffuseColor" (trace w3)
      = Some (UVec3 (diffuseColor indeterminate)) /\
    uniform_value "material.specularColor" (trace w3)
      = Some (UVec3 (specularColor indeterminate)) /\
    uniform_value "material.shininess" (trace w3)
      = Some (UFloat (shininess indeterminate)).
Proof.
  intros indeterminate.
  eexists. eexists. eexists.
  repeat (split; [vm_compute; reflexivity|]).
  vm_compute; reflexivity.
Qed.

(** ** Texture units *)

Section NoActivation.
Context {float mat4 : Type}.
Local Abbreviation M' := (M float mat4).

Lemma activated_units_app (tr1 tr2 : list (event float mat4)) :
  activated_units (tr1 ++ tr2) = activated_units tr1 ++ activated_units tr2.
Proof.
  induction tr1 as [|e tr1 IH]; [reflexivity|].
  destruct e as [| [] | | | |]; cbn; now rewrite ?IH.
Qed.

Lemma na_ret {A} (a : A) : no_activation (ret a : M' A).
Proof. intros w a' w' [= _ <-]. reflexivity. Qed.

Lemma na_raise {A} (f : fault) : no_activation (raise f : M' A).
Proof. intros w a w' [=]. Qed.

Lemma na_lift {A} (r : result A) : no_activation (lift r : M' A).
Proof. intros w a w'. unfold lift. destruct r; intros [=]. now subst. Qed.

Lemma na_get_self : no_activation (get_self : M' _).
Proof. intros w a w' [= _ <-]. reflexivity. Qed.

Lemma na_get_trace : no_activation (get_trace : M' _).
Proof. intros w a w' [= _ <-]. reflexivity. Qed.

Lemma na_put_self (s : SceneManager float) : no_activation (put_self s : M' _).
Proof. intros w a w' [= _ <-]. reflexivity. Qed.

Lemma na_emit (e : event float mat4) :
  activated_units [e] = [] -> no_activation (emit e).
Proof.
  intros He w a w' [= _ <-]. cbn.
  rewrite activated_units_app, He. apply app_nil_r.
Qed.

Lemma na_bind {A B} (c : M' A) (k : A -> M' B) :
  no_activation c -> (forall a, no_activation (k a)) ->
  no_activation (bind c k).
Proof.
  intros Hc Hk w b w'. unfold bind.
  destruct (c w) as [[a w1]|f] eqn:E; [|discriminate].
  intros Hkw. rewrite (Hk _ _ _ _ Hkw). exact (Hc _ _ _ E).
Qed.

Lemma na_for_count (body : Z -> M' unit) :
  (forall i, no_activation (body i)) ->
  forall n i, no_activation (for_count n i body).
Proof.
  intros Hbody n. induction n as [|n IH]; intros i; cbn [for_count].
  - apply na_ret.
  - apply na_bind; [apply Hbody | intros _; apply IH].
Qed.

Lemma na_shader_set (name : string) (v : uvalue float mat4) :
  no_activation (shader_set name v).
Proof.
  unfold shader_set. apply na_bind; [apply na_get_self|].
  intros s. destruct (m_pShaderManager s);
    [apply na_raise | now apply na_emit].
Qed.
End NoActivation.

Ltac no_activation_step :=
  lazymatch goal with
  | |- no_activation (bind _ _) => apply na_bind; [|intros ?]
  | |- no_activation (ret _) => apply na_ret
  | |- no_activation (raise _) => apply na_raise
  | |- no_activation (lift _) => apply na_lift
  | |- no_activation get_self => apply na_get_self
  | |- no_activation get_trace => apply na_get_trace
  | |- no_activation (put_self _) => apply na_put_self
  | |- no_activation (shader_set _ _) => apply na_shader_set
  | |- no_activation (emit _) => apply na_emit; reflexivity
  | |- no_activation (for_count _ _ _) => apply na_for_count; intros ?
  | |- no_activation (if ?b then _ else _) => destruct b
  | |- no_activation (match ?o with Some _ => _ | None => _ end) =>
      destruct o
  end.

Lemma CreateGLTexture_no_activation {float mat4 : Type}
    (stbi_load : string -> option Image) (filename tag0 : string) :
  no_activation (CreateGLTexture (float := float) (mat4 := mat4)
                   stbi_load filename tag0).
Proof.
  unfold CreateGLTexture, register_texture, gl, cout.
  repeat no_activation_step.
Qed.

Lemma SetupSceneLights_no_activation {float mat4 : Type} (flit : Q -> float) :
  no_activation (SetupSceneLights (float := float) (mat4 := mat4) flit).
Proof.
  unfold SetupSceneLights, setBoolValue, setVec3Value, for_range.
  repeat no_activation_step.
Qed.

Lemma DefineObjectMaterials_no_activation {float mat4 : Type}
    (flit : Q -> float) :
  no_activation (DefineObjectMaterials (float := float) (mat4 := mat4) flit).
Proof.
  unfold DefineObjectMaterials, push_back. repeat no_activation_step.
Qed.

(** Whatever the files hold, [PrepareScene] selects no texture unit: it
    never reaches [BindGLTextures]. *)
Lemma PrepareScene_no_activation {float mat4 : Type} (flit : Q -> float)
    (stbi_load : string -> option Image) :
  no_activation (PrepareScene (float := float) (mat4 := mat4) flit stbi_load).
Proof.
  unfold PrepareScene, mesh.
  repeat
    lazymatch goal with
    | |- no_activation (CreateGLTexture _ _ _) =>
        apply CreateGLTexture_no_activation
    | |- no_activation (SetupSceneLights _) =>
        apply SetupSceneLights_no_activation
    | |- no_activation (DefineObjectMaterials _) =>
        apply DefineObjectMaterials_no_activation
    | |- _ => no_activation_step
    end.
Qed.

(** C3: [PrepareScene], run on a fresh object with every image decodable,
    registers five textures and returns without one call of
    [glActiveTexture]: every texture unit is still bound to texture 0.
    [LoadSceneTextures], which nothing calls, registers three textures and
    does bind them, slot i to unit i. *)
Theorem PrepareScene_binds_no_texture :
  exists w' w'' : World Q unit,
    PrepareScene (fun q => q) Sample.files Sample.fresh = Ok (tt, w') /\
    m_loadedTextures (self w') = 5 /\
    activated_units (trace w') = [] /\
    (forall u, texture_bound_to (trace w') u = 0) /\
    LoadSceneTextures Sample.files Sample.fresh = Ok (tt, w'') /\
    m_loadedTextures (self w'') = 3 /\
    activated_units (trace w'') = [0; 1; 2] /\
    texture_bound_to (trace w'') 0 = 1 /\
    texture_bound_to (trace w'') 1 = 2 /\
    texture_bound_to (trace w'') 2 = 3.
Proof.
  eexists. eexists.
  split; [vm_compute; reflexivity|].
  split; [reflexivity|]. split; [reflexivity|].
  split.
  { intros u. vm_compute. destruct u; reflexivity. }
  repeat (split; [vm_compute; reflexivity|]).
  vm_compute; reflexivity.
Qed.

(** ** Capacity *)

(** With the array full, a decodable image of 3 or 4 channels makes
    [CreateGLTexture] write at the index one past the last element. *)
Lemma CreateGLTexture_full_array {float mat4 : Type}
    (stbi_load : string -> option Image) (filename tag0 : string)
    (image : Image) (w : World float mat4) :
  stbi_load filename = Some image ->
  colorChannels image = 3 \/ colorChannels image = 4 ->
  m_loadedTextures (self w) = Z.of_nat (length (m_textureIDs (self w))) ->
  CreateGLTexture stbi_load filename tag0 w
  = Fault (OutOfBounds (m_loadedTextures (self w))).
Proof.
  intros Hload Hch Hfull. unfold CreateGLTexture. rewrite Hload.
  assert (array_get (m_textureIDs (self w)) (m_loadedTextures (self w))
          = Fault (OutOfBounds (m_loadedTextures (self w)))) as Hget.
  { unfold array_get. rewrite Hfull, Nat2Z.id.
    destruct (Z.leb_spec 0 (Z.of_nat (length (m_textureIDs (self w)))));
      [|reflexivity].
    now rewrite (lookup_ge_None_2 (m_textureIDs (self w)) _ (Nat.le_refl _)). }
  destruct w as [s tr]. cbn in Hget |- *.
  destruct Hch as [-> | ->]; cbn;
    unfold bind, emit, cout, gl, get_trace, register_texture, lift,
      array_update, get_self; cbn; now rewrite Hget.
Qed.

Lemma generated_names_app {float mat4 : Type}
    (tr1 tr2 : list (event float mat4)) :
  generated_names (tr1 ++ tr2) = generated_names tr1 + generated_names tr2.
Proof.
  induction tr1 as [|e tr1 IH]; [reflexivity|].
  destruct e as [| [] | | | |]; cbn [app generated_names]; lia.
Qed.

(** The tail of a registration, when the index [m_loadedTextures] is inside
    the array: the element there gets the ID and the tag, and the counter
    moves on. *)
Lemma register_texture_in_bounds {float mat4 : Type}
    (filename : string) (textureID : Z) (tag0 : string)
    (w : World float mat4) (e : TEXTURE_INFO) :
  0 <= m_loadedTextures (self w) ->
  m_textureIDs (self w) !! Z.to_nat (m_loadedTextures (self w)) = Some e ->
  register_texture filename textureID tag0 w =
  Ok (true,
      mkWorld
        (mkSceneManager (m_pShaderManager (self w))
           (<[Z.to_nat (m_loadedTextures (self w)) :=
                mkTEXTURE_INFO textureID tag0]> (m_textureIDs (self w)))
           (m_loadedTextures (self w) + 1) (m_objectMaterials (self w)))
        (trace w ++ [EvGL glGenerateMipmap; EvImageFree filename;
                     EvGL (glBindTexture 0)])).
Proof.
  intros Hpos He. destruct w as [[p a n ms] tr]. cbn in Hpos, He |- *.
  assert (forall (a' : list TEXTURE_INFO) e',
            a' !! Z.to_nat n = Some e' -> array_get a' n = Ok e') as Hget.
  { intros a' e' H. rewrite <- (Z2Nat.id n Hpos). now apply array_get_Some. }
  unfold register_texture, bind, gl, emit, get_self, put_self, lift,
    array_update, ret. cbn.
  rewrite (Hget _ _ He). cbn.
  rewrite (Hget _ (set_ID textureID e)); cbn.
  - rewrite list_insert_insert_eq. unfold set_tag, set_ID. cbn.
    now rewrite <- !app_assoc.
  - apply list_lookup_insert_eq. now apply lookup_lt_Some in He.
Qed.

(** A registration that fits: one slot is appended, inside the array. *)
Lemma CreateGLTexture_succeeds {float mat4 : Type}
    (stbi_load : string -> option Image) (filename tag0 : string)
    (image : Image) (w : World float mat4) :
  stbi_load filename = Some image ->
  colorChannels image = 3 \/ colorChannels image = 4 ->
  0 <= m_loadedTextures (self w) < Z.of_nat (length (m_textureIDs (self w))) ->
  exists w',
    CreateGLTexture stbi_load filename tag0 w = Ok (true, w') /\
    m_pShaderManager (self w') = m_pShaderManager (self w) /\
    m_objectMaterials (self w') = m_objectMaterials (self w) /\
    m_loadedTextures (self w') = m_loadedTextures (self w) + 1 /\
    length (m_textureIDs (self w')) = length (m_textureIDs (self w)) /\
    slots (self w') =
      slots (self w) ++ [mkTEXTURE_INFO (fresh_texture_name (trace w)) tag0].
Proof.
  intros Hload Hch [Hlo Hhi].
  destruct (lookup_lt_is_Some_2 (m_textureIDs (self w))
              (Z.to_nat (m_loadedTextures (self w)))) as [e He]; [lia|].
  assert (fresh_texture_name
            ((trace w ++ [EvFlipVertically true]) ++
             [EvCout (Successfully_loaded filename (width image)
                        (height image) (colorChannels image))])
          = fresh_texture_name (trace w)) as Hfresh.
  { unfold fresh_texture_name. rewrite !generated_names_app. cbn. lia. }
  pose proof (fun fmt =>
    register_texture_in_bounds filename (fresh_texture_name (trace w)) tag0
      (mkWorld (self w)
         (trace w ++
          [EvFlipVertically true;
           EvCout (Successfully_loaded filename (width image) (height image)
                     (colorChannels image));
           EvGL (glGenTextures (fresh_texture_name (trace w)));
           EvGL (glBindTexture (fresh_texture_name (trace w)));
           EvGL (glTexParameteri_wrap GL_TEXTURE_WRAP_S);
           EvGL (glTexParameteri_wrap GL_TEXTURE_WRAP_T);
           EvGL (glTexParameteri_filter GL_TEXTURE_MIN_FILTER);
           EvGL (glTexParameteri_filter GL_TEXTURE_MAG_FILTER);
           EvGL (glTexImage2D fmt (width image) (height image) filename)]))
      e Hlo He) as Hreg.
  cbn [self trace] in Hreg.
  assert (exists fmt,
            CreateGLTexture stbi_load filename tag0 w =
            register_texture filename (fresh_texture_name (trace w)) tag0
              (mkWorld (self w)
                 (trace w ++
                  [EvFlipVertically true;
                   EvCout (Successfully_loaded filename (width image)
                             (height image) (colorChannels image));
                   EvGL (glGenTextures (fresh_texture_name (trace w)));
                   EvGL (glBindTexture (fresh_texture_name (trace w)));
                   EvGL (glTexParameteri_wrap GL_TEXTURE_WRAP_S);
                   EvGL (glTexParameteri_wrap GL_TEXTURE_WRAP_T);
                   EvGL (glTexParameteri_filter GL_TEXTURE_MIN_FILTER);
                   EvGL (glTexParameteri_filter GL_TEXTURE_MAG_FILTER);
                   EvGL (glTexImage2D fmt (width image) (height image)
                           filename)]))) as [fmt Hstep].
  { unfold CreateGLTexture. rewrite Hload.
    unfold cout, gl. unfold bind, emit, get_trace. cbn [self trace].
    rewrite Hfresh.
    destruct Hch as [Hc | Hc].
    - exists GL_RGB8. rewrite (proj2 (Z.eqb_eq _ 3) Hc). cbn [self trace].
      now rewrite <- !app_assoc.
    - exists GL_RGBA8.
      assert (colorChannels image <> 3) as Hc3 by lia.
      rewrite (proj2 (Z.eqb_neq _ 3) Hc3), (proj2 (Z.eqb_eq _ 4) Hc).
      cbn [self trace]. now rewrite <- !app_assoc. }
  eexists. split.
  - rewrite Hstep. exact (Hreg fmt).
  - cbn [self m_pShaderManager m_objectMaterials m_loadedTextures
         m_textureIDs].
    repeat split.
    + apply length_insert.
    + unfold slots. cbn [m_loadedTextures m_textureIDs].
      replace (Z.to_nat (m_loadedTextures (self w) + 1))
        with (S (Z.to_nat (m_loadedTextures (self w)))) by lia.
      rewrite (take_S_r _ _ (mkTEXTURE_INFO (fresh_texture_name (trace w)) tag0)).
      * now rewrite take_insert_ge by lia.
      * apply list_lookup_insert_eq. lia.
Qed.

(** The object built by the constructor satisfies the invariant, and a call
    of [CreateGLTexture] that returns keeps it. *)
Lemma SceneManager_new_in_bounds {float : Type} (p : pointer) (garbage : Z) :
  slots_in_bounds (SceneManager_new (float := float) p garbage) /\
  length (m_textureIDs (SceneManager_new (float := float) p garbage))
  = TEXTURE_CAPACITY.
Proof. unfold slots_in_bounds. cbn. split; [lia | reflexivity]. Qed.

Lemma CreateGLTexture_keeps_bounds {float mat4 : Type}
    (stbi_load : string -> option Image) (filename tag0 : string)
    (w w' : World float mat4) (b : bool) :
  slots_in_bounds (self w) ->
  CreateGLTexture stbi_load filename tag0 w = Ok (b, w') ->
  slots_in_bounds (self w') /\
  length (m_textureIDs (self w')) = length (m_textureIDs (self w)).
Proof.
  intros [Hlo Hhi] Hrun.
  destruct (stbi_load filename) as [image|] eqn:Hload.
  - destruct (decide (colorChannels image = 3 \/ colorChannels image = 4))
      as [Hch|Hch].
    + destruct (decide (m_loadedTextures (self w)
                        = Z.of_nat (length (m_textureIDs (self w)))))
        as [Hfull|Hroom].
      * rewrite (CreateGLTexture_full_array _ _ _ _ _ Hload Hch Hfull) in Hrun.
        discriminate.
      * destruct (CreateGLTexture_succeeds stbi_load filename tag0 image w
                    Hload Hch ltac:(lia))
          as (w1 & Hrun1 & _ & _ & Hn & Hlen & _).
        rewrite Hrun1 in Hrun. injection Hrun as _ <-.
        unfold slots_in_bounds. rewrite Hn, Hlen. split; [lia | reflexivity].
    + destruct (CreateGLTexture_fails stbi_load filename tag0 w)
        as (w1 & Hrun1 & Hself).
      { rewrite Hload. split; intros H; apply Hch; auto. }
      rewrite Hrun1 in Hrun. injection Hrun as _ <-.
      rewrite Hself. split; [split; assumption | reflexivity].
  - destruct (CreateGLTexture_fails stbi_load filename tag0 w)
      as (w1 & Hrun1 & Hself).
    { now rewrite Hload. }
    rewrite Hrun1 in Hrun. injection Hrun as _ <-.
    rewrite Hself. split; [split; assumption | reflexivity].
Qed.

(** C4, as the code has it: [CreateGLTexture] checks no capacity.  While
    fewer than 16 slots are registered, the registration of a decodable
    image of 3 or 4 channels returns [true] and appends exactly one slot,
    written inside the array of 16, so that at most 16 slots are registered
    then. *)
Theorem CreateGLTexture_appends_within_capacity {float mat4 : Type}
    (stbi_load : string -> option Image) (filename tag0 : string)
    (image : Image) (w : World float mat4) :
  stbi_load filename = Some image ->
  colorChannels image = 3 \/ colorChannels image = 4 ->
  length (m_textureIDs (self w)) = TEXTURE_CAPACITY ->
  0 <= m_loadedTextures (self w) < 16 ->
  exists w',
    CreateGLTexture stbi_load filename tag0 w = Ok (true, w') /\
    length (m_textureIDs (self w')) = TEXTURE_CAPACITY /\
    m_loadedTextures (self w') = m_loadedTextures (self w) + 1 /\
    m_loadedTextures (self w') <= 16 /\
    slots (self w') =
      slots (self w) ++ [mkTEXTURE_INFO (fresh_texture_name (trace w)) tag0].
Proof.
  intros Hload Hch Hcap Hroom.
  destruct (CreateGLTexture_succeeds stbi_load filename tag0 image w Hload Hch)
    as (w' & Hrun & _ & _ & Hn & Hlen & Hslots).
  { rewrite Hcap. unfold TEXTURE_CAPACITY. lia. }
  exists w'. rewrite Hlen, Hn. repeat split; try assumption. lia.
Qed.

Lemma CreateGLTexture_appends_within_capacity_witness :
  exists w' : World Q unit,
    CreateGLTexture Sample.files "textures/oakd.jpg" "oakd" Sample.fresh
      = Ok (true, w') /\
    length (m_textureIDs (self w')) = TEXTURE_CAPACITY /\
    m_loadedTextures (self w') = m_loadedTextures (self Sample.fresh) + 1 /\
    m_loadedTextures (self w') <= 16 /\
    slots (self w') =
      slots (self Sample.fresh) ++
      [mkTEXTURE_INFO (fresh_texture_name (trace Sample.fresh)) "oakd"].
Proof.
  apply (CreateGLTexture_appends_within_capacity Sample.files
           "textures/oakd.jpg" "oakd" (mkImage 512 512 3) Sample.fresh).
  - reflexivity.
  - left. reflexivity.
  - reflexivity.
  - cbn. lia.
Defined.

(** Counterexample to C4 as stated: sixteen registrations on a fresh object
    succeed and fill the array; the seventeenth call does not return
    [false]: it indexes the array at 16, outside its 16 elements. *)
Lemma CreateGLTexture_seventeenth_out_of_bounds :
  exists w16 : World Q unit,
    register_times Sample.files 16 "textures/oakd.jpg" "oakd" Sample.fresh
      = Ok (tt, w16) /\
    m_loadedTextures (self w16) = 16 /\
    length (m_textureIDs (self w16)) = TEXTURE_CAPACITY /\
    length (slots (self w16)) = 16%nat /\
    CreateGLTexture Sample.files "textures/oakd.jpg" "oakd" w16
      = Fault (OutOfBounds 16) /\
    forall w', CreateGLTexture Sample.files "textures/oakd.jpg" "oakd" w16
               <> Ok (false, w').
Proof.
  eexists. split; [vm_compute; reflexivity|].
  repeat (split; [vm_compute; reflexivity|]).
  intros w'. vm_compute. discriminate.
Qed.

(** ** Lighting *)

(** C5: the calls of [SetupSceneLights], in order.  The lighting flag is
    set, lights 0 and 1 are active, lights 2, 3, 4 and the spotlight are
    inactive, light 1 gets position, ambient, diffuse and specular; light 0
    gets ambient, diffuse and specular (set twice), and no position. *)
Theorem SetupSceneLights_uploads {float mat4 : Type} (flit : Q -> float)
    (a : list TEXTURE_INFO) (n : Z) (ms : list (OBJECT_MATERIAL float))
    (tr : list (event float mat4)) :
  let v3 := (fun x y z : Q => UVec3 (Vec3 (flit x) (flit y) (flit z))) in
  let lights : list (event float mat4) :=
    [EvUniform "bUseLighting" (UBool true);
     EvUniform "viewPosition" (v3 4.0 1.0 4.0)%Q;
     EvUniform "pointLights[0].ambient" (v3 0.1 0.1 0.3)%Q;
     EvUniform "pointLights[0].diffuse" (v3 0.2 0.2 0.8)%Q;
     EvUniform "pointLights[0].specular" (v3 0.3 0.3 1.0)%Q;
     EvUniform "pointLights[0].specular" (v3 0.3 0.3 0.3)%Q;
     EvUniform "pointLights[0].bActive" (UBool true);
     EvUniform "pointLights[1].position" (v3 (-77.0) 10.0 (-27.0))%Q;
     EvUniform "pointLights[1].ambient" (v3 0.1 0.1 0.08)%Q;
     EvUniform "pointLights[1].diffuse" (v3 0.5 0.5 0.4)%Q;
     EvUniform "pointLights[1].specular" (v3 0.3 0.3 0.3)%Q;
     EvUniform "pointLights[1].bActive" (UBool true);
     EvUniform "pointLights[2].bActive" (UBool false);
     EvUniform "pointLights[3].bActive" (UBool false);
     EvUniform "pointLights[4].bActive" (UBool false);
     EvUniform "spotLight.bActive" (UBool false)] in
  SetupSceneLights flit (mkWorld (mkSceneManager PTR a n ms) tr)
  = Ok (tt, mkWorld (mkSceneManager PTR a n ms) (tr ++ lights)) /\
  ("pointLights[0].position" ∉ uploads lights) /\
  ("pointLights[1].position" ∈ uploads lights) /\
  uniform_value "pointLights[0].position" lights = None.
Proof.
  intros v3 lights. split; [|split; [|split]].
  - unfold SetupSceneLights, setBoolValue, setVec3Value, for_range.
    change (Z.to_nat (5 - 2)) with 3%nat.
    unfold for_count, shader_set, bind, get_self, emit, ret.
    cbn [self trace m_pShaderManager].
    rewrite <- !app_assoc. reflexivity.
  - cbn. intros Hin.
    repeat (apply elem_of_cons in Hin as [Heq|Hin]; [discriminate Heq|]).
    now apply elem_of_nil in Hin.
  - cbn. do 7 right. left.
  - reflexivity.
Qed.

(** * Further properties of the texture registry *)

(** ** Running a sequence *)

Lemma bind_Ok {float mat4 A B : Type} (c : M float mat4 A)
    (k : A -> M float mat4 B) (w w1 : World float mat4) (a : A) :
  c w = Ok (a, w1) -> bind c k w = k a w1.
Proof. intros H. unfold bind. now rewrite H. Qed.

Lemma bind_Fault {float mat4 A B : Type} (c : M float mat4 A)
    (k : A -> M float mat4 B) (w : World float mat4) (f : fault) :
  c w = Fault f -> bind c k w = Fault f.
Proof. intros H. unfold bind. now rewrite H. Qed.

(** ** What the two lookups return *)

Section LookupResults.
Variable a : list TEXTURE_INFO.
Variable tag0 : string.

Lemma FindTextureID_loop_first (i : nat) (ei : TEXTURE_INFO) :
  a !! i = Some ei -> tag ei = tag0 ->
  forall (n index : nat),
    (index <= i < index + n)%nat ->
    (forall k e, (index <= k < i)%nat -> a !! k = Some e -> tag e <> tag0) ->
    FindTextureID_loop a tag0 n (Z.of_nat index) = Ok (int_of_GLuint (ID ei)).
Proof.
  intros Hi Htag n.
  induction n as [|n IH]; intros index Hrange Hbefore; [lia|].
  cbn [FindTextureID_loop].
  destruct (decide (index = i)) as [->|Hneq].
  - rewrite (array_get_Some _ _ _ Hi), Htag, String.eqb_refl. reflexivity.
  - destruct (lookup_lt_is_Some_2 a index) as [e He].
    { apply lookup_lt_Some in Hi. lia. }
    rewrite (array_get_Some _ _ _ He).
    assert (tag e <> tag0) as Hne by (apply (Hbefore index); [lia | exact He]).
    apply String.eqb_neq in Hne. rewrite Hne.
    replace (Z.of_nat index + 1) with (Z.of_nat (S index)) by lia.
    apply IH; [lia|].
    intros k e' Hk. apply Hbefore. lia.
Qed.

(** Among [n] elements from [index] on, either none carries the tag or
    there is a first one that does. *)
Lemma first_match_or_none (n : nat) :
  forall index : nat,
    (index + n <= length a)%nat ->
    (forall k e, (index <= k < index + n)%nat -> a !! k = Some e ->
                 tag e <> tag0) \/
    (exists i e, (index <= i < index + n)%nat /\ a !! i = Some e /\
                 tag e = tag0 /\
                 forall k e', (index <= k < i)%nat -> a !! k = Some e' ->
                              tag e' <> tag0).
Proof.
  induction n as [|n IH]; intros index Hlen.
  - left. intros k e Hk. lia.
  - destruct (lookup_lt_is_Some_2 a index) as [e He]; [lia|].
    destruct (decide (tag e = tag0)) as [Heq|Hne].
    + right. exists index, e. repeat split; try assumption; lia.
    + destruct (IH (S index)) as [Hnone | (i & ei & Hi & Hei & Htag & Hfirst)];
        [lia | |].
      * left. intros k e' Hk He'.
        destruct (decide (k = index)) as [->|Hk'].
        -- congruence.
        -- apply (Hnone k); [lia | exact He'].
      * right. exists i, ei. repeat split; try assumption; try lia.
        intros k e' Hk He'.
        destruct (decide (k = index)) as [->|Hk'].
        -- congruence.
        -- apply (Hfirst k); [lia | exact He'].
Qed.
End LookupResults.

(** Both lookups, read off the registered slots. *)
Lemma lookups_of_first_slot {float : Type} (s : SceneManager float)
    (tag0 : string) (i : nat) (e : TEXTURE_INFO) :
  slots s !! i = Some e -> tag e = tag0 ->
  (forall k e', (k < i)%nat -> slots s !! k = Some e' -> tag e' <> tag0) ->
  FindTextureSlot s tag0 = Ok (Z.of_nat i) /\
  FindTextureID s tag0 = Ok (int_of_GLuint (ID e)).
Proof.
  intros Hi Htag Hfirst.
  apply slots_lookup in Hi as [Hi Hin].
  assert (forall k e', (0 <= k < i)%nat -> m_textureIDs s !! k = Some e' ->
                       tag e' <> tag0) as Hfirst'.
  { intros k e' Hk He'. apply (Hfirst k); [lia|].
    unfold slots. apply lookup_take_Some. split; [exact He' | lia]. }
  split.
  - unfold FindTextureSlot. change 0 with (Z.of_nat 0).
    apply (FindTextureSlot_loop_first _ _ i e Hi Htag); [lia | exact Hfirst'].
  - unfold FindTextureID. change 0 with (Z.of_nat 0).
    apply (FindTextureID_loop_first _ _ i e Hi Htag); [lia | exact Hfirst'].
Qed.

Lemma lookups_of_no_slot {float : Type} (s : SceneManager float)
    (tag0 : string) :
  m_loadedTextures s <= Z.of_nat (length (m_textureIDs s)) ->
  (forall e, e ∈ slots s -> tag e <> tag0) ->
  FindTextureSlot s tag0 = Ok (-1) /\ FindTextureID s tag0 = Ok (-1).
Proof.
  intros Hhi Hmiss.
  assert (forall k e, (0 <= k < 0 + Z.to_nat (m_loadedTextures s))%nat ->
            m_textureIDs s !! k = Some e -> tag e <> tag0) as Hscan.
  { intros k e Hk He. apply Hmiss. unfold slots.
    apply elem_of_take. exists k. split; [exact He | lia]. }
  split.
  - unfold FindTextureSlot. change 0 with (Z.of_nat 0).
    apply FindTextureSlot_loop_miss; [simpl; lia | exact Hscan].
  - unfold FindTextureID. change 0 with (Z.of_nat 0).
    apply FindTextureID_loop_miss; [simpl; lia | exact Hscan].
Qed.

(** The registered slots either all miss the tag or have a first match. *)
Lemma slots_first_match_or_none {float : Type} (s : SceneManager float)
    (tag0 : string) :
  m_loadedTextures s <= Z.of_nat (length (m_textureIDs s)) ->
  (forall e, e ∈ slots s -> tag e <> tag0) \/
  (exists i e, slots s !! i = Some e /\ tag e = tag0 /\
               forall k e', (k < i)%nat -> slots s !! k = Some e' ->
                            tag e' <> tag0).
Proof.
  intros Hhi.
  destruct (first_match_or_none (m_textureIDs s) tag0
              (Z.to_nat (m_loadedTextures s)) 0)
    as [Hnone | (i & e & Hi & He & Htag & Hfirst)]; [simpl; lia | |].
  - left. intros e He. unfold slots in He.
    apply elem_of_take in He as (k & Hk & Hlt).
    apply (Hnone k); [lia | exact Hk].
  - right. exists i, e. split; [|split; [exact Htag|]].
    + unfold slots. apply lookup_take_Some. split; [exact He | lia].
    + intros k e' Hk He'. apply slots_lookup in He' as [He' _].
      apply (Hfirst k); [lia | exact He'].
Qed.





(** X1: with the counter inside the array bound, [FindTextureSlot] returns
    without fault; the result is -1 exactly when no registered slot carries
    the tag, and otherwise it is the index of a registered slot that carries
    the tag. *)
Theorem FindTextureSlot_sound_and_complete {float : Type}
    (s : SceneManager float) (tag0 : string) :
  m_loadedTextures s <= Z.of_nat (length (m_textureIDs s)) ->
  exists i,
    FindTextureSlot s tag0 = Ok i /\
    (i = -1 <-> forall e, e ∈ slots s -> tag e <> tag0) /\
    (i <> -1 ->
     0 <= i < m_loadedTextures s /\
     exists e, slots s !! Z.to_nat i = Some e /\ tag e = tag0).
Proof.
  intros Hhi.
  destruct (slots_first_match_or_none s tag0 Hhi)
    as [Hnone | (i & e & Hi & Htag & Hfirst)].
  - exists (-1). destruct (lookups_of_no_slot s tag0 Hhi Hnone) as [-> _].
    split; [reflexivity|]. split; [tauto | congruence].
  - exists (Z.of_nat i).
    destruct (lookups_of_first_slot s tag0 i e Hi Htag Hfirst) as [-> _].
    split; [reflexivity|]. split.
    + split; [lia|]. intros Hnone. exfalso.
      apply (Hnone e); [|exact Htag].
      apply list_elem_of_lookup. eauto.
    + intros _. pose proof Hi as Hi'. apply slots_lookup in Hi' as [_ Hlt].
      split; [lia|]. exists e. now rewrite Nat2Z.id.
Qed.

Lemma FindTextureSlot_sound_and_complete_witness :
  exists i,
    FindTextureSlot Sample2.prepared "brass" = Ok i /\
    (i = -1 <-> forall e, e ∈ slots Sample2.prepared -> tag e <> "brass") /\
    (i <> -1 ->
     0 <= i < m_loadedTextures Sample2.prepared /\
     exists e, slots Sample2.prepared !! Z.to_nat i = Some e /\
               tag e = "brass").
Proof.
  apply (FindTextureSlot_sound_and_complete Sample2.prepared "brass").
  cbn. lia.
Defined.

(** X2: [FindTextureID] and [FindTextureSlot] agree: either both return the
    sentinel, or [FindTextureSlot] returns the index of a registered slot and
    [FindTextureID] returns the ID of that very slot, converted to [int]. *)
Theorem FindTextureID_agrees_with_FindTextureSlot {float : Type}
    (s : SceneManager float) (tag0 : string) :
  m_loadedTextures s <= Z.of_nat (length (m_textureIDs s)) ->
  (FindTextureSlot s tag0 = Ok (-1) /\ FindTextureID s tag0 = Ok (-1)) \/
  (exists i e,
     slots s !! i = Some e /\ tag e = tag0 /\
     FindTextureSlot s tag0 = Ok (Z.of_nat i) /\
     FindTextureID s tag0 = Ok (int_of_GLuint (ID e))).
Proof.
  intros Hhi.
  destruct (slots_first_match_or_none s tag0 Hhi)
    as [Hnone | (i & e & Hi & Htag & Hfirst)].
  - left. now apply lookups_of_no_slot.
  - right. exists i, e.
    destruct (lookups_of_first_slot s tag0 i e Hi Htag Hfirst) as [Hs Hid].
    auto.
Qed.

Lemma FindTextureID_agrees_with_FindTextureSlot_witness :
  (FindTextureSlot Sample2.prepared "oakl" = Ok (-1) /\
   FindTextureID Sample2.prepared "oakl" = Ok (-1)) \/
  (exists i e,
     slots Sample2.prepared !! i = Some e /\ tag e = "oakl" /\
     FindTextureSlot Sample2.prepared "oakl" = Ok (Z.of_nat i) /\
     FindTextureID Sample2.prepared "oakl" = Ok (int_of_GLuint (ID e))).
Proof.
  apply (FindTextureID_agrees_with_FindTextureSlot Sample2.prepared "oakl").
  cbn. lia.
Defined.

(** ** Replaying traces *)

Section Replay.
Context {float mat4 : Type}.
Implicit Types (tr : list (event float mat4)) (st : Z * list (Z * Z)).

Lemma gl_replay_app tr1 tr2 st :
  gl_replay (tr1 ++ tr2) st = gl_replay tr2 (gl_replay tr1 st).
Proof.
  revert st. induction tr1 as [|e tr1 IH]; intros st; [reflexivity|].
  destruct e as [| [] | | | |]; cbn [app gl_replay]; apply IH.
Qed.

Lemma freed_images_app tr1 tr2 :
  freed_images (tr1 ++ tr2) = freed_images tr1 ++ freed_images tr2.
Proof.
  induction tr1 as [|e tr1 IH]; [reflexivity|].
  destruct e; cbn [app freed_images]; now rewrite ?IH.
Qed.

Lemma deleted_textures_app tr1 tr2 :
  deleted_textures (tr1 ++ tr2) = deleted_textures tr1 ++ deleted_textures tr2.
Proof.
  induction tr1 as [|e tr1 IH]; [reflexivity|].
  destruct e as [| [] | | | |]; cbn [app deleted_textures]; now rewrite ?IH.
Qed.

Lemma draw_calls_app tr1 tr2 :
  draw_calls (tr1 ++ tr2) = draw_calls tr1 ++ draw_calls tr2.
Proof.
  induction tr1 as [|e tr1 IH]; [reflexivity|].
  destruct e as [| | [] | | |]; cbn [app draw_calls]; now rewrite ?IH.
Qed.

Lemma uniform_value_app (name : string) tr1 tr2 :
  uniform_value name (tr1 ++ tr2) =
  match uniform_value name tr2 with
  | Some v => Some v
  | None => uniform_value name tr1
  end.
Proof.
  induction tr1 as [|e tr1 IH]; cbn [app uniform_value].
  - now destruct (uniform_value name tr2).
  - rewrite IH. destruct (uniform_value name tr2); [reflexivity|].
    reflexivity.
Qed.
End Replay.

(** ** Registration, step by step *)

(** The world after a registration that fits, in full. *)
Lemma CreateGLTexture_success_world {float mat4 : Type}
    (stbi_load : string -> option Image) (filename tag0 : string)
    (image : Image) (w : World float mat4) :
  stbi_load filename = Some image ->
  colorChannels image = 3 \/ colorChannels image = 4 ->
  0 <= m_loadedTextures (self w) < Z.of_nat (length (m_textureIDs (self w))) ->
  exists fmt,
    CreateGLTexture stbi_load filename tag0 w =
    Ok (true,
        mkWorld
          (mkSceneManager (m_pShaderManager (self w))
             (<[Z.to_nat (m_loadedTextures (self w)) :=
                  mkTEXTURE_INFO (fresh_texture_name (trace w)) tag0]>
                (m_textureIDs (self w)))
             (m_loadedTextures (self w) + 1) (m_objectMaterials (self w)))
          (trace w ++
           [EvFlipVertically true;
            EvCout (Successfully_loaded filename (width image) (height image)
                      (colorChannels image));
            EvGL (glGenTextures (fresh_texture_name (trace w)));
            EvGL (glBindTexture (fresh_texture_name (trace w)));
            EvGL (glTexParameteri_wrap GL_TEXTURE_WRAP_S);
            EvGL (glTexParameteri_wrap GL_TEXTURE_WRAP_T);
            EvGL (glTexParameteri_filter GL_TEXTURE_MIN_FILTER);
            EvGL (glTexParameteri_filter GL_TEXTURE_MAG_FILTER);
            EvGL (glTexImage2D fmt (width image) (height image) filename);
            EvGL glGenerateMipmap; EvImageFree filename;
            EvGL (glBindTexture 0)])).
Proof.
  intros Hload Hch [Hlo Hhi].
  destruct (lookup_lt_is_Some_2 (m_textureIDs (self w))
              (Z.to_nat (m_loadedTextures (self w)))) as [e He]; [lia|].
  assert (fresh_texture_name
            ((trace w ++ [EvFlipVertically true]) ++
             [EvCout (Successfully_loaded filename (width image)
                        (height image) (colorChannels image))])
          = fresh_texture_name (trace w)) as Hfresh.
  { unfold fresh_texture_name. rewrite !generated_names_app. cbn. lia. }
  assert (forall tr0 : list (event float mat4),
            register_texture filename (fresh_texture_name (trace w)) tag0
              (mkWorld (self w) tr0)
            = Ok (true,
                  mkWorld
                    (mkSceneManager (m_pShaderManager (self w))
                       (<[Z.to_nat (m_loadedTextures (self w)) :=
                            mkTEXTURE_INFO (fresh_texture_name (trace w))
                              tag0]> (m_textureIDs (self w)))
                       (m_loadedTextures (self w) + 1)
                       (m_objectMaterials (self w)))
                    (tr0 ++ [EvGL glGenerateMipmap; EvImageFree filename;
                             EvGL (glBindTexture 0)]))) as Hreg.
  { intros tr0.
    exact (register_texture_in_bounds filename _ tag0
             (mkWorld (self w) tr0) e Hlo He). }
  unfold CreateGLTexture. rewrite Hload.
  unfold cout, gl. unfold bind, emit, get_trace. cbn [self trace].
  rewrite Hfresh.
  destruct Hch as [Hc | Hc].
  - exists GL_RGB8. rewrite (proj2 (Z.eqb_eq _ 3) Hc). cbn [self trace].
    rewrite Hreg. now rewrite <- !app_assoc.
  - exists GL_RGBA8.
    assert (colorChannels image <> 3) as Hc3 by lia.
    rewrite (proj2 (Z.eqb_neq _ 3) Hc3), (proj2 (Z.eqb_eq _ 4) Hc).
    cbn [self trace].
    rewrite Hreg. now rewrite <- !app_assoc.
Qed.

(** The world after a decoded image is turned down for its channel count. *)
Lemma CreateGLTexture_unsupported_world {float mat4 : Type}
    (stbi_load : string -> option Image) (filename tag0 : string)
    (image : Image) (w : World float mat4) :
  stbi_load filename = Some image ->
  colorChannels image <> 3 -> colorChannels image <> 4 ->
  CreateGLTexture stbi_load filename tag0 w =
  Ok (false,
      mkWorld (self w)
        (trace w ++
         [EvFlipVertically true;
          EvCout (Successfully_loaded filename (width image) (height image)
                    (colorChannels image));
          EvGL (glGenTextures (fresh_texture_name (trace w)));
          EvGL (glBindTexture (fresh_texture_name (trace w)));
          EvGL (glTexParameteri_wrap GL_TEXTURE_WRAP_S);
          EvGL (glTexParameteri_wrap GL_TEXTURE_WRAP_T);
          EvGL (glTexParameteri_filter GL_TEXTURE_MIN_FILTER);
          EvGL (glTexParameteri_filter GL_TEXTURE_MAG_FILTER);
          EvCout (Not_implemented_channels (colorChannels image))])).
Proof.
  intros Hload H3 H4.
  assert (fresh_texture_name
            ((trace w ++ [EvFlipVertically true]) ++
             [EvCout (Successfully_loaded filename (width image)
                        (height image) (colorChannels image))])
          = fresh_texture_name (trace w)) as Hfresh.
  { unfold fresh_texture_name. rewrite !generated_names_app. cbn. lia. }
  unfold CreateGLTexture. rewrite Hload.
  unfold cout, gl. unfold bind, emit, get_trace, ret. cbn [self trace].
  rewrite Hfresh.
  rewrite (proj2 (Z.eqb_neq _ 3) H3), (proj2 (Z.eqb_neq _ 4) H4).
  cbn [self trace]. now rewrite <- !app_assoc.
Qed.

(** What a call of [CreateGLTexture] that returns has done to the object:
    nothing when it returns [false], one slot appended when it returns
    [true]. *)
Lemma CreateGLTexture_returns {float mat4 : Type}
    (stbi_load : string -> option Image) (filename tag0 : string)
    (w w' : World float mat4) (b : bool) :
  slots_in_bounds (self w) ->
  CreateGLTexture stbi_load filename tag0 w = Ok (b, w') ->
  (b = false /\ self w' = self w) \/
  (b = true /\
   m_pShaderManager (self w') = m_pShaderManager (self w) /\
   m_objectMaterials (self w') = m_objectMaterials (self w) /\
   m_loadedTextures (self w') = m_loadedTextures (self w) + 1 /\
   length (m_textureIDs (self w')) = length (m_textureIDs (self w)) /\
   slots (self w') =
     slots (self w) ++ [mkTEXTURE_INFO (fresh_texture_name (trace w)) tag0]).
Proof.
  intros [Hlo Hhi] Hrun.
  assert (match stbi_load filename with
          | None => True
          | Some image => colorChannels image <> 3 /\ colorChannels image <> 4
          end -> b = false /\ self w' = self w) as Hfail.
  { intros Hcause.
    destruct (CreateGLTexture_fails stbi_load filename tag0 w Hcause)
      as (w1 & Hrun1 & Hself).
    rewrite Hrun1 in Hrun. injection Hrun as <- <-. auto. }
  destruct (stbi_load filename) as [image|] eqn:Hload; [|left; now apply Hfail].
  destruct (decide (colorChannels image = 3 \/ colorChannels image = 4))
    as [Hch|Hch]; [|left; apply Hfail; split; intros H; apply Hch; auto].
  destruct (decide (m_loadedTextures (self w)
                    = Z.of_nat (length (m_textureIDs (self w)))))
    as [Hfull|Hroom].
  - rewrite (CreateGLTexture_full_array _ _ _ _ _ Hload Hch Hfull) in Hrun.
    discriminate.
  - destruct (CreateGLTexture_succeeds stbi_load filename tag0 image w
                Hload Hch ltac:(lia)) as (w1 & Hrun1 & Hfacts).
    rewrite Hrun1 in Hrun. injection Hrun as <- <-. right. auto.
Qed.

(** ** Registration and lookup together *)



(** X4: a call of [CreateGLTexture] that returns, whatever it registers,
    changes neither lookup of a tag that was registered before: a second
    registration under the same tag adds a slot that the lookups never
    reach. *)
Theorem CreateGLTexture_keeps_lookups {float mat4 : Type}
    (stbi_load : string -> option Image) (filename tag0 : string)
    (w w' : World float mat4) (b : bool) (t : string) (i : Z) :
  slots_in_bounds (self w) ->
  CreateGLTexture stbi_load filename tag0 w = Ok (b, w') ->
  FindTextureSlot (self w) t = Ok i -> i <> -1 ->
  FindTextureSlot (self w') t = Ok i /\
  FindTextureID (self w') t = FindTextureID (self w) t.
Proof.
  intros Hbounds Hrun Hfound Hhit.
  destruct (slots_first_match_or_none (self w) t (proj2 Hbounds))
    as [Hnone | (j & e & Hj & Htag & Hfirst)].
  - destruct (lookups_of_no_slot (self w) t (proj2 Hbounds) Hnone) as [Hs _].
    rewrite Hs in Hfound. injection Hfound as <-. congruence.
  - destruct (lookups_of_first_slot (self w) t j e Hj Htag Hfirst)
      as [Hs Hid].
    rewrite Hs in Hfound. injection Hfound as <-. rewrite Hid.
    destruct (CreateGLTexture_returns stbi_load filename tag0 w w' b
                Hbounds Hrun)
      as [[_ ->] | (_ & _ & _ & _ & _ & Hslots)]; [auto|].
    pose proof (lookup_lt_Some _ _ _ Hj) as Hlt.
    apply (lookups_of_first_slot (self w') t j e).
    + rewrite Hslots. now rewrite lookup_app_l.
    + exact Htag.
    + intros k e' Hk He'. rewrite Hslots in He'.
      rewrite lookup_app_l in He' by lia. now apply (Hfirst k).
Qed.

Lemma CreateGLTexture_keeps_lookups_witness :
  FindTextureSlot
    (mkSceneManager PTR
       (<[3%nat := mkTEXTURE_INFO 1 "oakd"]> (m_textureIDs Sample2.prepared))
       4 (m_objectMaterials Sample2.prepared)) "oakd" = Ok 0 /\
  FindTextureID
    (mkSceneManager PTR
       (<[3%nat := mkTEXTURE_INFO 1 "oakd"]> (m_textureIDs Sample2.prepared))
       4 (m_objectMaterials Sample2.prepared)) "oakd"
  = FindTextureID Sample2.prepared "oakd".
Proof.
  apply (CreateGLTexture_keeps_lookups (mat4 := unit) Sample.files
           "textures/oakd.jpg" "oakd" (mkWorld Sample2.prepared [])
           (mkWorld
              (mkSceneManager PTR
                 (<[3%nat := mkTEXTURE_INFO 1 "oakd"]>
                    (m_textureIDs Sample2.prepared))
                 4 (m_objectMaterials Sample2.prepared))
              [EvFlipVertically true;
               EvCout (Successfully_loaded "textures/oakd.jpg" 512 512 3);
               EvGL (glGenTextures 1); EvGL (glBindTexture 1);
               EvGL (glTexParameteri_wrap GL_TEXTURE_WRAP_S);
               EvGL (glTexParameteri_wrap GL_TEXTURE_WRAP_T);
               EvGL (glTexParameteri_filter GL_TEXTURE_MIN_FILTER);
               EvGL (glTexParameteri_filter GL_TEXTURE_MAG_FILTER);
               EvGL (glTexImage2D GL_RGB8 512 512 "textures/oakd.jpg");
               EvGL glGenerateMipmap; EvImageFree "textures/oakd.jpg";
               EvGL (glBindTexture 0)])
           true "oakd" 0).
  - unfold slots_in_bounds. cbn. lia.
  - vm_compute. reflexivity.
  - vm_compute. reflexivity.
  - lia.
Defined.

(** X6: when the decoded image has a channel count other than 3 and 4,
    [CreateGLTexture] returns [false] after it has generated a texture name
    and bound it: the texture stays bound to the active unit, the name is
    used up, the image is not released and nothing is deleted. *)
Theorem CreateGLTexture_unsupported_leaves_texture_bound {float mat4 : Type}
    (stbi_load : string -> option Image) (filename tag0 : string)
    (image : Image) (w : World float mat4) :
  stbi_load filename = Some image ->
  colorChannels image <> 3 -> colorChannels image <> 4 ->
  exists w',
    CreateGLTexture stbi_load filename tag0 w = Ok (false, w') /\
    texture_bound_to (trace w') (active_unit (trace w))
      = fresh_texture_name (trace w) /\
    fresh_texture_name (trace w') = fresh_texture_name (trace w) + 1 /\
    freed_images (trace w') = freed_images (trace w) /\
    deleted_textures (trace w') = deleted_textures (trace w).
Proof.
  intros Hload H3 H4.
  eexists. split.
  { exact (CreateGLTexture_unsupported_world stbi_load filename tag0 image w
             Hload H3 H4). }
  cbn [trace]. repeat split.
  - unfold texture_bound_to, active_unit. rewrite gl_replay_app.
    destruct (gl_replay (trace w) (0, [])) as [act bs].
    cbn. now rewrite Z.eqb_refl.
  - unfold fresh_texture_name. rewrite generated_names_app. cbn. lia.
  - rewrite freed_images_app. cbn. apply app_nil_r.
  - rewrite deleted_textures_app. cbn. apply app_nil_r.
Qed.

Lemma CreateGLTexture_unsupported_leaves_texture_bound_witness :
  exists w' : World Q unit,
    CreateGLTexture Sample.files "textures/gray.png" "gray" Sample.fresh
      = Ok (false, w') /\
    texture_bound_to (trace w') (active_unit (trace Sample.fresh))
      = fresh_texture_name (trace Sample.fresh) /\
    fresh_texture_name (trace w')
      = fresh_texture_name (trace Sample.fresh) + 1 /\
    freed_images (trace w') = freed_images (trace Sample.fresh) /\
    deleted_textures (trace w') = deleted_textures (trace Sample.fresh).
Proof.
  apply (CreateGLTexture_unsupported_leaves_texture_bound Sample.files
           "textures/gray.png" "gray" (mkImage 8 8 1) Sample.fresh).
  - reflexivity.
  - cbn. lia.
  - cbn. lia.
Defined.

(** X7: a successful registration ends with texture 0 bound to the active
    texture unit, whatever was bound there before; the active unit and the
    bindings of the other units are as before, and the image is released. *)
Theorem CreateGLTexture_success_unbinds_active_unit {float mat4 : Type}
    (stbi_load : string -> option Image) (filename tag0 : string)
    (image : Image) (w : World float mat4) :
  stbi_load filename = Some image ->
  colorChannels image = 3 \/ colorChannels image = 4 ->
  0 <= m_loadedTextures (self w) < Z.of_nat (length (m_textureIDs (self w))) ->
  exists w',
    CreateGLTexture stbi_load filename tag0 w = Ok (true, w') /\
    active_unit (trace w') = active_unit (trace w) /\
    texture_bound_to (trace w') (active_unit (trace w)) = 0 /\
    (forall u, u <> active_unit (trace w) ->
               texture_bound_to (trace w') u = texture_bound_to (trace w) u) /\
    freed_images (trace w') = freed_images (trace w) ++ [filename].
Proof.
  intros Hload Hch Hroom.
  destruct (CreateGLTexture_success_world stbi_load filename tag0 image w
              Hload Hch Hroom) as [fmt Hrun].
  eexists. split; [exact Hrun|].
  cbn [trace]. unfold texture_bound_to, active_unit.
  rewrite gl_replay_app, freed_images_app.
  destruct (gl_replay (trace w) (0, [])) as [act bs].
  cbn. rewrite Z.eqb_refl. repeat split.
  intros u Hu.
  assert ((act =? u) = false) as -> by (apply Z.eqb_neq; congruence).
  reflexivity.
Qed.

Lemma CreateGLTexture_success_unbinds_active_unit_witness :
  exists w' : World Q unit,
    CreateGLTexture Sample.files "textures/oakd.jpg" "oakd" Sample.fresh
      = Ok (true, w') /\
    active_unit (trace w') = active_unit (trace Sample.fresh) /\
    texture_bound_to (trace w') (active_unit (trace Sample.fresh)) = 0 /\
    (forall u, u <> active_unit (trace Sample.fresh) ->
               texture_bound_to (trace w') u
               = texture_bound_to (trace Sample.fresh) u) /\
    freed_images (trace w') = freed_images (trace Sample.fresh) ++
                              ["textures/oakd.jpg"].
Proof.
  apply (CreateGLTexture_success_unbinds_active_unit Sample.files
           "textures/oakd.jpg" "oakd" (mkImage 512 512 3) Sample.fresh).
  - reflexivity.
  - left. reflexivity.
  - cbn. lia.
Defined.

(** ** Binding and releasing the textures *)

Section TextureLoops.
Context {float mat4 : Type}.
Variable s : SceneManager float.

Lemma BindGLTextures_loop (n : nat) :
  forall (i : nat) (tr : list (event float mat4)),
    (i + n <= length (m_textureIDs s))%nat ->
    for_count n (Z.of_nat i)
      (fun i =>
         gl (glActiveTexture i) ;;;
         let* e := lift (array_get (m_textureIDs s) i) in
         gl (glBindTexture (ID e)))
      (mkWorld s tr)
    = Ok (tt, mkWorld s
                (tr ++ binding_calls (take n (drop i (m_textureIDs s)))
                         (Z.of_nat i))).
Proof.
  induction n as [|n IH]; intros i tr Hlen.
  - cbn. now rewrite app_nil_r.
  - destruct (lookup_lt_is_Some_2 (m_textureIDs s) i) as [e He]; [lia|].
    cbn [for_count]. unfold bind at 1.
    unfold bind at 1 2, gl, emit, lift. cbn [self trace].
    rewrite (array_get_Some _ _ _ He). cbn [self trace].
    replace (Z.of_nat i + 1) with (Z.of_nat (S i)) by lia.
    rewrite IH by lia.
    rewrite (drop_S _ _ _ He). cbn [take binding_calls].
    replace (Z.of_nat i + 1) with (Z.of_nat (S i)) by lia.
    now rewrite <- !app_assoc.
Qed.

Lemma DestroyGLTextures_loop (n : nat) :
  forall (i : nat) (tr : list (event float mat4)),
    (i + n <= length (m_textureIDs s))%nat ->
    for_count n (Z.of_nat i)
      (fun i =>
         let* e := lift (array_get (m_textureIDs s) i) in
         gl (glDeleteTextures (ID e)))
      (mkWorld s tr)
    = Ok (tt, mkWorld s
                (tr ++ deleting_calls (take n (drop i (m_textureIDs s))))).
Proof.
  induction n as [|n IH]; intros i tr Hlen.
  - cbn. now rewrite app_nil_r.
  - destruct (lookup_lt_is_Some_2 (m_textureIDs s) i) as [e He]; [lia|].
    cbn [for_count]. unfold bind at 1.
    unfold bind at 1, gl, emit, lift. cbn [self trace].
    rewrite (array_get_Some _ _ _ He). cbn [self trace].
    replace (Z.of_nat i + 1) with (Z.of_nat (S i)) by lia.
    rewrite IH by lia.
    rewrite (drop_S _ _ _ He). unfold deleting_calls. cbn [take map].
    now rewrite <- !app_assoc.
Qed.
End TextureLoops.

Lemma BindGLTextures_world {float mat4 : Type} (w : World float mat4) :
  m_loadedTextures (self w) <= Z.of_nat (length (m_textureIDs (self w))) ->
  BindGLTextures w =
  Ok (tt, mkWorld (self w) (trace w ++ binding_calls (slots (self w)) 0)).
Proof.
  intros Hhi. destruct w as [s tr].
  unfold BindGLTextures, for_range. unfold bind at 1, get_self.
  cbn [self trace]. rewrite Z.sub_0_r.
  change 0 with (Z.of_nat 0) at 1.
  rewrite BindGLTextures_loop by (cbn in Hhi; lia).
  reflexivity.
Qed.

Lemma DestroyGLTextures_world {float mat4 : Type} (w : World float mat4) :
  m_loadedTextures (self w) <= Z.of_nat (length (m_textureIDs (self w))) ->
  DestroyGLTextures w =
  Ok (tt, mkWorld (self w) (trace w ++ deleting_calls (slots (self w)))).
Proof.
  intros Hhi. destruct w as [s tr].
  unfold DestroyGLTextures, for_range. unfold bind at 1, get_self.
  cbn [self trace]. rewrite Z.sub_0_r.
  change 0 with (Z.of_nat 0) at 1.
  rewrite DestroyGLTextures_loop by (cbn in Hhi; lia).
  reflexivity.
Qed.

(** Replaying the calls of [BindGLTextures]: unit [u0 + i] ends up bound to
    the ID of the i-th slot, the other units are as before. *)
Lemma binding_calls_replay {float mat4 : Type} (l : list TEXTURE_INFO) :
  forall (u0 : Z) (st : Z * list (Z * Z)),
    (forall i e, l !! i = Some e ->
       binding_of (u0 + Z.of_nat i)
         (snd (gl_replay (binding_calls (float := float) (mat4 := mat4) l u0)
                 st)) = ID e) /\
    (forall u, ~ (u0 <= u < u0 + Z.of_nat (length l)) ->
       binding_of u
         (snd (gl_replay (binding_calls (float := float) (mat4 := mat4) l u0)
                 st)) = binding_of u (snd st)).
Proof.
  induction l as [|e l IH]; intros u0 st.
  - split; [intros i e' H; discriminate | reflexivity].
  - cbn [binding_calls gl_replay fst snd].
    destruct (IH (u0 + 1) (u0, (u0, ID e) :: snd st)) as [IHin IHout].
    split.
    + intros [|i] e' He'.
      * injection He' as <-. rewrite Z.add_0_r, IHout by lia.
        cbn. now rewrite Z.eqb_refl.
      * replace (u0 + Z.of_nat (S i)) with (u0 + 1 + Z.of_nat i) by lia.
        now apply IHin.
    + intros u Hu. cbn [length] in Hu. rewrite IHout by lia. cbn.
      assert ((u0 =? u) = false) as -> by (apply Z.eqb_neq; lia).
      reflexivity.
Qed.

(** X8: with the counter inside the array bound, [BindGLTextures] returns,
    leaves the object as it is, and afterwards texture unit i is bound to
    the ID of slot i for every registered slot; the units beyond the
    registered slots keep their bindings. *)
Theorem BindGLTextures_binds_slot_i_to_unit_i {float mat4 : Type}
    (w : World float mat4) :
  m_loadedTextures (self w) <= Z.of_nat (length (m_textureIDs (self w))) ->
  exists w',
    BindGLTextures w = Ok (tt, w') /\
    self w' = self w /\
    (forall i e, slots (self w) !! i = Some e ->
                 texture_bound_to (trace w') (Z.of_nat i) = ID e) /\
    (forall u, ~ (0 <= u < Z.of_nat (length (slots (self w)))) ->
               texture_bound_to (trace w') u = texture_bound_to (trace w) u).
Proof.
  intros Hhi. eexists. split; [exact (BindGLTextures_world w Hhi)|].
  cbn [self trace]. split; [reflexivity|].
  unfold texture_bound_to. rewrite gl_replay_app.
  destruct (binding_calls_replay (float := float) (mat4 := mat4)
              (slots (self w)) 0 (gl_replay (trace w) (0, [])))
    as [Hin Hout].
  split.
  - intros i e He. rewrite <- (Hin i e He). reflexivity.
  - intros u Hu. apply Hout. lia.
Qed.

Lemma BindGLTextures_binds_slot_i_to_unit_i_witness :
  exists w' : World Q unit,
    BindGLTextures (mkWorld Sample2.prepared []) = Ok (tt, w') /\
    self w' = Sample2.prepared /\
    (forall i e, slots Sample2.prepared !! i = Some e ->
                 texture_bound_to (trace w') (Z.of_nat i) = ID e) /\
    (forall u, ~ (0 <= u < Z.of_nat (length (slots Sample2.prepared))) ->
               texture_bound_to (trace w') u
               = texture_bound_to (@nil (event Q unit)) u).
Proof.
  apply (BindGLTextures_binds_slot_i_to_unit_i (mkWorld Sample2.prepared [])).
  cbn. lia.
Defined.

(** X9: with the counter inside the array bound, [DestroyGLTextures]
    deletes the IDs of the registered slots, in slot order, and leaves the
    object as it is, the counter included: a second call deletes the same
    IDs once more. *)
Theorem DestroyGLTextures_deletes_registered {float mat4 : Type}
    (w : World float mat4) :
  m_loadedTextures (self w) <= Z.of_nat (length (m_textureIDs (self w))) ->
  exists w' w'',
    DestroyGLTextures w = Ok (tt, w') /\
    self w' = self w /\
    deleted_textures (trace w')
      = deleted_textures (trace w) ++ map ID (slots (self w)) /\
    DestroyGLTextures w' = Ok (tt, w'') /\
    self w'' = self w /\
    deleted_textures (trace w'')
      = deleted_textures (trace w) ++ map ID (slots (self w))
          ++ map ID (slots (self w)).
Proof.
  intros Hhi.
  assert (forall l : list TEXTURE_INFO,
            deleted_textures (deleting_calls (float := float) (mat4 := mat4) l)
            = map ID l) as Hdel.
  { induction l as [|e l IH]; [reflexivity|]. cbn. now rewrite <- IH. }
  eexists. eexists.
  split; [exact (DestroyGLTextures_world w Hhi)|].
  cbn [self trace]. split; [reflexivity|].
  split; [now rewrite deleted_textures_app, Hdel|].
  split; [exact (DestroyGLTextures_world (mkWorld (self w) _) Hhi)|].
  cbn [self trace]. split; [reflexivity|].
  now rewrite !deleted_textures_app, !Hdel, <- app_assoc.
Qed.

Lemma DestroyGLTextures_deletes_registered_witness :
  exists w' w'' : World Q unit,
    DestroyGLTextures (mkWorld Sample2.prepared []) = Ok (tt, w') /\
    self w' = Sample2.prepared /\
    deleted_textures (trace w')
      = deleted_textures (@nil (event Q unit)) ++
        map ID (slots Sample2.prepared) /\
    DestroyGLTextures w' = Ok (tt, w'') /\
    self w'' = Sample2.prepared /\
    deleted_textures (trace w'')
      = deleted_textures (@nil (event Q unit)) ++
        map ID (slots Sample2.prepared) ++ map ID (slots Sample2.prepared).
Proof.
  apply (DestroyGLTextures_deletes_registered (mkWorld Sample2.prepared [])).
  cbn. lia.
Defined.

(** X10: after [BindGLTextures], the index that [FindTextureSlot] returns
    for a registered tag is a texture unit bound to the texture of that tag:
    the unit holds the ID of the slot found, the ID [FindTextureID] returns
    after conversion to [int]. *)
Theorem FindTextureSlot_names_bound_unit {float mat4 : Type}
    (w : World float mat4) (tag0 : string) (i : Z) :
  m_loadedTextures (self w) <= Z.of_nat (length (m_textureIDs (self w))) ->
  FindTextureSlot (self w) tag0 = Ok i -> i <> -1 ->
  exists w' e,
    BindGLTextures w = Ok (tt, w') /\
    slots (self w) !! Z.to_nat i = Some e /\ tag e = tag0 /\
    texture_bound_to (trace w') i = ID e /\
    FindTextureID (self w') tag0 = Ok (int_of_GLuint (ID e)).
Proof.
  intros Hhi Hfound Hhit.
  destruct (slots_first_match_or_none (self w) tag0 Hhi)
    as [Hnone | (j & e & Hj & Htag & Hfirst)].
  - destruct (lookups_of_no_slot (self w) tag0 Hhi Hnone) as [Hs _].
    rewrite Hs in Hfound. injection Hfound as <-. congruence.
  - destruct (lookups_of_first_slot (self w) tag0 j e Hj Htag Hfirst)
      as [Hs Hid].
    rewrite Hs in Hfound. injection Hfound as <-.
    eexists. exists e.
    split; [exact (BindGLTextures_world w Hhi)|].
    cbn [self trace]. rewrite Nat2Z.id.
    split; [exact Hj|]. split; [exact Htag|]. split; [|exact Hid].
    unfold texture_bound_to. rewrite gl_replay_app.
    destruct (binding_calls_replay (float := float) (mat4 := mat4)
                (slots (self w)) 0 (gl_replay (trace w) (0, [])))
      as [Hin _].
    rewrite <- (Hin j e Hj). reflexivity.
Qed.

Lemma FindTextureSlot_names_bound_unit_witness :
  exists (w' : World Q unit) e,
    BindGLTextures (mkWorld Sample2.prepared []) = Ok (tt, w') /\
    slots Sample2.prepared !! Z.to_nat 2 = Some e /\ tag e = "brass" /\
    texture_bound_to (trace w') 2 = ID e /\
    FindTextureID (self w') "brass" = Ok (int_of_GLuint (ID e)).
Proof.
  apply (FindTextureSlot_names_bound_unit (mkWorld Sample2.prepared [])
           "brass" 2).
  - cbn. lia.
  - reflexivity.
  - lia.
Defined.

(** * Further properties of the material registry *)

Section MaterialResults.
Context {float : Type}.
Implicit Types (l : list (OBJECT_MATERIAL float)) (m : OBJECT_MATERIAL float).

(** The loop over a registry extended at its end: entries appended later
    are looked at only when no earlier entry carries the tag. *)
Lemma FindMaterial_loop_app l1 l2 (tag0 : string) m :
  FindMaterial_loop (l1 ++ l2) tag0 m =
  if existsb (fun e => String.eqb (material_tag e) tag0) l1
  then FindMaterial_loop l1 tag0 m
  else FindMaterial_loop l2 tag0 m.
Proof.
  induction l1 as [|e l1 IH]; [reflexivity|].
  cbn [app FindMaterial_loop existsb].
  destruct (String.eqb (material_tag e) tag0); [reflexivity | exact IH].
Qed.

Lemma existsb_tag_true l (tag0 : string) :
  (exists e, e ∈ l /\ material_tag e = tag0) ->
  existsb (fun e => String.eqb (material_tag e) tag0) l = true.
Proof.
  intros (e & He & Htag). apply existsb_exists. exists e.
  split; [now apply list_elem_of_In | now apply String.eqb_eq].
Qed.
End MaterialResults.

(** X11: when the registry holds an entry with the tag, [FindMaterial]
    returns [true] and the output holds the five fields of the first such
    entry; the tag of the output is not assigned. *)
Theorem FindMaterial_copies_first_match {float : Type}
    (s : SceneManager float) (l1 l2 : list (OBJECT_MATERIAL float))
    (e : OBJECT_MATERIAL float) (tag0 : string)
    (material : OBJECT_MATERIAL float) :
  m_objectMaterials s = l1 ++ e :: l2 ->
  (forall e', e' ∈ l1 -> material_tag e' <> tag0) ->
  material_tag e = tag0 ->
  FindMaterial s tag0 material =
  (true,
   mkOBJECT_MATERIAL (ambientColor e) (ambientStrength e) (diffuseColor e)
     (specularColor e) (shininess e) (material_tag material)).
Proof.
  intros Hreg Hmiss Htag. unfold FindMaterial. rewrite Hreg.
  rewrite (FindMaterial_loop_found l1 l2 e tag0 material Hmiss Htag).
  destruct l1; reflexivity.
Qed.

Lemma FindMaterial_copies_first_match_witness :
  FindMaterial Sample2.prepared "box" Sample.garbage_material =
  (true,
   mkOBJECT_MATERIAL (ambientColor (boxMaterial (fun q => q)))
     (ambientStrength (boxMaterial (fun q => q)))
     (diffuseColor (boxMaterial (fun q => q)))
     (specularColor (boxMaterial (fun q => q)))
     (shininess (boxMaterial (fun q => q)))
     (material_tag Sample.garbage_material)).
Proof.
  apply (FindMaterial_copies_first_match Sample2.prepared
           [planeMaterial (fun q => q); cylinderMaterial (fun q => q)]
           [sphereMaterial (fun q => q); lampBaseMaterial (fun q => q);
            lampShadeMaterial (fun q => q); bedMaterial (fun q => q);
            pillowMaterial (fun q => q); rugMaterial (fun q => q)]
           (boxMaterial (fun q => q)) "box" Sample.garbage_material).
  - reflexivity.
  - intros e' He'.
    repeat (apply elem_of_cons in He' as [->|He']; [discriminate|]).
    now apply elem_of_nil in He'.
  - reflexivity.
Defined.

(** The world after [DefineObjectMaterials]. *)
Lemma DefineObjectMaterials_world {float mat4 : Type} (flit : Q -> float)
    (w : World float mat4) :
  DefineObjectMaterials flit w =
  Ok (tt,
      mkWorld
        (mkSceneManager (m_pShaderManager (self w)) (m_textureIDs (self w))
           (m_loadedTextures (self w))
           (m_objectMaterials (self w) ++
            [planeMaterial flit; cylinderMaterial flit; boxMaterial flit;
             sphereMaterial flit; lampBaseMaterial flit;
             lampShadeMaterial flit; bedMaterial flit; pillowMaterial flit;
             rugMaterial flit]))
        (trace w)).
Proof.
  assert (forall (m : OBJECT_MATERIAL float) (w0 : World float mat4),
            push_back m w0 =
            Ok (tt,
                mkWorld
                  (mkSceneManager (m_pShaderManager (self w0))
                     (m_textureIDs (self w0)) (m_loadedTextures (self w0))
                     (m_objectMaterials (self w0) ++ [m]))
                  (trace w0))) as Hpush by reflexivity.
  unfold DefineObjectMaterials.
  repeat (erewrite bind_Ok; [|apply Hpush];
          cbn [self trace m_pShaderManager m_textureIDs m_loadedTextures
               m_objectMaterials]).
  rewrite Hpush.
  cbn [self trace m_pShaderManager m_textureIDs m_loadedTextures
       m_objectMaterials].
  now rewrite <- !app_assoc.
Qed.

(** X12: [DefineObjectMaterials] appends its nine entries behind the ones
    already defined and touches nothing else.  A tag defined before is
    still answered by the earlier entry; on a registry that was empty, each
    of the nine tags is answered by its own entry, so none of the nine
    shadows another. *)
Theorem DefineObjectMaterials_appends_nine {float mat4 : Type}
    (flit : Q -> float) (w : World float mat4) :
  let nine :=
    [planeMaterial flit; cylinderMaterial flit; boxMaterial flit;
     sphereMaterial flit; lampBaseMaterial flit; lampShadeMaterial flit;
     bedMaterial flit; pillowMaterial flit; rugMaterial flit] in
  exists w',
    DefineObjectMaterials flit w = Ok (tt, w') /\
    trace w' = trace w /\
    m_pShaderManager (self w') = m_pShaderManager (self w) /\
    m_textureIDs (self w') = m_textureIDs (self w) /\
    m_loadedTextures (self w') = m_loadedTextures (self w) /\
    m_objectMaterials (self w') = m_objectMaterials (self w) ++ nine /\
    (forall t material,
       (exists e, e ∈ m_objectMaterials (self w) /\ material_tag e = t) ->
       FindMaterial (self w') t material = FindMaterial (self w) t material) /\
    (m_objectMaterials (self w) = [] ->
     forall e material, e ∈ nine ->
       FindMaterial (self w') (material_tag e) material =
       (true,
        mkOBJECT_MATERIAL (ambientColor e) (ambientStrength e)
          (diffuseColor e) (specularColor e) (shininess e)
          (material_tag material))).
Proof.
  intros nine. eexists.
  split; [exact (DefineObjectMaterials_world flit w)|].
  cbn [self trace m_pShaderManager m_textureIDs m_loadedTextures
       m_objectMaterials].
  repeat (split; [reflexivity|]). split.
  - intros t material Hex. unfold FindMaterial.
    cbn [m_objectMaterials].
    rewrite FindMaterial_loop_app, (existsb_tag_true _ _ Hex).
    destruct Hex as (e & He & _).
    destruct (m_objectMaterials (self w)) as [|e0 l0];
      [now apply elem_of_nil in He | reflexivity].
  - intros Hempty e material He. unfold FindMaterial.
    cbn [m_objectMaterials]. rewrite Hempty. cbn [app].
    unfold nine in He.
    repeat (apply elem_of_cons in He as [->|He]; [reflexivity|]).
    now apply elem_of_nil in He.
Qed.

Lemma DefineObjectMaterials_appends_nine_witness :
  exists w' : World Q unit,
    DefineObjectMaterials (fun q => q) Sample.fresh = Ok (tt, w') /\
    m_objectMaterials (self w') = m_objectMaterials Sample2.prepared /\
    forall material,
      FindMaterial (self w') "rug" material =
      (true,
       mkOBJECT_MATERIAL (ambientColor (rugMaterial (fun q => q)))
         (ambientStrength (rugMaterial (fun q => q)))
         (diffuseColor (rugMaterial (fun q => q)))
         (specularColor (rugMaterial (fun q => q)))
         (shininess (rugMaterial (fun q => q)))
         (material_tag material)).
Proof.
  destruct (DefineObjectMaterials_appends_nine (mat4 := unit) (fun q => q)
              Sample.fresh)
    as (w' & Hrun & _ & _ & _ & _ & Hmats & _ & Hnine).
  exists w'. split; [exact Hrun|]. split; [exact Hmats|].
  intros material.
  apply (Hnine eq_refl (rugMaterial (fun q => q)) material).
  do 8 right. left.
Defined.

(** X13: with a shader manager attached and an entry with the tag in the
    registry, [SetShaderMaterial] uploads the five fields of the first such
    entry, in the order ambient colour, ambient strength, diffuse colour,
    specular colour, shininess, and leaves the object as it is. *)
Theorem SetShaderMaterial_uploads_first_match {float mat4 : Type}
    (indeterminate : OBJECT_MATERIAL float) (materialTag : string)
    (l1 l2 : list (OBJECT_MATERIAL float)) (e : OBJECT_MATERIAL float)
    (w : World float mat4) :
  m_pShaderManager (self w) = PTR ->
  m_objectMaterials (self w) = l1 ++ e :: l2 ->
  (forall e', e' ∈ l1 -> material_tag e' <> materialTag) ->
  material_tag e = materialTag ->
  SetShaderMaterial indeterminate materialTag w =
  Ok (tt, mkWorld (self w)
            (trace w ++
             [EvUniform "material.ambientColor" (UVec3 (ambientColor e));
              EvUniform "material.ambientStrength"
                (UFloat (ambientStrength e));
              EvUniform "material.diffuseColor" (UVec3 (diffuseColor e));
              EvUniform "material.specularColor" (UVec3 (specularColor e));
              EvUniform "material.shininess" (UFloat (shininess e))])).
Proof.
  intros Hptr Hreg Hmiss Htag.
  unfold SetShaderMaterial. unfold bind at 1, get_self.
  assert (FindMaterial (self w) materialTag indeterminate =
          (true,
           mkOBJECT_MATERIAL (ambientColor e) (ambientStrength e)
             (diffuseColor e) (specularColor e) (shininess e)
             (material_tag indeterminate))) as ->.
  { unfold FindMaterial. rewrite Hreg.
    rewrite (FindMaterial_loop_found l1 l2 e materialTag indeterminate
               Hmiss Htag).
    destruct l1; reflexivity. }
  rewrite Hreg.
  assert ((0 <? length (l1 ++ e :: l2))%nat = true) as ->.
  { apply Nat.ltb_lt. rewrite length_app. cbn. lia. }
  destruct w as [[p a n ms] tr]. cbn in Hptr. subst p.
  unfold shader_set, bind, get_self, emit. cbn.
  now rewrite <- !app_assoc.
Qed.

Lemma SetShaderMaterial_uploads_first_match_witness :
  SetShaderMaterial Sample.garbage_material "plane"
    (mkWorld Sample2.prepared ([] : list (event Q unit))) =
  Ok (tt, mkWorld Sample2.prepared
            ([] ++
             [EvUniform "material.ambientColor"
                (UVec3 (ambientColor (planeMaterial (fun q => q))));
              EvUniform "material.ambientStrength"
                (UFloat (ambientStrength (planeMaterial (fun q => q))));
              EvUniform "material.diffuseColor"
                (UVec3 (diffuseColor (planeMaterial (fun q => q))));
              EvUniform "material.specularColor"
                (UVec3 (specularColor (planeMaterial (fun q => q))));
              EvUniform "material.shininess"
                (UFloat (shininess (planeMaterial (fun q => q))))])).
Proof.
  apply (SetShaderMaterial_uploads_first_match Sample.garbage_material
           "plane" []
           [cylinderMaterial (fun q => q); boxMaterial (fun q => q);
            sphereMaterial (fun q => q); lampBaseMaterial (fun q => q);
            lampShadeMaterial (fun q => q); bedMaterial (fun q => q);
            pillowMaterial (fun q => q); rugMaterial (fun q => q)]
           (planeMaterial (fun q => q))
           (mkWorld Sample2.prepared [])).
  - reflexivity.
  - reflexivity.
  - intros e' He'. now apply elem_of_nil in He'.
  - reflexivity.
Defined.

(** X14: [SetShaderMaterial] has no null guard.  Without a shader manager it
    returns only when no material is defined; with any material defined it
    calls a member of the null pointer, whatever the tag. *)
Theorem SetShaderMaterial_null_shader_manager {float mat4 : Type}
    (indeterminate : OBJECT_MATERIAL float) (materialTag : string)
    (w : World float mat4) :
  m_pShaderManager (self w) = NULL ->
  SetShaderMaterial indeterminate materialTag w =
  match m_objectMaterials (self w) with
  | [] => Ok (tt, w)
  | _ :: _ => Fault NullDereference
  end.
Proof.
  intros Hnull. unfold SetShaderMaterial. unfold bind at 1, get_self.
  unfold FindMaterial.
  destruct (m_objectMaterials (self w)) as [|e l]; [reflexivity|].
  cbn [length Nat.ltb Nat.leb Nat.eqb fst snd].
  unfold shader_set, bind, get_self. now rewrite Hnull.
Qed.

Lemma SetShaderMaterial_null_shader_manager_witness :
  SetShaderMaterial Sample.garbage_material "plane"
    (mkWorld Sample2.unattached ([] : list (event Q unit)))
  = Fault NullDereference.
Proof.
  apply (SetShaderMaterial_null_shader_manager Sample.garbage_material
           "plane" (mkWorld Sample2.unattached [])).
  reflexivity.
Defined.

(** * Further properties of the binding protocol *)

(** The world after [SetShaderTexture] with a shader manager attached. *)
Lemma SetShaderTexture_world {float mat4 : Type}
    (textureTag : string) (w : World float mat4) :
  m_pShaderManager (self w) = PTR ->
  m_loadedTextures (self w) <= Z.of_nat (length (m_textureIDs (self w))) ->
  exists i,
    FindTextureSlot (self w) textureTag = Ok i /\
    SetShaderTexture textureTag w =
    Ok (tt, mkWorld (self w)
              (trace w ++ [EvUniform "bUseTexture" (UInt 1);
                           EvUniform "objectTexture" (USampler2D i)])) /\
    ((forall e, e ∈ slots (self w) -> tag e <> textureTag) -> i = -1).
Proof.
  intros Hptr Hhi.
  assert (exists i, FindTextureSlot (self w) textureTag = Ok i /\
            ((forall e, e ∈ slots (self w) -> tag e <> textureTag) ->
             i = -1)) as (i & Hi & Hmiss).
  { destruct (slots_first_match_or_none (self w) textureTag Hhi)
      as [Hnone | (j & e & Hj & Htag & Hfirst)].
    - exists (-1). split; [|reflexivity].
      now apply lookups_of_no_slot.
    - exists (Z.of_nat j). split.
      + now apply (lookups_of_first_slot (self w) textureTag j e).
      + intros Hnone. exfalso. apply (Hnone e); [|exact Htag].
        apply list_elem_of_lookup. eauto. }
  exists i. split; [exact Hi|]. split; [|exact Hmiss].
  destruct w as [[p a n ms] tr]. cbn in Hptr, Hi |- *. subst p.
  unfold SetShaderTexture, shader_set, bind, get_self, emit, lift.
  cbn. rewrite Hi. cbn. now rewrite <- !app_assoc.
Qed.

(** X15: with a shader manager attached and the counter inside the array
    bound, [SetShaderTexture] returns after two uploads: the texture flag
    set to 1 and the sampler set to what [FindTextureSlot] returns.  For a
    tag that no slot carries that is the sentinel -1, uploaded without any
    report. *)
Theorem SetShaderTexture_uploads_slot_or_sentinel {float mat4 : Type}
    (textureTag : string) (w : World float mat4) :
  m_pShaderManager (self w) = PTR ->
  m_loadedTextures (self w) <= Z.of_nat (length (m_textureIDs (self w))) ->
  exists i,
    FindTextureSlot (self w) textureTag = Ok i /\
    SetShaderTexture textureTag w =
    Ok (tt, mkWorld (self w)
              (trace w ++ [EvUniform "bUseTexture" (UInt 1);
                           EvUniform "objectTexture" (USampler2D i)])) /\
    ((forall e, e ∈ slots (self w) -> tag e <> textureTag) -> i = -1).
Proof.
  intros Hptr Hhi. exact (SetShaderTexture_world textureTag w Hptr Hhi).
Qed.

Lemma SetShaderTexture_uploads_slot_or_sentinel_witness :
  exists i,
    FindTextureSlot Sample2.prepared "sheet" = Ok i /\
    SetShaderTexture "sheet"
      (mkWorld Sample2.prepared ([] : list (event Q unit))) =
    Ok (tt, mkWorld Sample2.prepared
              ([] ++ [EvUniform "bUseTexture" (UInt 1);
                      EvUniform "objectTexture" (USampler2D i)])) /\
    ((forall e, e ∈ slots Sample2.prepared -> tag e <> "sheet") -> i = -1).
Proof.
  apply (SetShaderTexture_uploads_slot_or_sentinel "sheet"
           (mkWorld Sample2.prepared [])).
  - reflexivity.
  - cbn. lia.
Defined.

(** The world after [SetShaderColor] with a shader manager attached. *)
Lemma SetShaderColor_world {float mat4 : Type} (r g b a : float)
    (w : World float mat4) :
  m_pShaderManager (self w) = PTR ->
  SetShaderColor r g b a w =
  Ok (tt, mkWorld (self w)
            (trace w ++ [EvUniform "bUseTexture" (UInt 0);
                         EvUniform "objectColor" (UVec4 (Vec4 r g b a))])).
Proof.
  intros Hptr. destruct w as [[p ar n ms] tr]. cbn in Hptr. subst p.
  unfold SetShaderColor, shader_set, bind, get_self, emit. cbn.
  now rewrite <- !app_assoc.
Qed.

(** X16: the texture flag follows the last of [SetShaderColor] and
    [SetShaderTexture]: after texture then colour texturing is off (the
    sampler keeps its value), after colour then texture it is on (the
    colour keeps its value). *)
Theorem texture_flag_follows_last_call {float mat4 : Type}
    (textureTag : string) (r g b a : float) (w : World float mat4) :
  m_pShaderManager (self w) = PTR ->
  m_loadedTextures (self w) <= Z.of_nat (length (m_textureIDs (self w))) ->
  exists i w1 w2,
    FindTextureSlot (self w) textureTag = Ok i /\
    (SetShaderTexture textureTag ;;; SetShaderColor r g b a) w
      = Ok (tt, w1) /\
    uniform_value "bUseTexture" (trace w1) = Some (UInt 0) /\
    uniform_value "objectTexture" (trace w1) = Some (USampler2D i) /\
    (SetShaderColor r g b a ;;; SetShaderTexture textureTag) w
      = Ok (tt, w2) /\
    uniform_value "bUseTexture" (trace w2) = Some (UInt 1) /\
    uniform_value "objectColor" (trace w2) = Some (UVec4 (Vec4 r g b a)).
Proof.
  intros Hptr Hhi.
  destruct (SetShaderTexture_world textureTag w Hptr Hhi)
    as (i & Hi & Htex & _).
  pose proof (SetShaderColor_world r g b a w Hptr) as Hcol.
  exists i. eexists. eexists.
  split; [exact Hi|].
  split.
  { erewrite bind_Ok; [|exact Htex]. apply SetShaderColor_world. exact Hptr. }
  cbn [trace]. rewrite <- app_assoc.
  split; [rewrite uniform_value_app; reflexivity|].
  split; [rewrite uniform_value_app; reflexivity|].
  split.
  { erewrite bind_Ok; [|exact Hcol].
    destruct (SetShaderTexture_world textureTag
                (mkWorld (self w)
                   (trace w ++ [EvUniform "bUseTexture" (UInt 0);
                                EvUniform "objectColor"
                                  (UVec4 (Vec4 r g b a))])) Hptr Hhi)
      as (i' & Hi' & Htex' & _).
    cbn [self] in Hi'. rewrite Hi in Hi'. injection Hi' as <-.
    exact Htex'. }
  cbn [self trace]. rewrite <- app_assoc.
  split; rewrite uniform_value_app; reflexivity.
Qed.

Lemma texture_flag_follows_last_call_witness :
  exists i (w1 w2 : World Q unit),
    FindTextureSlot Sample2.prepared "oakl" = Ok i /\
    (SetShaderTexture "oakl" ;;; SetShaderColor 1 1 1 1)%Q
      (mkWorld Sample2.prepared []) = Ok (tt, w1) /\
    uniform_value "bUseTexture" (trace w1) = Some (UInt 0) /\
    uniform_value "objectTexture" (trace w1) = Some (USampler2D i) /\
    (SetShaderColor 1 1 1 1 ;;; SetShaderTexture "oakl")%Q
      (mkWorld Sample2.prepared []) = Ok (tt, w2) /\
    uniform_value "bUseTexture" (trace w2) = Some (UInt 1) /\
    uniform_value "objectColor" (trace w2)
      = Some (UVec4 (Vec4 1 1 1 1)%Q).
Proof.
  apply (texture_flag_follows_last_call "oakl" 1%Q 1%Q 1%Q 1%Q
           (mkWorld Sample2.prepared [])).
  - reflexivity.
  - cbn. lia.
Defined.

(** Uploads under other names leave the value of a uniform as it was. *)
Lemma uniform_value_frame {float mat4 : Type} (name : string)
    (names : list string) (tr tr' : list (event float mat4)) :
  name ∉ names ->
  Forall (fun e => exists n v, e = EvUniform n v /\ n ∈ names) tr' ->
  uniform_value name (tr ++ tr') = uniform_value name tr.
Proof.
  intros Hname Hall. rewrite uniform_value_app.
  assert (uniform_value name tr' = None) as ->; [|reflexivity].
  induction Hall as [|e tr' (n & v & -> & Hn) _ IH]; [reflexivity|].
  cbn [uniform_value]. rewrite IH.
  assert (n <> name) as Hne by (intros ->; contradiction).
  apply String.eqb_neq in Hne. now rewrite Hne.
Qed.

(** A world that differs by uploads under [names] only. *)
Lemma frame_append {float mat4 : Type} (w : World float mat4)
    (names : list string) (tr' : list (event float mat4)) :
  Forall (fun e => exists n v, e = EvUniform n v /\ n ∈ names) tr' ->
  self (mkWorld (self w) (trace w ++ tr')) = self w /\
  forall name, name ∉ names ->
    uniform_value name (trace (mkWorld (self w) (trace w ++ tr')))
    = uniform_value name (trace w).
Proof.
  intros Hall. cbn [self trace]. split; [reflexivity|].
  intros name Hname. now apply (uniform_value_frame name names).
Qed.

Lemma upload_in {float mat4 : Type} (names : list string) (n : string)
    (v : uvalue float mat4) :
  n ∈ names ->
  exists n' v', EvUniform n v = EvUniform n' v' /\ n' ∈ names.
Proof. eauto. Qed.

Ltac frame_uploads :=
  repeat (constructor; [apply upload_in; apply list_elem_of_In; cbn; tauto|]);
  constructor.

Lemma SetTransformations_frame {float mat4 : Type}
    (flit : Q -> float) (glm_radians : float -> float)
    (glm_scale : vec3 float -> mat4) (glm_rotate : float -> vec3 float -> mat4)
    (glm_translate : vec3 float -> mat4) (mat4_mul : mat4 -> mat4 -> mat4)
    (scaleXYZ : vec3 float) (xr yr zr : float) (positionXYZ : vec3 float)
    (w w' : World float mat4) :
  SetTransformations flit glm_radians glm_scale glm_rotate glm_translate
    mat4_mul scaleXYZ xr yr zr positionXYZ w = Ok (tt, w') ->
  self w' = self w /\
  forall name, name ∉ ["model"] ->
    uniform_value name (trace w') = uniform_value name (trace w).
Proof.
  destruct w as [[[|] ar n ms] tr];
    unfold SetTransformations, shader_set, bind, get_self, emit; cbn;
    intros [= <-]; [split; reflexivity|].
  apply (frame_append (mkWorld _ tr) ["model"] [_]). frame_uploads.
Qed.

Lemma SetShaderColor_frame {float mat4 : Type} (r g b a : float)
    (w w' : World float mat4) :
  SetShaderColor r g b a w = Ok (tt, w') ->
  self w' = self w /\
  forall name, name ∉ ["bUseTexture"; "objectColor"] ->
    uniform_value name (trace w') = uniform_value name (trace w).
Proof.
  destruct w as [[[|] ar n ms] tr];
    unfold SetShaderColor, shader_set, bind, get_self, emit; cbn;
    intros [= <-]; [split; reflexivity|].
  rewrite <- app_assoc.
  apply (frame_append (mkWorld _ tr) ["bUseTexture"; "objectColor"] [_; _]).
  frame_uploads.
Qed.

Lemma SetShaderTexture_frame {float mat4 : Type} (textureTag : string)
    (w w' : World float mat4) :
  SetShaderTexture textureTag w = Ok (tt, w') ->
  self w' = self w /\
  forall name, name ∉ ["bUseTexture"; "objectTexture"] ->
    uniform_value name (trace w') = uniform_value name (trace w).
Proof.
  destruct w as [[[|] ar n ms] tr];
    unfold SetShaderTexture, shader_set, bind, get_self, emit, lift; cbn;
    [intros [= <-]; split; reflexivity|].
  destruct (FindTextureSlot _ textureTag) as [i|f]; [|discriminate].
  cbn. intros [= <-]. rewrite <- app_assoc.
  apply (frame_append (mkWorld _ tr) ["bUseTexture"; "objectTexture"] [_; _]).
  frame_uploads.
Qed.

Lemma SetTextureUVScale_frame {float mat4 : Type} (u v : float)
    (w w' : World float mat4) :
  SetTextureUVScale u v w = Ok (tt, w') ->
  self w' = self w /\
  forall name, name ∉ ["UVscale"] ->
    uniform_value name (trace w') = uniform_value name (trace w).
Proof.
  destruct w as [[[|] ar n ms] tr];
    unfold SetTextureUVScale, shader_set, bind, get_self, emit; cbn;
    intros [= <-]; [split; reflexivity|].
  apply (frame_append (mkWorld _ tr) ["UVscale"] [_]). frame_uploads.
Qed.

Lemma SetShaderMaterial_frame {float mat4 : Type}
    (indeterminate : OBJECT_MATERIAL float) (materialTag : string)
    (w w' : World float mat4) :
  SetShaderMaterial indeterminate materialTag w = Ok (tt, w') ->
  self w' = self w /\
  forall name,
    name ∉ ["material.ambientColor"; "material.ambientStrength";
            "material.diffuseColor"; "material.specularColor";
            "material.shininess"] ->
    uniform_value name (trace w') = uniform_value name (trace w).
Proof.
  destruct w as [[p ar n [|e ms]] tr].
  - unfold SetShaderMaterial, bind, get_self. cbn.
    intros [= <-]. split; reflexivity.
  - unfold SetShaderMaterial, FindMaterial. unfold bind at 1, get_self.
    cbn [self m_objectMaterials length Nat.ltb Nat.leb Nat.eqb fst snd].
    destruct p; unfold shader_set, bind, get_self, emit; cbn;
      [discriminate|].
    intros [= <-]. rewrite <- !app_assoc.
    apply (frame_append (mkWorld _ tr)
             ["material.ambientColor"; "material.ambientStrength";
              "material.diffuseColor"; "material.specularColor";
              "material.shininess"] [_; _; _; _; _]).
    frame_uploads.
Qed.

(** X17: the five binding operations never reset what they are not in
    charge of.  Whenever one of them returns, the object is as before and
    every uniform outside its own names holds the value it held:
    [SetTransformations] writes "model" only, [SetShaderColor] the texture
    flag and the colour, [SetShaderTexture] the texture flag and the
    sampler, [SetTextureUVScale] "UVscale", [SetShaderMaterial] the five
    material fields. *)
Theorem binding_operations_frame {float mat4 : Type}
    (flit : Q -> float) (glm_radians : float -> float)
    (glm_scale : vec3 float -> mat4) (glm_rotate : float -> vec3 float -> mat4)
    (glm_translate : vec3 float -> mat4) (mat4_mul : mat4 -> mat4 -> mat4)
    (indeterminate : OBJECT_MATERIAL float) (w w' : World float mat4) :
  let unchanged (names : list string) :=
    self w' = self w /\
    forall name, name ∉ names ->
      uniform_value name (trace w') = uniform_value name (trace w) in
  (forall scaleXYZ xr yr zr positionXYZ,
     SetTransformations flit glm_radians glm_scale glm_rotate glm_translate
       mat4_mul scaleXYZ xr yr zr positionXYZ w = Ok (tt, w') ->
     unchanged ["model"]) /\
  (forall r g b a,
     SetShaderColor r g b a w = Ok (tt, w') ->
     unchanged ["bUseTexture"; "objectColor"]) /\
  (forall textureTag,
     SetShaderTexture textureTag w = Ok (tt, w') ->
     unchanged ["bUseTexture"; "objectTexture"]) /\
  (forall u v,
     SetTextureUVScale u v w = Ok (tt, w') ->
     unchanged ["UVscale"]) /\
  (forall materialTag,
     SetShaderMaterial indeterminate materialTag w = Ok (tt, w') ->
     unchanged ["material.ambientColor"; "material.ambientStrength";
                "material.diffuseColor"; "material.specularColor";
                "material.shininess"]).
Proof.
  intros unchanged. unfold unchanged. clear unchanged.
  split; [intros; eapply SetTransformations_frame; eassumption|].
  split; [intros; eapply SetShaderColor_frame; eassumption|].
  split; [intros; eapply SetShaderTexture_frame; eassumption|].
  split; [intros; eapply SetTextureUVScale_frame; eassumption|].
  intros; eapply SetShaderMaterial_frame; eassumption.
Qed.

Lemma binding_operations_frame_witness :
  self (mkWorld Sample2.prepared
          [EvUniform "UVscale" (UVec2 (Vec2 2 3)%Q)]
        : World Q unit) = Sample2.prepared /\
  forall name, name ∉ ["UVscale"] ->
    uniform_value name
      (trace (mkWorld Sample2.prepared
                [EvUniform "UVscale" (UVec2 (Vec2 2 3)%Q)] : World Q unit))
    = uniform_value name (@nil (event Q unit)).
Proof.
  destruct (binding_operations_frame (fun q => q) (fun d => d)
              Sample2.to_unit1 Sample2.to_unit2 Sample2.to_unit1
              Sample2.mul_unit Sample.garbage_material
              (mkWorld Sample2.prepared [])
              (mkWorld Sample2.prepared
                 [EvUniform "UVscale" (UVec2 (Vec2 2 3)%Q)]))
    as (_ & _ & _ & Huv & _).
  exact (Huv 2%Q 3%Q eq_refl).
Defined.

(** * The scene: preparation and rendering *)

(** ** Computations that only append to the trace *)

Section Renders.
Context {float mat4 : Type}.
Variable P : event float mat4 -> Prop.
Variable s : SceneManager float.

Lemma renders_ret {A} (a : A) : renders P s (ret a) [].
Proof.
  intros tr. exists a, []. rewrite app_nil_r. repeat split. constructor.
Qed.

Lemma renders_bind {A B} (c : M float mat4 A) (k : A -> M float mat4 B)
    (d1 d2 : list mesh_kind) :
  renders P s c d1 -> (forall a, renders P s (k a) d2) ->
  renders P s (bind c k) (d1 ++ d2).
Proof.
  intros Hc Hk tr.
  destruct (Hc tr) as (a & t1 & Hrun1 & Hd1 & HP1).
  destruct (Hk a (tr ++ t1)) as (b & t2 & Hrun2 & Hd2 & HP2).
  exists b, (t1 ++ t2). split; [|split].
  - rewrite (bind_Ok _ _ _ _ _ Hrun1), Hrun2. now rewrite app_assoc.
  - rewrite draw_calls_app. congruence.
  - apply Forall_app. auto.
Qed.

Lemma renders_for_count (body : Z -> M float mat4 unit) (d : list mesh_kind) :
  (forall i, renders P s (body i) d) ->
  forall n i, renders P s (for_count n i body) (concat (replicate n d)).
Proof.
  intros Hbody n. induction n as [|n IH]; intros i; cbn [for_count].
  - apply renders_ret.
  - cbn [replicate concat]. apply renders_bind; [apply Hbody|].
    intros _. apply IH.
Qed.

Lemma renders_eq {A} (c : M float mat4 A) (d d' : list mesh_kind) :
  renders P s c d -> d = d' -> renders P s c d'.
Proof. now intros H <-. Qed.

Lemma renders_emit (e : event float mat4) :
  P e -> renders P s (emit e) (draw_calls [e]).
Proof.
  intros He tr. exists tt, [e]. repeat split. now constructor.
Qed.

(** The shader manager is either missing or its uploads are admitted by
    [P]. *)
Hypothesis shader :
  m_pShaderManager s = NULL \/
  (m_pShaderManager s = PTR /\ forall n v, P (EvUniform n v)).

Lemma renders_shader_set (name : string) (v : uvalue float mat4) :
  m_pShaderManager s = PTR -> renders P s (shader_set name v) [].
Proof.
  intros Hptr tr. unfold shader_set, bind, get_self. cbn [self].
  rewrite Hptr. pose proof shader as [Hnull | [_ Huni]]; [congruence|].
  exists tt, [EvUniform name v]. repeat split. constructor; [apply Huni|].
  constructor.
Qed.

Lemma renders_guarded_set (c : M float mat4 unit) :
  (m_pShaderManager s = PTR -> renders P s c []) ->
  renders P s
    (let* s' := get_self in
     match m_pShaderManager s' with
     | NULL => ret tt
     | PTR => c
     end) [].
Proof.
  intros Hc tr. unfold bind at 1, get_self. cbn [self].
  destruct (m_pShaderManager s) eqn:Hp; [apply renders_ret | now apply Hc].
Qed.

Lemma renders_SetTransformations (flit : Q -> float)
    (glm_radians : float -> float) (glm_scale : vec3 float -> mat4)
    (glm_rotate : float -> vec3 float -> mat4)
    (glm_translate : vec3 float -> mat4) (mat4_mul : mat4 -> mat4 -> mat4)
    (scaleXYZ : vec3 float) (xr yr zr : float) (positionXYZ : vec3 float) :
  renders P s
    (SetTransformations flit glm_radians glm_scale glm_rotate glm_translate
       mat4_mul scaleXYZ xr yr zr positionXYZ) [].
Proof.
  unfold SetTransformations. apply renders_guarded_set.
  apply renders_shader_set.
Qed.

Lemma renders_SetShaderColor (r g b a : float) :
  renders P s (SetShaderColor r g b a) [].
Proof.
  unfold SetShaderColor. apply renders_guarded_set. intros Hptr.
  apply (renders_bind _ _ [] []); [|intros _]; now apply renders_shader_set.
Qed.

Lemma renders_SetTextureUVScale (u v : float) :
  renders P s (SetTextureUVScale u v) [].
Proof.
  unfold SetTextureUVScale. apply renders_guarded_set.
  apply renders_shader_set.
Qed.

Lemma renders_SetShaderTexture (textureTag : string) :
  (m_pShaderManager s = PTR ->
   m_loadedTextures s <= Z.of_nat (length (m_textureIDs s))) ->
  renders P s (SetShaderTexture textureTag) [].
Proof.
  intros Hhi. unfold SetShaderTexture. apply renders_guarded_set.
  intros Hptr. specialize (Hhi Hptr).
  apply (renders_bind _ _ [] []); [now apply renders_shader_set | intros _].
  intros tr. unfold bind at 1, get_self. cbn [self].
  assert (exists i, FindTextureSlot s textureTag = Ok i) as [i Hi].
  { destruct (slots_first_match_or_none s textureTag Hhi)
      as [Hnone | (j & e & Hj & Htag & Hfirst)].
    - exists (-1). now apply lookups_of_no_slot.
    - exists (Z.of_nat j).
      now apply (lookups_of_first_slot s textureTag j e). }
  unfold bind at 1, lift. rewrite Hi.
  now apply renders_shader_set.
Qed.

Lemma renders_SetShaderMaterial (indeterminate : OBJECT_MATERIAL float)
    (materialTag : string) :
  (m_pShaderManager s = NULL -> m_objectMaterials s = []) ->
  renders P s (SetShaderMaterial indeterminate materialTag) [].
Proof.
  intros Hempty tr. unfold SetShaderMaterial. unfold bind at 1, get_self.
  cbn [self]. unfold FindMaterial.
  destruct (m_objectMaterials s) as [|e ms] eqn:Hms.
  - cbn. apply renders_ret.
  - cbn [length Nat.ltb Nat.leb Nat.eqb fst snd].
    assert (m_pShaderManager s = PTR) as Hp.
    { destruct (m_pShaderManager s); [now specialize (Hempty eq_refl)|].
      reflexivity. }
    revert tr.
    repeat (apply (renders_bind _ _ [] []);
            [now apply renders_shader_set | intros _]).
    now apply renders_shader_set.
Qed.
End Renders.

Ltac renders_step :=
  lazymatch goal with
  | |- renders _ _ (bind _ _) _ => eapply renders_bind; [|intros ?]
  | |- renders _ _ (ret _) _ => apply renders_ret
  | |- renders _ _ (SetTransformations _ _ _ _ _ _ _ _ _ _ _) _ =>
      apply renders_SetTransformations; assumption
  | |- renders _ _ (SetShaderColor _ _ _ _) _ =>
      apply renders_SetShaderColor; assumption
  | |- renders _ _ (SetShaderTexture _) _ =>
      apply renders_SetShaderTexture; assumption
  | |- renders _ _ (SetShaderMaterial _ _) _ =>
      apply renders_SetShaderMaterial; assumption
  | |- renders _ _ (shader_set _ _) _ =>
      apply renders_shader_set; assumption
  | |- renders _ _ (emit _) _ => apply renders_emit; auto
  | |- renders _ _ (for_count _ _ _) _ =>
      eapply renders_for_count; intros ?
  end.

(** [RenderScene] on an object whose shader manager is attached, or is
    missing together with all materials. *)
Lemma RenderScene_renders {float mat4 : Type}
    (P : event float mat4 -> Prop) (s : SceneManager float)
    (flit : Q -> float) (glm_radians : float -> float)
    (glm_scale : vec3 float -> mat4) (glm_rotate : float -> vec3 float -> mat4)
    (glm_translate : vec3 float -> mat4) (mat4_mul : mat4 -> mat4 -> mat4)
    (indeterminate : OBJECT_MATERIAL float)
    (fadd fmul : float -> float -> float) (float_of_int : Z -> float) :
  (m_pShaderManager s = NULL \/
   (m_pShaderManager s = PTR /\ forall n v, P (EvUniform n v))) ->
  (forall k, P (EvMesh (DrawMesh k))) ->
  (m_pShaderManager s = PTR ->
   m_loadedTextures s <= Z.of_nat (length (m_textureIDs s))) ->
  (m_pShaderManager s = NULL -> m_objectMaterials s = []) ->
  renders P s
    (RenderScene flit glm_radians glm_scale glm_rotate glm_translate mat4_mul
       indeterminate fadd fmul float_of_int)
    [Plane; Box; Sphere; Sphere; Sphere; Sphere; Sphere; Sphere;
     Box; Box; Box; Box; Box; Box; Box; Cylinder; Cone; Box; Box; Box;
     Cylinder].
Proof.
  intros Hshader Hdraw Hbound Hempty.
  unfold RenderScene, draw, mesh, for_range. cbv zeta.
  eapply renders_eq; [repeat renders_step | reflexivity].
Qed.

(** X18: on an object with a shader manager attached and the counter inside
    the array bound, [RenderScene] returns and leaves the object as it is:
    it appends uniform uploads and draw calls only (no OpenGL call, no mesh
    load, no output), and the draws are the 21 of the scene, in this
    order, whatever textures and materials are registered. *)
Theorem RenderScene_uploads_and_draws_only {float mat4 : Type}
    (flit : Q -> float) (glm_radians : float -> float)
    (glm_scale : vec3 float -> mat4) (glm_rotate : float -> vec3 float -> mat4)
    (glm_translate : vec3 float -> mat4) (mat4_mul : mat4 -> mat4 -> mat4)
    (indeterminate : OBJECT_MATERIAL float)
    (fadd fmul : float -> float -> float) (float_of_int : Z -> float)
    (w : World float mat4) :
  m_pShaderManager (self w) = PTR ->
  m_loadedTextures (self w) <= Z.of_nat (length (m_textureIDs (self w))) ->
  exists tr',
    RenderScene flit glm_radians glm_scale glm_rotate glm_translate mat4_mul
      indeterminate fadd fmul float_of_int w
    = Ok (tt, mkWorld (self w) (trace w ++ tr')) /\
    draw_calls tr' =
      [Plane; Box; Sphere; Sphere; Sphere; Sphere; Sphere; Sphere;
       Box; Box; Box; Box; Box; Box; Box; Cylinder; Cone; Box; Box; Box;
       Cylinder] /\
    Forall is_uniform_or_draw tr'.
Proof.
  intros Hptr Hhi. destruct w as [s tr]. cbn [self trace] in *.
  destruct (RenderScene_renders is_uniform_or_draw s flit glm_radians
              glm_scale glm_rotate glm_translate mat4_mul indeterminate
              fadd fmul float_of_int) with (tr := tr)
    as ([] & tr' & Hrun & Hdraws & Hall).
  - right. split; [exact Hptr|]. intros n v. left. exact I.
  - intros k. right. exact I.
  - intros _. exact Hhi.
  - intros Hnull. congruence.
  - exists tr'. auto.
Qed.

Lemma RenderScene_uploads_and_draws_only_witness :
  exists tr' : list (event Q unit),
    Sample2.render (mkWorld Sample2.prepared [])
    = Ok (tt, mkWorld Sample2.prepared ([] ++ tr')) /\
    draw_calls tr' =
      [Plane; Box; Sphere; Sphere; Sphere; Sphere; Sphere; Sphere;
       Box; Box; Box; Box; Box; Box; Box; Cylinder; Cone; Box; Box; Box;
       Cylinder] /\
    Forall is_uniform_or_draw tr'.
Proof.
  apply (RenderScene_uploads_and_draws_only (fun q => q) (fun d => d)
           Sample2.to_unit1 Sample2.to_unit2 Sample2.to_unit1
           Sample2.mul_unit Sample.garbage_material Qplus Qmult
           Sample2.Q_of_int (mkWorld Sample2.prepared [])).
  - reflexivity.
  - cbn. lia.
Defined.

(** Without a shader manager the two guarded calls that open [RenderScene]
    return at once; [SetShaderMaterial] returns only on an empty registry. *)
Lemma null_guards_return {float mat4 : Type}
    (flit : Q -> float) (glm_radians : float -> float)
    (glm_scale : vec3 float -> mat4) (glm_rotate : float -> vec3 float -> mat4)
    (glm_translate : vec3 float -> mat4) (mat4_mul : mat4 -> mat4 -> mat4)
    (w : World float mat4) :
  m_pShaderManager (self w) = NULL ->
  (forall scaleXYZ xr yr zr positionXYZ,
     SetTransformations flit glm_radians glm_scale glm_rotate glm_translate
       mat4_mul scaleXYZ xr yr zr positionXYZ w = Ok (tt, w)) /\
  (forall r g b a, SetShaderColor r g b a w = Ok (tt, w)).
Proof.
  intros Hnull. unfold SetTransformations, SetShaderColor, bind, get_self.
  rewrite Hnull. split; reflexivity.
Qed.

Lemma SetShaderMaterial_null {float mat4 : Type}
    (indeterminate : OBJECT_MATERIAL float) (materialTag : string)
    (w : World float mat4) :
  m_pShaderManager (self w) = NULL ->
  SetShaderMaterial indeterminate materialTag w =
  match m_objectMaterials (self w) with
  | [] => Ok (tt, w)
  | _ :: _ => Fault NullDereference
  end.
Proof.
  intros Hnull. unfold SetShaderMaterial. unfold bind at 1, get_self.
  unfold FindMaterial.
  destruct (m_objectMaterials (self w)) as [|e l]; [reflexivity|].
  cbn [length Nat.ltb Nat.leb Nat.eqb fst snd].
  unfold shader_set, bind, get_self. now rewrite Hnull.
Qed.

(** X19: without a shader manager the guards of [SetTransformations] and
    [SetShaderColor] do not protect [RenderScene]: with any material defined
    it calls a member of the null pointer, at its first [SetShaderMaterial];
    with no material defined it returns, having appended the 21 draws and
    not one upload. *)
Theorem RenderScene_null_shader_manager {float mat4 : Type}
    (flit : Q -> float) (glm_radians : float -> float)
    (glm_scale : vec3 float -> mat4) (glm_rotate : float -> vec3 float -> mat4)
    (glm_translate : vec3 float -> mat4) (mat4_mul : mat4 -> mat4 -> mat4)
    (indeterminate : OBJECT_MATERIAL float)
    (fadd fmul : float -> float -> float) (float_of_int : Z -> float)
    (w : World float mat4) :
  m_pShaderManager (self w) = NULL ->
  match m_objectMaterials (self w) with
  | _ :: _ =>
      RenderScene flit glm_radians glm_scale glm_rotate glm_translate
        mat4_mul indeterminate fadd fmul float_of_int w
      = Fault NullDereference
  | [] =>
      exists tr',
        RenderScene flit glm_radians glm_scale glm_rotate glm_translate
          mat4_mul indeterminate fadd fmul float_of_int w
        = Ok (tt, mkWorld (self w) (trace w ++ tr')) /\
        length (draw_calls tr') = 21%nat /\
        Forall is_draw tr'
  end.
Proof.
  intros Hnull.
  destruct (m_objectMaterials (self w)) as [|e ms] eqn:Hms.
  - destruct w as [s tr]. cbn [self trace] in *.
    destruct (RenderScene_renders is_draw s flit glm_radians
                glm_scale glm_rotate glm_translate mat4_mul indeterminate
                fadd fmul float_of_int) with (tr := tr)
      as ([] & tr' & Hrun & Hdraws & Hall).
    + left. exact Hnull.
    + intros k. exact I.
    + intros Hptr. congruence.
    + intros _. exact Hms.
    + exists tr'. rewrite Hdraws. auto.
  - unfold RenderScene.
    destruct (null_guards_return flit glm_radians glm_scale glm_rotate
                glm_translate mat4_mul w Hnull) as [Htransform Hcolor].
    erewrite bind_Ok; [|apply Htransform].
    erewrite bind_Ok; [|apply Hcolor].
    apply bind_Fault.
    rewrite (SetShaderMaterial_null indeterminate "plane" w Hnull), Hms.
    reflexivity.
Qed.

Lemma RenderScene_null_shader_manager_witness :
  Sample2.render (mkWorld Sample2.unattached []) = Fault NullDereference.
Proof.
  apply (RenderScene_null_shader_manager (fun q => q) (fun d => d)
           Sample2.to_unit1 Sample2.to_unit2 Sample2.to_unit1
           Sample2.mul_unit Sample.garbage_material Qplus Qmult
           Sample2.Q_of_int (mkWorld Sample2.unattached [])).
  reflexivity.
Defined.

(** ** Preparation *)

(** X20: [SetupSceneLights] has no null guard, and it is the first
    statement of [PrepareScene]: on an object without a shader manager both
    call a member of the null pointer. *)
Theorem PrepareScene_null_shader_manager {float mat4 : Type}
    (flit : Q -> float) (stbi_load : string -> option Image)
    (w : World float mat4) :
  m_pShaderManager (self w) = NULL ->
  SetupSceneLights flit w = Fault NullDereference /\
  PrepareScene flit stbi_load w = Fault NullDereference.
Proof.
  intros Hnull.
  assert (SetupSceneLights flit w = Fault NullDereference) as Hlights.
  { unfold SetupSceneLights. apply bind_Fault.
    unfold setBoolValue, shader_set, bind, get_self. now rewrite Hnull. }
  split; [exact Hlights|].
  unfold PrepareScene. now apply bind_Fault.
Qed.

Lemma PrepareScene_null_shader_manager_witness :
  SetupSceneLights (fun q => q) Sample.detached = Fault NullDereference /\
  PrepareScene (fun q => q) Sample.files Sample.detached
  = Fault NullDereference.
Proof.
  apply (PrepareScene_null_shader_manager (fun q => q) Sample.files
           Sample.detached).
  reflexivity.
Defined.

(** With a shader manager attached [SetupSceneLights] returns, having
    appended uploads only. *)
Lemma SetupSceneLights_renders {float mat4 : Type} (flit : Q -> float)
    (s : SceneManager float) :
  m_pShaderManager s = PTR ->
  renders (mat4 := mat4) is_uniform s (SetupSceneLights flit) [].
Proof.
  intros Hptr.
  assert (m_pShaderManager s = NULL \/
          (m_pShaderManager s = PTR /\
           forall n (v : uvalue float mat4), is_uniform (EvUniform n v)))
    as Hshader by (right; split; [exact Hptr | intros; exact I]).
  unfold SetupSceneLights, setBoolValue, setVec3Value, for_range.
  eapply renders_eq; [repeat renders_step | reflexivity].
Qed.

(** Every call of [CreateGLTexture] on an array with room returns; it
    returns whether the file could be registered, and appends a slot with the
    tag exactly then. *)
Lemma CreateGLTexture_outcome {float mat4 : Type}
    (stbi_load : string -> option Image) (filename tag0 : string)
    (w : World float mat4) :
  0 <= m_loadedTextures (self w) < Z.of_nat (length (m_textureIDs (self w))) ->
  exists w' extra,
    CreateGLTexture stbi_load filename tag0 w
      = Ok (decodable stbi_load filename, w') /\
    extra = (if decodable stbi_load filename then [tag0] else []) /\
    (length extra <= 1)%nat /\
    m_pShaderManager (self w') = m_pShaderManager (self w) /\
    m_objectMaterials (self w') = m_objectMaterials (self w) /\
    length (m_textureIDs (self w')) = length (m_textureIDs (self w)) /\
    m_loadedTextures (self w')
      = m_loadedTextures (self w) + Z.of_nat (length extra) /\
    map tag (slots (self w')) = map tag (slots (self w)) ++ extra.
Proof.
  intros Hroom. unfold decodable.
  destruct (stbi_load filename) as [image|] eqn:Hload.
  - destruct (decide (colorChannels image = 3 \/ colorChannels image = 4))
      as [Hch|Hch].
    + destruct (CreateGLTexture_succeeds stbi_load filename tag0 image w
                  Hload Hch Hroom)
        as (w' & Hrun & Hp & Hm & Hn & Hlen & Hslots).
      assert ((colorChannels image =? 3) || (colorChannels image =? 4) = true)
        as -> by (apply orb_true_iff; rewrite !Z.eqb_eq; exact Hch).
      exists w', [tag0]. rewrite Hslots, map_app. cbn. auto 12.
    + assert ((colorChannels image =? 3) || (colorChannels image =? 4) = false)
        as ->.
      { apply orb_false_iff. rewrite !Z.eqb_neq. tauto. }
      destruct (CreateGLTexture_fails stbi_load filename tag0 w)
        as (w' & Hrun & Hself).
      { rewrite Hload. tauto. }
      exists w', []. rewrite Hself, app_nil_r, Z.add_0_r. cbn. auto 12.
  - destruct (CreateGLTexture_fails stbi_load filename tag0 w)
      as (w' & Hrun & Hself).
    { now rewrite Hload. }
    exists w', []. rewrite Hself, app_nil_r, Z.add_0_r. cbn. auto 12.
Qed.

Lemma mesh_world {float mat4 : Type} (c : mesh_call) (w : World float mat4) :
  mesh c w = Ok (tt, mkWorld (self w) (trace w ++ [EvMesh c])).
Proof. reflexivity. Qed.

(** X21: on an object with a shader manager attached and room for five more
    slots, [PrepareScene] returns for every content of the five files.  It
    appends the nine materials, and registers the files that decode with 3
    or 4 channels, in the order oakd, oakl, brass, carpet, sheet: a file
    that cannot be registered is skipped, and the slots behind it move up. *)
Theorem PrepareScene_registers_what_decodes {float mat4 : Type}
    (flit : Q -> float) (stbi_load : string -> option Image)
    (w : World float mat4) :
  m_pShaderManager (self w) = PTR ->
  0 <= m_loadedTextures (self w) ->
  m_loadedTextures (self w) + 5 <= Z.of_nat (length (m_textureIDs (self w))) ->
  let registered :=
    registered_tags stbi_load
      [("textures/oakd.jpg", "oakd"); ("textures/oakl.jpg", "oakl");
       ("textures/brass.jpg", "brass"); ("textures/carpet.jpg", "carpet");
       ("textures/sheet.jpg", "sheet")] in
  exists w',
    PrepareScene flit stbi_load w = Ok (tt, w') /\
    m_pShaderManager (self w') = PTR /\
    length (m_textureIDs (self w')) = length (m_textureIDs (self w)) /\
    m_objectMaterials (self w') =
      m_objectMaterials (self w) ++
      [planeMaterial flit; cylinderMaterial flit; boxMaterial flit;
       sphereMaterial flit; lampBaseMaterial flit; lampShadeMaterial flit;
       bedMaterial flit; pillowMaterial flit; rugMaterial flit] /\
    map tag (slots (self w')) = map tag (slots (self w)) ++ registered /\
    m_loadedTextures (self w')
      = m_loadedTextures (self w) + Z.of_nat (length registered).
Proof.
  intros Hptr Hlo Hroom registered.
  destruct (SetupSceneLights_renders (mat4 := mat4) flit (self w) Hptr
              (trace w)) as ([] & t1 & Hlights & _ & _).
  replace (mkWorld (self w) (trace w)) with w in Hlights by now destruct w.
  pose proof (DefineObjectMaterials_world flit
                (mkWorld (self w) (trace w ++ t1))) as Hdefine.
  cbn [self trace] in Hdefine.
  set (s2 := mkSceneManager (m_pShaderManager (self w)) (m_textureIDs (self w))
               (m_loadedTextures (self w))
               (m_objectMaterials (self w) ++
                [planeMaterial flit; cylinderMaterial flit; boxMaterial flit;
                 sphereMaterial flit; lampBaseMaterial flit;
                 lampShadeMaterial flit; bedMaterial flit;
                 pillowMaterial flit; rugMaterial flit])) in *.
  set (w3 := mkWorld s2
               ((((((trace w ++ t1) ++ [EvMesh (LoadMesh Plane)]) ++
                  [EvMesh (LoadMesh Box)]) ++ [EvMesh (LoadMesh Sphere)]) ++
                [EvMesh (LoadMesh Cylinder)]) ++ [EvMesh (LoadMesh Cone)])).
  assert (exists w',
            (CreateGLTexture stbi_load "textures/oakd.jpg" "oakd" ;;;
             CreateGLTexture stbi_load "textures/oakl.jpg" "oakl" ;;;
             CreateGLTexture stbi_load "textures/brass.jpg" "brass" ;;;
             CreateGLTexture stbi_load "textures/carpet.jpg" "carpet" ;;;
             CreateGLTexture stbi_load "textures/sheet.jpg" "sheet" ;;;
             ret tt) w3 = Ok (tt, w') /\
            m_pShaderManager (self w') = m_pShaderManager s2 /\
            m_objectMaterials (self w') = m_objectMaterials s2 /\
            length (m_textureIDs (self w')) = length (m_textureIDs s2) /\
            map tag (slots (self w')) = map tag (slots s2) ++ registered /\
            m_loadedTextures (self w')
              = m_loadedTextures s2 + Z.of_nat (length registered))
    as (w' & Hrun & Hp & Hm & Hlen & Htags & Hn).
  { assert (m_loadedTextures (self w3) = m_loadedTextures (self w)) as Hn3
      by reflexivity.
    assert (length (m_textureIDs (self w3)) = length (m_textureIDs (self w)))
      as Hlen3 by reflexivity.
    destruct (CreateGLTexture_outcome stbi_load "textures/oakd.jpg" "oakd"
                w3)
      as (w4 & x1 & Hrun1 & Hx1 & Hb1 & Hp1 & Hm1 & Hlen1 & Hn1 & Htags1);
      [lia|].
    destruct (CreateGLTexture_outcome stbi_load "textures/oakl.jpg" "oakl"
                w4)
      as (w5 & x2 & Hrun2 & Hx2 & Hb2 & Hp2 & Hm2 & Hlen2 & Hn2 & Htags2);
      [lia|].
    destruct (CreateGLTexture_outcome stbi_load "textures/brass.jpg" "brass"
                w5)
      as (w6 & x3 & Hrun3 & Hx3 & Hb3 & Hp3 & Hm3 & Hlen3' & Hn3' & Htags3);
      [lia|].
    destruct (CreateGLTexture_outcome stbi_load "textures/carpet.jpg"
                "carpet" w6)
      as (w7 & x4 & Hrun4 & Hx4 & Hb4 & Hp4 & Hm4 & Hlen4 & Hn4 & Htags4);
      [lia|].
    destruct (CreateGLTexture_outcome stbi_load "textures/sheet.jpg" "sheet"
                w7)
      as (w8 & x5 & Hrun5 & Hx5 & Hb5 & Hp5 & Hm5 & Hlen5 & Hn5 & Htags5);
      [lia|].
    exists w8. split.
    { erewrite bind_Ok; [|exact Hrun1]. erewrite bind_Ok; [|exact Hrun2].
      erewrite bind_Ok; [|exact Hrun3]. erewrite bind_Ok; [|exact Hrun4].
      erewrite bind_Ok; [|exact Hrun5]. reflexivity. }
    split; [rewrite Hp5, Hp4, Hp3, Hp2, Hp1; reflexivity|].
    split; [rewrite Hm5, Hm4, Hm3, Hm2, Hm1; reflexivity|].
    split; [rewrite Hlen5, Hlen4, Hlen3', Hlen2, Hlen1; reflexivity|].
    change (self w3) with s2 in *.
    assert (registered = x1 ++ x2 ++ x3 ++ x4 ++ x5) as ->.
    { subst x1 x2 x3 x4 x5. unfold registered, registered_tags.
      cbn [List.filter map fst snd].
      destruct (decodable stbi_load "textures/oakd.jpg"),
               (decodable stbi_load "textures/oakl.jpg"),
               (decodable stbi_load "textures/brass.jpg"),
               (decodable stbi_load "textures/carpet.jpg"),
               (decodable stbi_load "textures/sheet.jpg"); reflexivity. }
    split.
    - rewrite Htags5, Htags4, Htags3, Htags2, Htags1.
      now rewrite <- !app_assoc.
    - rewrite !length_app. lia. }
  exists w'. split.
  { unfold PrepareScene.
    erewrite bind_Ok; [|exact Hlights].
    erewrite bind_Ok; [|exact Hdefine].
    repeat (erewrite bind_Ok; [|apply mesh_world]; cbn [self trace]).
    exact Hrun. }
  rewrite Hp, Hm, Hlen, Htags, Hn. cbn [s2 m_pShaderManager m_objectMaterials
    m_textureIDs m_loadedTextures]. auto.
Qed.

Lemma PrepareScene_registers_what_decodes_witness :
  exists w' : World Q unit,
    PrepareScene (fun q => q) Sample.files Sample.fresh = Ok (tt, w') /\
    map tag (slots (self w')) = ["oakd"; "oakl"; "brass"; "carpet"; "sheet"] /\
    m_loadedTextures (self w') = 5.
Proof.
  destruct (PrepareScene_registers_what_decodes (mat4 := unit) (fun q => q)
              Sample.files Sample.fresh)
    as (w' & Hrun & _ & _ & _ & Htags & Hn).
  - reflexivity.
  - cbn. lia.
  - cbn. lia.
  - exists w'. split; [exact Hrun|]. split; [exact Htags | exact Hn].
Defined.

(** X22: on an object with room for three more slots, [LoadSceneTextures]
    returns for every content of its three files; it registers the files
    that decode with 3 or 4 channels, in the order oakd, oakl, brass, and
    ends with every registered slot, old or new, bound to the texture unit
    of its index. *)
Theorem LoadSceneTextures_binds_what_decodes {float mat4 : Type}
    (stbi_load : string -> option Image) (w : World float mat4) :
  0 <= m_loadedTextures (self w) ->
  m_loadedTextures (self w) + 3 <= Z.of_nat (length (m_textureIDs (self w))) ->
  exists w',
    LoadSceneTextures stbi_load w = Ok (tt, w') /\
    map tag (slots (self w')) =
      map tag (slots (self w)) ++
      registered_tags stbi_load
        [("textures/oakd.jpg", "oakd"); ("textures/oakl.jpg", "oakl");
         ("textures/brass.jpg", "brass")] /\
    (forall i e, slots (self w') !! i = Some e ->
                 texture_bound_to (trace w') (Z.of_nat i) = ID e).
Proof.
  intros Hlo Hroom.
  destruct (CreateGLTexture_outcome stbi_load "textures/oakd.jpg" "oakd" w)
    as (w1 & x1 & Hrun1 & Hx1 & Hb1 & _ & _ & Hlen1 & Hn1 & Htags1); [lia|].
  destruct (CreateGLTexture_outcome stbi_load "textures/oakl.jpg" "oakl" w1)
    as (w2 & x2 & Hrun2 & Hx2 & Hb2 & _ & _ & Hlen2 & Hn2 & Htags2); [lia|].
  destruct (CreateGLTexture_outcome stbi_load "textures/brass.jpg" "brass" w2)
    as (w3 & x3 & Hrun3 & Hx3 & Hb3 & _ & _ & Hlen3 & Hn3 & Htags3); [lia|].
  assert (m_loadedTextures (self w3)
          <= Z.of_nat (length (m_textureIDs (self w3)))) as Hhi by lia.
  eexists. split.
  { unfold LoadSceneTextures.
    erewrite bind_Ok; [|exact Hrun1]. erewrite bind_Ok; [|exact Hrun2].
    erewrite bind_Ok; [|exact Hrun3].
    exact (BindGLTextures_world w3 Hhi). }
  cbn [self trace]. split.
  - rewrite Htags3, Htags2, Htags1. subst x1 x2 x3.
    unfold registered_tags. cbn [List.filter map fst snd].
    destruct (decodable stbi_load "textures/oakd.jpg"),
             (decodable stbi_load "textures/oakl.jpg"),
             (decodable stbi_load "textures/brass.jpg");
      now rewrite <- !app_assoc.
  - intros i e He. unfold texture_bound_to. rewrite gl_replay_app.
    destruct (binding_calls_replay (float := float) (mat4 := mat4)
                (slots (self w3)) 0 (gl_replay (trace w3) (0, [])))
      as [Hin _].
    rewrite <- (Hin i e He). reflexivity.
Qed.

Lemma LoadSceneTextures_binds_what_decodes_witness :
  exists w' : World Q unit,
    LoadSceneTextures Sample.files Sample.fresh = Ok (tt, w') /\
    map tag (slots (self w')) =
      map tag (slots (self Sample.fresh)) ++
      registered_tags Sample.files
        [("textures/oakd.jpg", "oakd"); ("textures/oakl.jpg", "oakl");
         ("textures/brass.jpg", "brass")] /\
    (forall i e, slots (self w') !! i = Some e ->
                 texture_bound_to (trace w') (Z.of_nat i) = ID e).
Proof.
  apply (LoadSceneTextures_binds_what_decodes Sample.files Sample.fresh).
  - cbn. lia.
  - cbn. lia.
Defined.

(** X23: [FindMaterial] returns [false] exactly when no material is
    defined; the output is then as it was.  With any material defined it
    returns [true], also for a tag that no entry carries. *)
Theorem FindMaterial_false_exactly_on_empty_registry {float : Type}
    (s : SceneManager float) (tag0 : string)
    (material : OBJECT_MATERIAL float) :
  (m_objectMaterials s = [] <->
   FindMaterial s tag0 material = (false, material)) /\
  (m_objectMaterials s <> [] <-> fst (FindMaterial s tag0 material) = true).
Proof.
  unfold FindMaterial.
  destruct (m_objectMaterials s) as [|e l]; cbn [length Nat.eqb fst];
    (split; split; intros H); try reflexivity; try discriminate; congruence.
Qed.

(** ** The invariant of the array and its counter *)

Lemma decodable_true (stbi_load : string -> option Image) (filename : string) :
  decodable stbi_load filename = true ->
  exists image,
    stbi_load filename = Some image /\
    (colorChannels image = 3 \/ colorChannels image = 4).
Proof.
  unfold decodable. destruct (stbi_load filename) as [image|]; [|discriminate].
  intros H. apply orb_true_iff in H. rewrite !Z.eqb_eq in H. eauto.
Qed.

Lemma decodable_false (stbi_load : string -> option Image)
    (filename : string) :
  decodable stbi_load filename = false ->
  match stbi_load filename with
  | None => True
  | Some image => colorChannels image <> 3 /\ colorChannels image <> 4
  end.
Proof.
  unfold decodable. destruct (stbi_load filename) as [image|]; [|auto].
  intros H. apply orb_false_iff in H. now rewrite !Z.eqb_neq in H.
Qed.

(** X5: from an object with the counter inside the array bound, what
    [CreateGLTexture] does is decided by the room left and by the file.  On
    a full array, a file that decodes with 3 or 4 channels makes it index
    the array at [m_loadedTextures], outside the bound (undefined behaviour
    in C++, [Fault] here): no state that keeps the invariant results.  In every other case (room left, or a file that cannot be
    registered) the call returns whether the file could be registered, the
    counter grows by one exactly then and stays inside the bound, and the
    length of the array, the pointer and the materials are as before. *)
Theorem CreateGLTexture_keeps_invariant_unless_full {float mat4 : Type}
    (stbi_load : string -> option Image) (filename tag0 : string)
    (w : World float mat4) :
  slots_in_bounds (self w) ->
  if (m_loadedTextures (self w) =? Z.of_nat (length (m_textureIDs (self w))))
     && decodable stbi_load filename
  then
    CreateGLTexture stbi_load filename tag0 w
    = Fault (OutOfBounds (m_loadedTextures (self w)))
  else
    exists w',
      CreateGLTexture stbi_load filename tag0 w
        = Ok (decodable stbi_load filename, w') /\
      slots_in_bounds (self w') /\
      m_loadedTextures (self w')
        = m_loadedTextures (self w)
          + (if decodable stbi_load filename then 1 else 0) /\
      length (m_textureIDs (self w')) = length (m_textureIDs (self w)) /\
      m_pShaderManager (self w') = m_pShaderManager (self w) /\
      m_objectMaterials (self w') = m_objectMaterials (self w).
Proof.
  intros [Hlo Hhi].
  destruct (decodable stbi_load filename) eqn:Hdec.
  - destruct (Z.eqb_spec (m_loadedTextures (self w))
                (Z.of_nat (length (m_textureIDs (self w))))) as [Hfull|Hroom];
      cbn [andb].
    + destruct (decodable_true stbi_load filename Hdec)
        as (image & Hload & Hch).
      exact (CreateGLTexture_full_array stbi_load filename tag0 image w
               Hload Hch Hfull).
    + destruct (CreateGLTexture_outcome stbi_load filename tag0 w)
        as (w' & x & Hrun & Hx & _ & Hp & Hm & Hlen & Hn & _); [lia|].
      rewrite Hdec in Hrun, Hx. subst x. cbn [length] in Hn.
      exists w'. split; [exact Hrun|].
      unfold slots_in_bounds. rewrite Hn, Hlen. repeat split; auto; lia.
  - rewrite andb_false_r.
    destruct (CreateGLTexture_fails stbi_load filename tag0 w
                (decodable_false stbi_load filename Hdec))
      as (w' & Hrun & Hself).
    exists w'. rewrite Hself, Z.add_0_r.
    repeat split; auto.
Qed.

Lemma CreateGLTexture_keeps_invariant_unless_full_witness :
  exists w' : World Q unit,
    CreateGLTexture Sample.files "textures/carpet.jpg" "carpet"
      (mkWorld Sample2.prepared []) = Ok (true, w') /\
    slots_in_bounds (self w') /\
    m_loadedTextures (self w') = m_loadedTextures Sample2.prepared + 1 /\
    length (m_textureIDs (self w')) = length (m_textureIDs Sample2.prepared) /\
    m_pShaderManager (self w') = m_pShaderManager Sample2.prepared /\
    m_objectMaterials (self w') = m_objectMaterials Sample2.prepared.
Proof.
  apply (CreateGLTexture_keeps_invariant_unless_full Sample.files
           "textures/carpet.jpg" "carpet" (mkWorld Sample2.prepared [])).
  unfold slots_in_bounds. cbn. lia.
Defined.
